(** * lovable-mcp-server: the analysis engine of [enhanced-simple-server.js]

    A shallow embedding of the eight analysis tools, the resource and prompt
    readers and the three request handlers, followed by the properties the
    specification states about them.

    Conventions of the embedding:
    - a JavaScript string is the list of its UTF-16 code units;
    - a regular expression literal is a term of [re], run by a backtracking
      matcher that follows the ECMAScript order of alternatives and greedy
      quantifiers;
    - an [async] function whose body sits in [try { ... } catch (error)] is a
      computation in the [result] monad ([Throw] is a rejected promise or a
      thrown [Error]) followed by the handler of the [catch];
    - the object handed to [JSON.stringify] is a record; the serialisation
      itself is not modelled. *)

From Stdlib Require Import String Ascii.
From Stdlib Require Import List NArith ZArith Bool Arith Lia.
From Stdlib Require Import Permutation Sorted PrimFloat.
Import ListNotations.

Set Implicit Arguments.
#[local] Set Warnings "-register-all".

(** ** JavaScript strings *)

Module JS.

Definition char := N.
Definition jsstring := list char.

(** An ASCII literal of the source, as code units. *)
Definition js (s : string) : jsstring :=
  map N_of_ascii (list_ascii_of_string s).

Fixpoint str_eqb (a b : jsstring) : bool :=
  match a, b with
  | [], [] => true
  | x :: a', y :: b' => N.eqb x y && str_eqb a' b'
  | _, _ => false
  end.

(** [s.startsWith(p)] *)
Fixpoint startsWith (s p : jsstring) : bool :=
  match p, s with
  | [], _ => true
  | x :: p', y :: s' => N.eqb x y && startsWith s' p'
  | _ :: _, [] => false
  end.

(** [s.endsWith(p)] *)
Definition endsWith (s p : jsstring) : bool :=
  startsWith (rev s) (rev p).

(** [s.includes(p)] *)
Fixpoint includes (s p : jsstring) : bool :=
  startsWith s p ||
  match s with
  | [] => false
  | _ :: s' => includes s' p
  end.

(** [s.replace(p, r)] with a string pattern: only the first occurrence of
    [p] is replaced. *)
Fixpoint replace (s p r : jsstring) : jsstring :=
  if startsWith s p then r ++ skipn (length p) s
  else match s with
       | [] => []
       | c :: s' => c :: replace s' p r
       end.

(** [s.slice(0, n)] and [array.slice(0, n)] for [n >= 0]. *)
Definition slice0 {A} (n : nat) (l : list A) : list A := firstn n l.

(** [s.slice(a, b)] for [0 <= a] and [0 <= b]. *)
Definition slice {A} (a b : nat) (l : list A) : list A :=
  firstn (b - a) (skipn a l).

(** [s.split(sep)] for a separator of one code unit. *)
Fixpoint split_char (sep : char) (cur : jsstring) (s : jsstring)
  : list jsstring :=
  match s with
  | [] => [rev cur]
  | c :: s' =>
      if N.eqb c sep then rev cur :: split_char sep [] s'
      else split_char sep (c :: cur) s'
  end.

Definition split (s : jsstring) (sep : char) : list jsstring :=
  split_char sep [] s.

(** Character classes.  [\s] is WhiteSpace together with LineTerminator;
    [\w] is ASCII only (none of the expressions carries the [u] flag). *)
Definition is_space (c : char) : bool :=
  existsb (N.eqb c)
    [9; 10; 11; 12; 13; 32; 160; 5760; 8232; 8233; 8239; 8287; 12288; 65279]%N
  || (N.leb 8192 c && N.leb c 8202)%N.

Definition in_range (lo hi c : char) : bool := N.leb lo c && N.leb c hi.

Definition is_upper (c : char) : bool := in_range 65%N 90%N c.
Definition is_lower (c : char) : bool := in_range 97%N 122%N c.
Definition is_digit (c : char) : bool := in_range 48%N 57%N c.
Definition is_alnum (c : char) : bool := is_lower c || is_upper c || is_digit c.
Definition is_word (c : char) : bool := is_alnum c || N.eqb c 95%N.

Definition is_quote (c : char) : bool := N.eqb c 34%N || N.eqb c 39%N.
Definition is_not (l : list char) (c : char) : bool := negb (existsb (N.eqb c) l).

(** Canonicalisation under the [i] flag without [u]: a code unit outside
    ASCII never canonicalises to an ASCII one, so for the ASCII literals of
    the source only the ASCII letters fold. *)
Definition canonicalize (c : char) : char :=
  if is_lower c then (c - 32)%N else c.

(** [s.toUpperCase()] on the ASCII method names it is applied to. *)
Definition toUpperCase (s : jsstring) : jsstring := map canonicalize s.

(** [s.trim()] *)
Fixpoint trimStart (s : jsstring) : jsstring :=
  match s with
  | c :: s' => if is_space c then trimStart s' else s
  | [] => []
  end.

Definition trim (s : jsstring) : jsstring :=
  rev (trimStart (rev (trimStart s))).

(** Decimal rendering of an array index. *)
Fixpoint digits (fuel n : nat) (acc : jsstring) : jsstring :=
  match fuel with
  | O => acc
  | S fuel' =>
      let acc' := N.of_nat (48 + n mod 10) :: acc in
      if n / 10 =? 0 then acc' else digits fuel' (n / 10) acc'
  end.

Definition String_of_index (n : nat) : jsstring := digits (S n) n [].

(** ** Regular expressions *)

Inductive re : Type :=
| Chars (s : jsstring)            (* a run of literal code units *)
| Class (p : char -> bool)        (* one code unit of a class *)
| Star (p : char -> bool)         (* [X*], greedy, X a class *)
| Plus (p : char -> bool)         (* [X+], greedy, X a class *)
| Seq (a b : re)
| Alt (a b : re)                  (* [a|b], [a] tried first *)
| Opt (a : re)                    (* [(?:a)?], greedy *)
| Group (i : nat) (a : re)        (* capturing group number [i] *)
| WordBoundary                    (* [\b] *)
| Bos.                            (* [^] without the [m] flag *)

(** The state of a match attempt: the code unit before the cursor, the input
    after it, the index of the cursor and the captures made so far. *)
Record mstate := MState {
  before : option char;
  rest : jsstring;
  pos : nat;
  caps : list (nat * jsstring)
}.

Definition cont := mstate -> option mstate.

Definition chr_eqb (ci : bool) (a b : char) : bool :=
  if ci then N.eqb (canonicalize a) (canonicalize b) else N.eqb a b.

Fixpoint eat (ci : bool) (l : jsstring) (s : mstate) : option mstate :=
  match l with
  | [] => Some s
  | x :: l' =>
      match rest s with
      | c :: t =>
          if chr_eqb ci x c
          then eat ci l' (MState (Some c) t (S (pos s)) (caps s))
          else None
      | [] => None
      end
  end.

(** Greedy iteration of a class: take one more code unit when possible and
    fall back to the continuation at the current point when the rest of the
    expression fails further on. *)
Fixpoint star (p : char -> bool) (k : cont) (bef : option char)
  (l : jsstring) (n : nat) (cs : list (nat * jsstring)) : option mstate :=
  match l with
  | c :: t =>
      if p c then
        match star p k (Some c) t (S n) cs with
        | Some r => Some r
        | None => k (MState bef l n cs)
        end
      else k (MState bef l n cs)
  | [] => k (MState bef [] n cs)
  end.

Definition is_word_opt (c : option char) : bool :=
  match c with Some c => is_word c | None => false end.

Fixpoint m (ci : bool) (r : re) (k : cont) (s : mstate) : option mstate :=
  match r with
  | Chars l => match eat ci l s with Some s' => k s' | None => None end
  | Class p =>
      match rest s with
      | c :: t => if p c then k (MState (Some c) t (S (pos s)) (caps s)) else None
      | [] => None
      end
  | Star p => star p k (before s) (rest s) (pos s) (caps s)
  | Plus p =>
      match rest s with
      | c :: t => if p c then star p k (Some c) t (S (pos s)) (caps s) else None
      | [] => None
      end
  | Seq a b => m ci a (m ci b k) s
  | Alt a b =>
      match m ci a k s with
      | Some r => Some r
      | None => m ci b k s
      end
  | Opt a =>
      match m ci a k s with
      | Some r => Some r
      | None => k s
      end
  | Group i a =>
      m ci a (fun s' =>
        k (MState (before s') (rest s') (pos s')
             ((i, firstn (pos s' - pos s) (rest s)) :: caps s'))) s
  | WordBoundary =>
      if xorb (is_word_opt (before s)) (is_word_opt (hd_error (rest s)))
      then k s else None
  | Bos => if pos s =? 0 then k s else None
  end.

(** A successful match: the matched text and the captures. *)
Record rmatch := RMatch {
  whole : jsstring;
  groups : list (nat * jsstring)
}.

(** [match[i]]; [None] is [undefined]. *)
Fixpoint group (i : nat) (gs : list (nat * jsstring)) : option jsstring :=
  match gs with
  | [] => None
  | (j, v) :: gs' => if i =? j then Some v else group i gs'
  end.

Definition match_here (ci : bool) (r : re) (bef : option char)
  (l : jsstring) (n : nat) : option (nat * rmatch) :=
  match m ci r Some (MState bef l n []) with
  | Some s' => Some (pos s' - n, RMatch (firstn (pos s' - n) l) (caps s'))
  | None => None
  end.

(** The first match at or after the cursor: [r.exec(s)] and [s.match(r)]
    for an expression without the [g] flag. *)
Fixpoint search (ci : bool) (r : re) (bef : option char) (l : jsstring)
  (n : nat) : option rmatch :=
  match match_here ci r bef l n with
  | Some (_, x) => Some x
  | None =>
      match l with
      | c :: t => search ci r (Some c) t (S n)
      | [] => None
      end
  end.

Definition exec (ci : bool) (r : re) (s : jsstring) : option rmatch :=
  search ci r None s 0.

(** [r.test(s)] for an expression without the [g] flag. *)
Definition test (ci : bool) (r : re) (s : jsstring) : bool :=
  match exec ci r s with Some _ => true | None => false end.

(** All the matches of an expression with the [g] flag, left to right and
    without overlap: the sequence produced by [while ((match = r.exec(s)) !==
    null)], by [s.matchAll(r)] and by [s.match(r)].  After a match of length
    [len] the next attempt starts [len] code units further (one further
    after an empty match).  [skip] counts the code units still covered by
    the previous match. *)
Fixpoint scan (ci : bool) (r : re) (bef : option char) (l : jsstring)
  (n skip : nat) : list rmatch :=
  match skip with
  | S skip' =>
      match l with
      | c :: t => scan ci r (Some c) t (S n) skip'
      | [] => []
      end
  | O =>
      match match_here ci r bef l n with
      | Some (len, x) =>
          x :: match l with
               | c :: t => scan ci r (Some c) t (S n) (pred len)
               | [] => []
               end
      | None =>
          match l with
          | c :: t => scan ci r (Some c) t (S n) 0
          | [] => []
          end
      end
  end.

Definition exec_all (ci : bool) (r : re) (s : jsstring) : list rmatch :=
  scan ci r None s 0 0.

(** [s.split(r)] for an expression without capturing groups: the separator
    is looked for at each index [q]; a match ending where the current piece
    starts ([e = p]) is passed over. *)
Fixpoint split_scan (ci : bool) (r : re) (bef : option char) (l : jsstring)
  (q skip p : nat) (cur : jsstring) : list jsstring :=
  match l with
  | [] => [rev cur]
  | c :: t =>
      match skip with
      | S skip' => split_scan ci r (Some c) t (S q) skip' p cur
      | O =>
          match match_here ci r bef l q with
          | Some (len, _) =>
              if q + len =? p then split_scan ci r (Some c) t (S q) 0 p (c :: cur)
              else if len =? 0 then rev cur :: split_scan ci r (Some c) t (S q) 0 q [c]
              else rev cur :: split_scan ci r (Some c) t (S q) (pred len) (q + len) []
          | None => split_scan ci r (Some c) t (S q) 0 p (c :: cur)
          end
      end
  end.

Definition split_re (ci : bool) (r : re) (s : jsstring) : list jsstring :=
  match s with
  | [] => match match_here ci r None [] 0 with Some _ => [] | None => [[]] end
  | _ => split_scan ci r None s 0 0 0 []
  end.

(** Shorthands for writing the expressions of the source. *)
Definition lit (s : string) : re := Chars (js s).

Fixpoint cat (l : list re) : re :=
  match l with
  | [] => Chars []
  | [r] => r
  | r :: l' => Seq r (cat l')
  end.

Fixpoint any_of (l : list string) : re :=
  match l with
  | [] => Class (fun _ => false)
  | [s] => lit s
  | s :: l' => Alt (lit s) (any_of l')
  end.

Definition ws : re := Star is_space.        (* \s* *)
Definition ws1 : re := Plus is_space.       (* \s+ *)
Definition quote : re := Class is_quote.    (* a double or a single quote *)
Definition unquoted1 : re := Plus (is_not [34; 39]%N).  (* one or more non-quotes *)
Definition word1 : re := Plus is_word.      (* \w+ *)

End JS.

Import JS.

(** ** [path.basename] of Node (POSIX flavour)

    A transcription of the library function: the path is walked from its
    last code unit towards the first, with the same five variables. *)

Module Path.

Record scan_state := ScanState {
  start : Z;
  end_ : Z;
  matchedSlash : bool;
  extIdx : Z;
  firstNonSlashEnd : Z;
  stopped : bool                       (* the [break] was taken *)
}.

Definition CHAR_FORWARD_SLASH : char := 47%N.

Definition charCodeAt (s : jsstring) (i : Z) : char :=
  nth (Z.to_nat i) s 0%N.

(** One iteration of the loop of the branch taken when a suffix is given. *)
Definition step_suffix (suffix : jsstring) (st : scan_state) (i : Z)
  (code : char) : scan_state :=
  if stopped st then st
  else if N.eqb code CHAR_FORWARD_SLASH then
    if negb (matchedSlash st)
    then ScanState (i + 1) (end_ st) (matchedSlash st) (extIdx st)
           (firstNonSlashEnd st) true
    else st
  else
    let st1 :=
      if Z.eqb (firstNonSlashEnd st) (-1)
      then ScanState (start st) (end_ st) false (extIdx st) (i + 1) false
      else st in
    if Z.leb 0 (extIdx st1) then
      if N.eqb code (charCodeAt suffix (extIdx st1)) then
        let e := (extIdx st1 - 1)%Z in
        ScanState (start st1) (if Z.eqb e (-1) then i else end_ st1)
          (matchedSlash st1) e (firstNonSlashEnd st1) false
      else
        ScanState (start st1) (firstNonSlashEnd st1) (matchedSlash st1) (-1)
          (firstNonSlashEnd st1) false
    else st1.

(** One iteration of the loop of the branch without suffix. *)
Definition step_plain (st : scan_state) (i : Z) (code : char) : scan_state :=
  if stopped st then st
  else if N.eqb code CHAR_FORWARD_SLASH then
    if negb (matchedSlash st)
    then ScanState (i + 1) (end_ st) (matchedSlash st) (extIdx st)
           (firstNonSlashEnd st) true
    else st
  else if Z.eqb (end_ st) (-1)
  then ScanState (start st) (i + 1) false (extIdx st) (firstNonSlashEnd st) false
  else st.

(** [for (let i = path.length - 1; i >= 0; --i)]: [rpath] is the path
    reversed, [i] the index of its head. *)
Fixpoint loop (step : scan_state -> Z -> char -> scan_state)
  (rpath : jsstring) (i : Z) (st : scan_state) : scan_state :=
  match rpath with
  | [] => st
  | code :: rpath' => loop step rpath' (i - 1) (step st i code)
  end.

Definition zslice (s : jsstring) (a b : Z) : jsstring :=
  slice (Z.to_nat a) (Z.to_nat b) s.

Definition basename (path suffix : jsstring) : jsstring :=
  let len := Z.of_nat (List.length path) in
  if negb (Nat.eqb (List.length suffix) 0)
     && Nat.leb (List.length suffix) (List.length path)
  then
    if str_eqb suffix path then []
    else
      let st := loop (step_suffix suffix) (rev path) (len - 1)
                  (ScanState 0 (-1) true (Z.of_nat (List.length suffix) - 1)
                     (-1) false) in
      let e :=
        if Z.eqb (start st) (end_ st) then firstNonSlashEnd st
        else if Z.eqb (end_ st) (-1) then len
        else end_ st in
      zslice path (start st) e
  else
    let st := loop step_plain (rev path) (len - 1)
                (ScanState 0 (-1) true (-1) (-1) false) in
    if Z.eqb (end_ st) (-1) then []
    else zslice path (start st) (end_ st).

End Path.

(** ** Values produced by [JSON.parse], [Map], [Set] and [Array.prototype.sort] *)

Inductive json : Type :=
| JNull
| JBool (b : bool)
| JNumber (x : float)
| JString (s : jsstring)
| JArray (items : list json)
| JObject (fields : list (jsstring * json)).   (* own properties, in order *)

(** A JavaScript value read from a parsed manifest; [None] is [undefined]. *)
Definition value := option json.

(** [ToBoolean] *)
Definition truthy (v : value) : bool :=
  match v with
  | None | Some JNull => false
  | Some (JBool b) => b
  | Some (JNumber x) => PrimFloat.eqb x x && negb (PrimFloat.eqb x 0)
  | Some (JString s) => negb (Nat.eqb (List.length s) 0)
  | Some (JArray _) | Some (JObject _) => true
  end.

Fixpoint assoc {V} (k : jsstring) (l : list (jsstring * V)) : option V :=
  match l with
  | [] => None
  | (k', v) :: l' => if str_eqb k k' then Some v else assoc k l'
  end.

(** [v.k] for a value [v] that is neither [null] nor [undefined], and a
    name [k] that is not an index, [length] or a member of a prototype (the
    names read by the source are [name], [version], [dependencies],
    [devDependencies] and six package names). *)
Definition prop (v : json) (k : string) : value :=
  match v with
  | JObject fields => assoc (js k) fields
  | _ => None
  end.

(** [v?.k] *)
Definition opt_prop (v : value) (k : string) : value :=
  match v with
  | None | Some JNull => None
  | Some o => prop o k
  end.

(** [a || b] *)
Definition or_else (a b : value) : value := if truthy a then a else b.

(** [Object.entries(v)] for a truthy value. *)
Definition Object_entries (v : json) : list (jsstring * json) :=
  match v with
  | JObject fields => fields
  | JArray items =>
      combine (map String_of_index (seq 0 (List.length items))) items
  | JString s =>
      combine (map String_of_index (seq 0 (List.length s)))
        (map (fun c => JString [c]) s)
  | _ => []
  end.

Definition Object_keys (v : json) : list jsstring := map fst (Object_entries v).

(** A [Map] with string keys: the entries in insertion order.  Setting a key
    already present keeps its place. *)
Module JsMap.

Definition t (V : Type) := list (jsstring * V).

Definition get {V} (mp : t V) (k : jsstring) : option V := assoc k mp.

Fixpoint set {V} (mp : t V) (k : jsstring) (v : V) : t V :=
  match mp with
  | [] => [(k, v)]
  | (k', v') :: mp' =>
      if str_eqb k k' then (k', v) :: mp' else (k', v') :: set mp' k v
  end.

Definition entries {V} (mp : t V) : list (jsstring * V) := mp.
Definition values {V} (mp : t V) : list V := map snd mp.
Definition size {V} (mp : t V) : nat := List.length mp.

End JsMap.

(** [(mp.get(k) || 0) + n] followed by [mp.set(k, ...)], also used for the
    plain objects that serve as counters. *)
Definition bump (mp : JsMap.t nat) (k : jsstring) (n : nat) : JsMap.t nat :=
  JsMap.set mp k (match JsMap.get mp k with Some c => c | None => 0 end + n).

(** [[...new Set(l)]]: the first occurrence of each string, in order. *)
Definition Set_of (l : list jsstring) : list jsstring :=
  fold_left (fun acc x => if existsb (str_eqb x) acc then acc else acc ++ [x])
    l [].

(** [array.sort(cmp)].  The sort of the language is stable; with a
    consistent comparator its result is the one of this insertion sort,
    which puts an element before the first later element it does not have
    to follow ([cmp x y > 0] means [x] after [y]). *)
Fixpoint sort_insert {A} (cmp : A -> A -> Z) (x : A) (l : list A) : list A :=
  match l with
  | [] => [x]
  | y :: l' =>
      if Z.ltb 0 (cmp x y) then y :: sort_insert cmp x l' else x :: y :: l'
  end.

Definition Array_sort {A} (cmp : A -> A -> Z) (l : list A) : list A :=
  fold_right (sort_insert cmp) [] l.

(** [(a, b) => b[1] - a[1]] *)
Definition by_count_desc (a b : jsstring * nat) : Z :=
  (Z.of_nat (snd b) - Z.of_nat (snd a))%Z.

(** ** Plain objects used as counters

    An object literal [{}] has the prototype [Object.prototype]: reading a
    key it does not own gives what it inherits.  Its own keys are listed
    with the array indices first, by increasing value, then the other keys
    in the order they were created. *)

Inductive counter_value : Type :=
| Count (n : nat)              (* a number *)
| Text (s : jsstring).         (* a string: [+ 1] applied to what is no number *)

Module JsObject.

(** The own properties, in the order they were created. *)
Definition t := list (jsstring * counter_value).

(** The value of a key that is an array index: a canonical numeric string
    below [2^32 - 1]. *)
Definition array_index (k : jsstring) : option N :=
  match k with
  | [] => None
  | c :: k' =>
      if forallb is_digit k
         && (negb (N.eqb c 48%N) || match k' with [] => true | _ => false end)
      then
        let n := fold_left (fun a d => (a * 10 + (d - 48))%N) k 0%N in
        if N.leb n 4294967294%N then Some n else None
      else None
  end.

Definition is_index (e : jsstring * counter_value) : bool :=
  match array_index (fst e) with Some _ => true | None => false end.

Definition by_index (a b : jsstring * counter_value) : Z :=
  match array_index (fst a), array_index (fst b) with
  | Some x, Some y => (Z.of_N x - Z.of_N y)%Z
  | _, _ => 0%Z
  end.

(** The functions every object inherits from [Object.prototype]. *)
Definition prototype_functions : list string :=
  ["__defineGetter__"; "__defineSetter__"; "hasOwnProperty";
   "__lookupGetter__"; "__lookupSetter__"; "isPrototypeOf";
   "propertyIsEnumerable"; "toString"; "valueOf"; "toLocaleString"]%string.

(** [String(Object.prototype[k])]: [__proto__] reads the prototype itself,
    [constructor] is [Object], and a native function is printed with its
    name. *)
Definition inherited (k : jsstring) : option jsstring :=
  if str_eqb k (js "__proto__") then Some (js "[object Object]")
  else if str_eqb k (js "constructor") then
    Some (js "function Object() { [native code] }")
  else if existsb (fun f => str_eqb k (js f)) prototype_functions then
    Some (js "function " ++ k ++ js "() { [native code] }")
  else None.

(** [o[k]] *)
Definition get (o : t) (k : jsstring) : option counter_value :=
  match assoc k o with
  | Some v => Some v
  | None => option_map Text (inherited k)
  end.

(** [o[k] = v] for a number or a string [v]; the setter of [__proto__]
    ignores such a value. *)
Definition set (o : t) (k : jsstring) (v : counter_value) : t :=
  if str_eqb k (js "__proto__") then o else JsMap.set o k v.

(** The own properties in the order [JSON.stringify] writes them. *)
Definition entries (o : t) : list (jsstring * counter_value) :=
  Array_sort by_index (filter is_index o)
  ++ filter (fun e => negb (is_index e)) o.

End JsObject.

(** [o[k] = (o[k] || 0) + 1] *)
Definition increment (o : JsObject.t) (k : jsstring) : JsObject.t :=
  JsObject.set o k
    match JsObject.get o k with
    | Some (Count n) => Count (n + 1)
    | Some (Text []) => Count 1
    | Some (Text s) => Text (s ++ js "1")
    | None => Count 1
    end.

(** ** Exceptions

    [Throw msg] is a thrown [Error] (or a rejected promise) whose [message]
    is [msg]. *)

Inductive result (A : Type) : Type :=
| Ok (a : A)
| Throw (message : jsstring).

Arguments Ok {A} a.
Arguments Throw {A} message.

Definition bind {A B} (c : result A) (f : A -> result B) : result B :=
  match c with
  | Ok a => f a
  | Throw msg => Throw msg
  end.

Notation "x <- c ;; k" := (bind c (fun x => k))
  (at level 61, c at next level, right associativity).

(** [for (const x of l) { body }] over a state [S]; a throw in the body
    leaves the loop. *)
Fixpoint for_of {A S} (l : list A) (body : S -> A -> result S) (s : S)
  : result S :=
  match l with
  | [] => Ok s
  | x :: l' => s' <- body s x ;; for_of l' body s'
  end.

(** What a tool returns: [JSON.stringify(report, null, 2)] or, from its
    [catch], [JSON.stringify({ error: error.message }, null, 2)]. *)
Inductive reply (R : Type) : Type :=
| Report (r : R)
| ErrorObject (error : jsstring).

Arguments Report {R} r.
Arguments ErrorObject {R} error.

(** [try { ... } catch (error) { return JSON.stringify({ error: error.message }) }] *)
Definition try_catch {R} (body : result R) : reply R :=
  match body with
  | Ok r => Report r
  | Throw msg => ErrorObject msg
  end.

(** ** [fast-glob]

    The patterns of the source are written as terms; a path is matched
    segment by segment.  [**] stands for any number of directories, [*] for
    any run of code units inside a segment.  With [dot = false] (the positive
    patterns) neither matches a name that starts with a dot; the [ignore]
    patterns are matched with [dot = true]. *)

Module Glob.

Inductive atom : Type :=
| Star
| Lit (s : string)
| Brace (alts : list string).

Inductive segment : Type :=
| GlobStar
| Seg (atoms : list atom).

Definition pattern := list segment.

Fixpoint match_atoms (atoms : list atom) : jsstring -> bool :=
  match atoms with
  | [] => fun s => match s with [] => true | _ => false end
  | Lit l :: r =>
      fun s => startsWith s (js l) && match_atoms r (skipn (List.length (js l)) s)
  | Brace alts :: r =>
      fun s =>
        existsb (fun l => startsWith s (js l)
                          && match_atoms r (skipn (List.length (js l)) s)) alts
  | Star :: r =>
      fix any (s : jsstring) : bool :=
        match_atoms r s || match s with _ :: t => any t | [] => false end
  end.

Definition hidden (s : jsstring) : bool := startsWith s (js ".").

Definition leading_star (atoms : list atom) : bool :=
  match atoms with Star :: _ => true | _ => false end.

Definition match_segment (dot : bool) (atoms : list atom) (s : jsstring) : bool :=
  (dot || negb (leading_star atoms && hidden s)) && match_atoms atoms s.

Fixpoint match_segments (dot : bool) (p : pattern) : list jsstring -> bool :=
  match p with
  | [] => fun segs => match segs with [] => true | _ => false end
  | GlobStar :: p' =>
      fix dirs (segs : list jsstring) : bool :=
        match_segments dot p' segs ||
        match segs with
        | s :: t => (dot || negb (hidden s)) && dirs t
        | [] => false
        end
  | Seg atoms :: p' =>
      fun segs =>
        match segs with
        | s :: t => match_segment dot atoms s && match_segments dot p' t
        | [] => false
        end
  end.

Definition matches (dot : bool) (p : pattern) (path : jsstring) : bool :=
  match_segments dot p (split path 47%N).

(** [**/NAME.{e1,e2,...}] with NAME given by its atoms *)
Definition anywhere (name : list atom) (exts : list string) : pattern :=
  [GlobStar; Seg (name ++ [Lit "."; Brace exts])].

(** [**/DIR/**/NAME.{e1,e2,...}] *)
Definition below (dir : string) (name : list atom) (exts : list string)
  : pattern :=
  [GlobStar; Seg [Lit dir]; GlobStar; Seg (name ++ [Lit "."; Brace exts])].

(** [**/DIR/**] *)
Definition inside (dir : string) : pattern :=
  [GlobStar; Seg [Lit dir]; GlobStar].

End Glob.

(** ** The world around the program *)

(** The directory walk of fast-glob is not part of the program.  Each call
    of [fg] walks the directories below the root again: the walk of a call
    can end with an error (a directory it has to read cannot be read), and
    it reports the files in an order of its own, since directories are read
    concurrently.  Both are given per call, by the arguments of the call. *)
Record Runtime := {
  resolvedPath : jsstring;                 (* the project root *)
  now : jsstring;                          (* [new Date().toISOString()] *)
  tree : list jsstring;
    (* the regular files below the root, as paths relative to it *)
  walk_error : list Glob.pattern -> list Glob.pattern -> option jsstring;
    (* the message of the error that ends the walk made for
       [fg(patterns, { ignore })], if it ends with one *)
  walk_rank : list Glob.pattern -> list Glob.pattern -> jsstring -> nat;
    (* the rank at which the walk made for [fg(patterns, { ignore })]
       reports a file: files are reported by increasing rank *)
  readFile : jsstring -> result jsstring;
    (* [readFile(join(resolvedPath, p), 'utf-8')] for a relative path [p] *)
  JSON_parse : jsstring -> result json;    (* [JSON.parse] *)
  URL_hostname : jsstring -> option jsstring
    (* [new URL(s).hostname]; [None] when the constructor throws *)
}.

Definition by_rank (rank : jsstring -> nat) (a b : jsstring) : Z :=
  (Z.of_nat (rank a) - Z.of_nat (rank b))%Z.

(** The files of the project in the order the walk of one call reports
    them. *)
Definition walk (rt : Runtime) (patterns ignore : list Glob.pattern)
  : list jsstring :=
  Array_sort (by_rank (walk_rank rt patterns ignore)) (tree rt).

(** What a call of [fg] resolves to when its walk does not fail: the files
    that match one of the patterns and none of the [ignore] patterns. *)
Definition enumerated (rt : Runtime) (patterns ignore : list Glob.pattern)
  : list jsstring :=
  filter (fun p => existsb (fun g => Glob.matches false g p) patterns
                   && negb (existsb (fun g => Glob.matches true g p) ignore))
    (walk rt patterns ignore).

(** [await fg(patterns, { cwd: resolvedPath, ignore, absolute: false })]:
    the promise is rejected when the walk fails. *)
Definition fg (rt : Runtime) (patterns ignore : list Glob.pattern)
  : result (list jsstring) :=
  match walk_error rt patterns ignore with
  | Some msg => Throw msg
  | None => Ok (enumerated rt patterns ignore)
  end.

Definition ignore_build : list Glob.pattern :=
  [Glob.inside "node_modules"; Glob.inside "dist"; Glob.inside "build"].

(** [**/*.{tsx,jsx,ts,js}] *)
Definition source_patterns : list Glob.pattern :=
  [Glob.anywhere [Glob.Star] ["tsx"; "jsx"; "ts"; "js"]%string].

(** The files a successful call with these patterns gives. *)
Definition source_files (rt : Runtime) : list jsstring :=
  enumerated rt source_patterns ignore_build.

Definition count_if {A} (f : A -> bool) (l : list A) : nat :=
  List.length (filter f l).

Definition nonempty {A} (l : list A) : bool :=
  negb (Nat.eqb (List.length l) 0).

(** [match[i]] for a group that takes part in every match of its
    expression (all the groups read by the source do). *)
Definition capture (i : nat) (x : rmatch) : jsstring :=
  match group i (groups x) with Some v => v | None => [] end.

(** ** Tool [analyze_project] *)

Module Project.

Record fileTypes := {
  tsx : nat;
  jsx : nat;
  ts : nat;
  js_ : nat
}.

Record report := {
  projectPath : jsstring;
  packageName : value;
  packageVersion : value;
  totalFiles : nat;
  types : fileTypes;
  hasReact : bool;
  hasTypeScript : bool;
  hasVite : bool;
  hasNext : bool;
  hasTailwind : bool;
  hasSupabase : bool;
  timestamp : jsstring
}.

End Project.

(** [!!(packageInfo?.dependencies?.[k] || packageInfo?.devDependencies?.[k])] *)
Definition declares (packageInfo : json) (k : string) : bool :=
  truthy (or_else (opt_prop (opt_prop (Some packageInfo) "dependencies") k)
                  (opt_prop (opt_prop (Some packageInfo) "devDependencies") k)).

Definition analyzeProject (rt : Runtime) : reply Project.report :=
  try_catch (
    let packageInfo :=
      match (packageContent <- readFile rt (js "package.json") ;;
             JSON_parse rt packageContent) with
      | Ok v => v
      | Throw _ => JNull
      end in
    files <- fg rt source_patterns ignore_build ;;
    Ok {|
      Project.projectPath := resolvedPath rt;
      Project.packageName :=
        or_else (opt_prop (Some packageInfo) "name")
          (Some (JString (js "Unknown")));
      Project.packageVersion :=
        or_else (opt_prop (Some packageInfo) "version")
          (Some (JString (js "Unknown")));
      Project.totalFiles := List.length files;
      Project.types := {|
        Project.tsx := count_if (fun f => endsWith f (js ".tsx")) files;
        Project.jsx := count_if (fun f => endsWith f (js ".jsx")) files;
        Project.ts := count_if (fun f => endsWith f (js ".ts")) files;
        Project.js_ := count_if (fun f => endsWith f (js ".js")) files
      |};
      Project.hasReact := declares packageInfo "react";
      Project.hasTypeScript := declares packageInfo "typescript";
      Project.hasVite := declares packageInfo "vite";
      Project.hasNext := declares packageInfo "next";
      Project.hasTailwind := declares packageInfo "tailwindcss";
      Project.hasSupabase := declares packageInfo "@supabase/supabase-js";
      Project.timestamp := now rt
    |}).

(** ** Tool [get_components] *)

Module Components.

Record component := {
  path : jsstring;
  name : jsstring;
  size : nat;
  hasDefaultExport : bool;
  hasNamedExports : bool;
  hasJSX : bool;
  hasProps : bool;
  hasState : bool;
  hasEffects : bool;
  isComponent : bool
}.

Record report := {
  totalComponents : nat;
  analyzed : nat;
  components : list component
}.

End Components.

(** [basename(file, '.tsx').replace('.jsx', '')] *)
Definition componentName (file : jsstring) : jsstring :=
  replace (Path.basename file (js ".tsx")) (js ".jsx") [].

Definition analyzeComponent (file content : jsstring) : Components.component :=
  {|
    Components.path := file;
    Components.name := componentName file;
    Components.size := List.length content;
    Components.hasDefaultExport :=
      test false (cat [lit "export"; ws1; lit "default"]) content;
    Components.hasNamedExports :=
      test false
        (cat [lit "export"; ws1;
              any_of ["const"; "function"; "class"; "interface"; "type"]%string])
        content;
    Components.hasJSX := includes content (js "<") && includes content (js ">");
    Components.hasProps := test false (any_of ["props"; "Props"]%string) content;
    Components.hasState :=
      test false (any_of ["useState"; "setState"; "state"]%string) content;
    Components.hasEffects := test false (lit "useEffect") content;
    Components.isComponent :=
      test false
        (cat [lit "export"; ws1; Opt (cat [lit "default"; ws1]);
              any_of ["function"; "const"; "class"]%string])
        content
  |}.

(** [**/*.{tsx,jsx}] *)
Definition component_patterns : list Glob.pattern :=
  [Glob.anywhere [Glob.Star] ["tsx"; "jsx"]%string].

Definition component_files (rt : Runtime) : list jsstring :=
  enumerated rt component_patterns ignore_build.

Definition getComponents (rt : Runtime) : reply Components.report :=
  try_catch (
    componentFiles <- fg rt component_patterns ignore_build ;;
    components <-
      for_of (slice0 20 componentFiles)
        (fun components file =>
           content <- readFile rt file ;;
           Ok (components ++ [analyzeComponent file content]))
        [] ;;
    Ok {|
      Components.totalComponents := List.length componentFiles;
      Components.analyzed := List.length components;
      Components.components := components
    |}).

(** ** Tool [get_routing_structure] *)

Module Routing.

Record route := {
  path : jsstring;
  file : jsstring;
  component : jsstring;
  isProtected : bool
}.

Record report := {
  routingFiles : list jsstring;
  routes : list route;
  totalRoutes : nat;
  hasReactRouter : bool
}.

End Routing.

Definition file_extensions : list string := ["ts"; "tsx"; "js"; "jsx"]%string.

Definition routing_patterns : list Glob.pattern :=
  [Glob.anywhere [Glob.Lit "router"; Glob.Star] file_extensions;
   Glob.anywhere [Glob.Lit "routes"; Glob.Star] file_extensions;
   Glob.anywhere [Glob.Lit "App"] file_extensions;
   Glob.anywhere [Glob.Lit "main"] file_extensions;
   Glob.anywhere [Glob.Lit "index"] file_extensions].

Definition routing_files (rt : Runtime) : list jsstring :=
  enumerated rt routing_patterns ignore_build.

Definition colon_or_equals (c : char) : bool := N.eqb c 58%N || N.eqb c 61%N.

(** The four expressions of [routePatterns], in the order of the array;
    each has the [g] flag and one capturing group. *)
Definition routePatterns : list re :=
  [ cat [lit "path"; ws; Class colon_or_equals; ws; quote; Group 1 unquoted1; quote];
    cat [lit "route"; ws; Class colon_or_equals; ws; quote; Group 1 unquoted1; quote];
    cat [lit "<Route"; Plus (is_not [62%N]); lit "path"; ws; lit "="; ws; quote;
         Group 1 unquoted1; quote];
    cat [lit "{"; ws; lit "path"; ws; lit ":"; ws; quote; Group 1 unquoted1; quote] ].

Definition routes_of_file (file content : jsstring) : list Routing.route :=
  flat_map
    (fun pattern =>
       map (fun x => {|
              Routing.path := capture 1 x;
              Routing.file := file;
              Routing.component := componentName file;
              Routing.isProtected :=
                test true (any_of ["protected"; "private"; "auth"]%string) content
            |})
         (exec_all false pattern content))
    routePatterns.

Definition getRoutingStructure (rt : Runtime) : reply Routing.report :=
  try_catch (
    routingFiles <- fg rt routing_patterns ignore_build ;;
    routes <-
      for_of routingFiles
        (fun routes file =>
           content <- readFile rt file ;;
           Ok (routes ++ routes_of_file file content))
        [] ;;
    Ok {|
      Routing.routingFiles := routingFiles;
      Routing.routes := slice0 20 routes;
      Routing.totalRoutes := List.length routes;
      Routing.hasReactRouter :=
        existsb (fun r => includes (Routing.path r) (js "/")) routes
    |}).

(** ** Tool [analyze_dependencies] *)

Module Dependencies.

Record pkg := {
  name : jsstring;
  version : json
}.

Inductive category : Type :=
| react | ui | state | routing | styling | database | build | testing
| utilities | other.

Definition category_eqb (a b : category) : bool :=
  match a, b with
  | react, react | ui, ui | state, state | routing, routing
  | styling, styling | database, database | build, build
  | testing, testing | utilities, utilities | other, other => true
  | _, _ => false
  end.

(** The object [categories]: one array per key. *)
Definition categories := category -> list pkg.

Definition empty : categories := fun _ => [].

(** [categories.c.push(p)] *)
Definition push (cs : categories) (c : category) (p : pkg) : categories :=
  fun c' => if category_eqb c c' then cs c' ++ [p] else cs c'.

Record frameworks := {
  hasReact : bool;
  hasNext : bool;
  hasVite : bool;
  hasTailwind : bool;
  hasSupabase : bool;
  hasTypeScript : bool
}.

Record report := {
  totalDependencies : nat;
  totalDevDependencies : nat;
  byCategory : categories;
  detected : frameworks
}.

End Dependencies.

Definition includes_any (name : jsstring) (words : list string) : bool :=
  existsb (fun w => includes name (js w)) words.

(** The arrow function [categorizePackage]; the chain of [if ... else if]
    is kept as it is written. *)
Definition categorizePackage (name : jsstring) (version : json)
  (categories : Dependencies.categories) : Dependencies.categories :=
  let pkg := {| Dependencies.name := name; Dependencies.version := version |} in
  if includes name (js "react") || includes name (js "@types/react") then
    Dependencies.push categories Dependencies.react pkg
  else if includes name (js "ui") || includes name (js "component")
          || includes name (js "material") || includes name (js "ant")
          || includes name (js "chakra") then
    Dependencies.push categories Dependencies.ui pkg
  else if includes name (js "redux") || includes name (js "zustand")
          || includes name (js "jotai") || includes name (js "recoil") then
    Dependencies.push categories Dependencies.state pkg
  else if includes name (js "router") || includes name (js "navigation")
          || includes name (js "reach") then
    Dependencies.push categories Dependencies.routing pkg
  else if includes name (js "styled") || includes name (js "emotion")
          || includes name (js "tailwind") || includes name (js "css")
          || includes name (js "sass") then
    Dependencies.push categories Dependencies.styling pkg
  else if includes name (js "supabase") || includes name (js "prisma")
          || includes name (js "mongoose") || includes name (js "firebase") then
    Dependencies.push categories Dependencies.database pkg
  else if includes name (js "vite") || includes name (js "webpack")
          || includes name (js "rollup") || includes name (js "babel")
          || includes name (js "esbuild") then
    Dependencies.push categories Dependencies.build pkg
  else if includes name (js "test") || includes name (js "jest")
          || includes name (js "vitest") || includes name (js "cypress")
          || includes name (js "playwright") then
    Dependencies.push categories Dependencies.testing pkg
  else if includes name (js "lodash") || includes name (js "axios")
          || includes name (js "dayjs") || includes name (js "uuid")
          || includes name (js "clsx") then
    Dependencies.push categories Dependencies.utilities pkg
  else
    Dependencies.push categories Dependencies.other pkg.

(** [Object.entries(o).forEach(([name, version]) => categorizePackage(name, version))] *)
Definition categorizeAll (o : json) (categories : Dependencies.categories)
  : Dependencies.categories :=
  fold_left (fun cs e => categorizePackage (fst e) (snd e) cs)
    (Object_entries o) categories.

(** [o.k] where [o] comes from [JSON.parse]: reading a property of [null]
    throws a [TypeError]. *)
Definition member (o : json) (k : string) : result value :=
  match o with
  | JNull =>
      Throw (js "Cannot read properties of null (reading '" ++ js k ++ js "')")
  | _ => Ok (prop o k)
  end.

(** [v || {}] *)
Definition or_empty_object (v : value) : json :=
  match or_else v (Some (JObject [])) with
  | Some o => o
  | None => JObject []
  end.

(** [!!o.k] *)
Definition has (o : json) (k : string) : bool := truthy (prop o k).

Definition analyzeDependencies (rt : Runtime) : reply Dependencies.report :=
  match (packageContent <- readFile rt (js "package.json") ;;
         JSON_parse rt packageContent) with
  | Throw _ =>
      (* the inner [catch] returns at once *)
      ErrorObject (js "No package.json found")
  | Ok packageInfo =>
      try_catch (
        deps <- member packageInfo "dependencies" ;;
        devDeps <- member packageInfo "devDependencies" ;;
        let dependencies := or_empty_object deps in
        let devDependencies := or_empty_object devDeps in
        let categories :=
          categorizeAll devDependencies
            (categorizeAll dependencies Dependencies.empty) in
        Ok {|
          Dependencies.totalDependencies :=
            List.length (Object_keys dependencies);
          Dependencies.totalDevDependencies :=
            List.length (Object_keys devDependencies);
          Dependencies.byCategory := categories;
          Dependencies.detected := {|
            Dependencies.hasReact := has dependencies "react";
            Dependencies.hasNext := has dependencies "next";
            Dependencies.hasVite :=
              has dependencies "vite" || has devDependencies "vite";
            Dependencies.hasTailwind :=
              has dependencies "tailwindcss" || has devDependencies "tailwindcss";
            Dependencies.hasSupabase := has dependencies "@supabase/supabase-js";
            Dependencies.hasTypeScript :=
              has devDependencies "typescript" || has dependencies "typescript"
          |}
        |})
  end.

(** ** Tool [get_tailwind_usage] *)

Module Tailwind.

Record fileUsage := {
  file : jsstring;
  uniqueClasses : nat;
  totalClasses : nat;
  topClasses : list jsstring
}.

Record patterns := {
  layout : list (jsstring * nat);
  colors : list (jsstring * nat);
  typography : list (jsstring * nat);
  responsive : list (jsstring * nat)
}.

Record report := {
  totalFiles : nat;
  analyzedFiles : nat;
  totalUniqueClasses : nat;
  mostUsedClasses : list (jsstring * nat);   (* [{ class, count }] *)
  buckets : patterns;
  files : list fileUsage
}.

(** The state of the loop over the files. *)
Record acc := {
  classUsage : JsMap.t nat;
  usage : list fileUsage
}.

End Tailwind.

(** The three expressions whose matches make up [classMatches]. *)
Definition classPatterns : list re :=
  [ cat [lit "className"; ws; lit "="; ws; quote; Group 1 unquoted1; quote];
    cat [lit "className"; ws; lit "="; ws; lit "{"; Star (is_not [125%N]); quote;
         Group 1 unquoted1; quote; Star (is_not [125%N]); lit "}"];
    cat [lit "class"; ws; lit "="; ws; quote; Group 1 unquoted1; quote] ].

Definition classMatches (content : jsstring) : list rmatch :=
  flat_map (fun r => exec_all false r content) classPatterns.

(** [match[1]?.split(/\s+/) || []] *)
Definition classes_of (x : rmatch) : list jsstring :=
  match group 1 (groups x) with
  | Some v => split_re false ws1 v
  | None => []
  end.

(** [if (cls.trim() && cls.length > 0)] *)
Definition counted (cls : jsstring) : bool :=
  nonempty (trim cls) && Nat.ltb 0 (List.length cls).

(** The class tokens of one file, in the order they are pushed to
    [classNames]. *)
Definition classNames_of (content : jsstring) : list jsstring :=
  flat_map classes_of (classMatches content).

Definition tally_classes (classUsage : JsMap.t nat) (classes : list jsstring)
  : JsMap.t nat :=
  fold_left (fun mp cls => if counted cls then bump mp cls 1 else mp)
    classes classUsage.

Definition tailwind_file (a : Tailwind.acc) (file content : jsstring)
  : Tailwind.acc :=
  let classNames := classNames_of content in
  {|
    Tailwind.classUsage := tally_classes (Tailwind.classUsage a) classNames;
    Tailwind.usage :=
      if Nat.ltb 0 (List.length classNames) then
        Tailwind.usage a ++
        [{| Tailwind.file := file;
            Tailwind.uniqueClasses := List.length (Set_of classNames);
            Tailwind.totalClasses := List.length classNames;
            Tailwind.topClasses := slice0 10 (Set_of classNames) |}]
      else Tailwind.usage a
  |}.

Definition starts_with_any (prefixes : list string) (cls : jsstring) : bool :=
  test false (Seq Bos (any_of prefixes)) cls.

Definition layout_prefixes : list string :=
  ["flex"; "grid"; "block"; "inline"; "hidden"; "w-"; "h-"; "p-"; "m-";
   "space-"; "gap-"]%string.
Definition colors_prefixes : list string :=
  ["bg-"; "text-"; "border-"; "from-"; "to-"; "via-"]%string.
Definition typography_prefixes : list string :=
  ["text-"; "font-"; "leading-"; "tracking-"; "uppercase"; "lowercase"]%string.
Definition responsive_prefixes : list string :=
  ["sm:"; "md:"; "lg:"; "xl:"; "2xl:"]%string.

(** [sortedClasses.filter(([cls]) => /^(...)/.test(cls))] and, in the
    report, [.slice(0, 10)] *)
Definition bucket (prefixes : list string) (sortedClasses : list (jsstring * nat))
  : list (jsstring * nat) :=
  slice0 10 (filter (fun e => starts_with_any prefixes (fst e)) sortedClasses).

Definition tailwind_report (sourceFiles : list jsstring) (a : Tailwind.acc)
  : Tailwind.report :=
  let sortedClasses :=
    slice0 30 (Array_sort by_count_desc (JsMap.entries (Tailwind.classUsage a))) in
  {|
    Tailwind.totalFiles := List.length sourceFiles;
    Tailwind.analyzedFiles := List.length (Tailwind.usage a);
    Tailwind.totalUniqueClasses := JsMap.size (Tailwind.classUsage a);
    Tailwind.mostUsedClasses := sortedClasses;
    Tailwind.buckets := {|
      Tailwind.layout := bucket layout_prefixes sortedClasses;
      Tailwind.colors := bucket colors_prefixes sortedClasses;
      Tailwind.typography := bucket typography_prefixes sortedClasses;
      Tailwind.responsive := bucket responsive_prefixes sortedClasses
    |};
    Tailwind.files := slice0 10 (Tailwind.usage a)
  |}.

Definition getTailwindUsage (rt : Runtime) : reply Tailwind.report :=
  try_catch (
    sourceFiles <- fg rt source_patterns ignore_build ;;
    a <- for_of (slice0 50 sourceFiles)
           (fun a file =>
              content <- readFile rt file ;;
              Ok (tailwind_file a file content))
           {| Tailwind.classUsage := []; Tailwind.usage := [] |} ;;
    Ok (tailwind_report sourceFiles a)).

(** ** Tool [get_hooks_usage] *)

Module Hooks.

Record customHook := {
  hook : jsstring;
  foundIn : jsstring                   (* the property [file] *)
}.

Record fileUsage := {
  file : jsstring;
  builtInHooks : list jsstring;
  customHooks : list jsstring
}.

Record report := {
  totalFiles : nat;
  analyzedFiles : nat;
  totalHooksUsage : nat;
  mostUsedHooks : list (jsstring * nat);     (* [{ hook, count }] *)
  customHooksFound : list jsstring;
  files : list fileUsage
}.

Record acc := {
  hookUsage : JsMap.t nat;
  custom : list customHook;
  usage : list fileUsage
}.

End Hooks.

Definition builtInHooks : list jsstring :=
  map js ["useState"; "useEffect"; "useContext"; "useReducer"; "useCallback";
          "useMemo"; "useRef"; "useLayoutEffect"; "useDebugValue"; "useId"]%string.

(** [builtInHooks.includes(h)] *)
Definition isBuiltIn (h : jsstring) : bool := existsb (str_eqb h) builtInHooks.

(** [content.match(new RegExp(`\\b${hook}\\b`, 'g'))]; the empty list is
    the [null] of the source. *)
Definition hookMatches (hook content : jsstring) : list rmatch :=
  exec_all false (cat [WordBoundary; Chars hook; WordBoundary]) content.

(** [content.match(/\buse[A-Z][a-zA-Z0-9]*\b/g) || []] *)
Definition customHookMatches (content : jsstring) : list jsstring :=
  map whole
    (exec_all false
       (cat [WordBoundary; lit "use"; Class is_upper; Star is_alnum; WordBoundary])
       content).

(** The additions made to [hookUsage] for one file, in the order the file
    makes them: first the built-in hooks that occur, in the order of
    [builtInHooks], each with its number of occurrences, then the custom
    hooks in the order of the text, one by one. *)
Definition hook_facts (content : jsstring) : list (jsstring * nat) :=
  flat_map (fun hook =>
              match hookMatches hook content with
              | [] => []
              | matches => [(hook, List.length matches)]
              end) builtInHooks
  ++ map (fun h => (h, 1)) (filter (fun h => negb (isBuiltIn h))
                              (customHookMatches content)).

Definition tally (mp : JsMap.t nat) (facts : list (jsstring * nat))
  : JsMap.t nat :=
  fold_left (fun mp f => bump mp (fst f) (snd f)) facts mp.

Definition hooks_file (a : Hooks.acc) (file content : jsstring) : Hooks.acc :=
  let fileHooks :=
    filter (fun hook => nonempty (hookMatches hook content)) builtInHooks in
  let customs := customHookMatches content in
  {|
    Hooks.hookUsage := tally (Hooks.hookUsage a) (hook_facts content);
    Hooks.custom :=
      Hooks.custom a ++
      map (fun h => {| Hooks.hook := h; Hooks.foundIn := file |})
        (filter (fun h => negb (isBuiltIn h)) customs);
    Hooks.usage :=
      if Nat.ltb 0 (List.length fileHooks) || Nat.ltb 0 (List.length customs) then
        Hooks.usage a ++
        [{| Hooks.file := file;
            Hooks.builtInHooks := fileHooks;
            Hooks.customHooks := filter (fun h => negb (isBuiltIn h)) customs |}]
      else Hooks.usage a
  |}.

Definition hooks_report (sourceFiles : list jsstring) (a : Hooks.acc)
  : Hooks.report :=
  let sortedHooks := Array_sort by_count_desc (JsMap.entries (Hooks.hookUsage a)) in
  {|
    Hooks.totalFiles := List.length sourceFiles;
    Hooks.analyzedFiles := List.length (Hooks.usage a);
    Hooks.totalHooksUsage :=
      fold_left Nat.add (JsMap.values (Hooks.hookUsage a)) 0;
    Hooks.mostUsedHooks := slice0 20 sortedHooks;
    Hooks.customHooksFound := Set_of (map Hooks.hook (Hooks.custom a));
    Hooks.files := slice0 15 (Hooks.usage a)
  |}.

Definition getHooksUsage (rt : Runtime) : reply Hooks.report :=
  try_catch (
    sourceFiles <- fg rt source_patterns ignore_build ;;
    a <- for_of (slice0 50 sourceFiles)
           (fun a file =>
              content <- readFile rt file ;;
              Ok (hooks_file a file content))
           {| Hooks.hookUsage := []; Hooks.custom := []; Hooks.usage := [] |} ;;
    Ok (hooks_report sourceFiles a)).

(** ** Tool [analyze_api_calls] *)

Module Api.

(** One element of [apiCalls]; a property that the literal does not set is
    [None]. *)
Record call := {
  type : jsstring;
  url : option jsstring;
  method : option jsstring;
  table : option jsstring;
  endpoint : option jsstring;
  file : jsstring
}.

Record report := {
  totalApiCalls : nat;
  apiTypes : JsMap.t nat;
  methods : JsMap.t nat;
  domains : list (jsstring * counter_value);
  calls : list call;
  hasSupabase : bool;
  hasAxios : bool;
  hasFetch : bool
}.

(** The three counters filled by [apiCalls.forEach]. *)
Record counters := {
  c_types : JsMap.t nat;
  c_methods : JsMap.t nat;
  c_domains : JsObject.t
}.

End Api.

Definition fetch_re : re :=
  cat [lit "fetch"; ws; lit "("; ws; quote; Group 1 unquoted1; quote].
Definition axios_re : re :=
  cat [lit "axios"; ws; lit "."; ws;
       Group 1 (any_of ["get"; "post"; "put"; "delete"; "patch"]%string);
       ws; lit "("; ws; quote; Group 2 unquoted1; quote].
Definition supabase_re : re :=
  cat [lit "supabase"; ws; lit "."; ws; lit "from"; ws; lit "("; ws; quote;
       Group 1 unquoted1; quote; lit ")"].
Definition endpoints_re : re :=
  cat [quote; lit "/api/"; Group 1 unquoted1; quote].

(** The calls pushed for one file: the four [while] loops, one after the
    other. *)
Definition calls_of_file (file content : jsstring) : list Api.call :=
  map (fun x => {| Api.type := js "fetch"; Api.url := Some (capture 1 x);
                   Api.method := Some (js "GET"); Api.table := None;
                   Api.endpoint := None; Api.file := file |})
    (exec_all false fetch_re content)
  ++ map (fun x => {| Api.type := js "axios"; Api.url := Some (capture 2 x);
                      Api.method := Some (toUpperCase (capture 1 x));
                      Api.table := None; Api.endpoint := None; Api.file := file |})
       (exec_all false axios_re content)
  ++ map (fun x => {| Api.type := js "supabase"; Api.url := None;
                      Api.method := None; Api.table := Some (capture 1 x);
                      Api.endpoint := None; Api.file := file |})
       (exec_all false supabase_re content)
  ++ map (fun x => {| Api.type := js "api_endpoint"; Api.url := None;
                      Api.method := None; Api.table := None;
                      Api.endpoint := Some (capture 1 x); Api.file := file |})
       (exec_all false endpoints_re content).

(** [if (s)] for an optional string property *)
Definition present (s : option jsstring) : option jsstring :=
  match s with
  | Some v => if nonempty v then Some v else None
  | None => None
  end.

(** The body of [apiCalls.forEach(call => ...)].  The three counters are
    plain objects.  The keys of [apiTypes] and [methods] are the four type
    names and the upper-case method names: none is an array index or a
    property of [Object.prototype], so these two behave as maps that list
    their keys in the order of first assignment.  The keys of [domains] are
    host names taken from the text. *)
Definition count_call (rt : Runtime) (c : Api.counters) (call : Api.call)
  : Api.counters :=
  {|
    Api.c_types := bump (Api.c_types c) (Api.type call) 1;
    Api.c_methods :=
      match present (Api.method call) with
      | Some mth => bump (Api.c_methods c) mth 1
      | None => Api.c_methods c
      end;
    Api.c_domains :=
      match present (Api.url call) with
      | Some u =>
          match URL_hostname rt u with
          | Some hostname => increment (Api.c_domains c) hostname
          | None =>
              if startsWith u (js "/") then
                increment (Api.c_domains c) (js "relative")
              else Api.c_domains c
          end
      | None => Api.c_domains c
      end
  |}.

Definition has_key (mp : JsMap.t nat) (k : string) : bool :=
  existsb (str_eqb (js k)) (map fst mp).

Definition analyzeApiCalls (rt : Runtime) : reply Api.report :=
  try_catch (
    sourceFiles <- fg rt source_patterns ignore_build ;;
    apiCalls <-
      for_of (slice0 50 sourceFiles)
        (fun apiCalls file =>
           content <- readFile rt file ;;
           Ok (apiCalls ++ calls_of_file file content))
        [] ;;
    let c := fold_left (count_call rt) apiCalls
               {| Api.c_types := []; Api.c_methods := []; Api.c_domains := [] |} in
    Ok {|
      Api.totalApiCalls := List.length apiCalls;
      Api.apiTypes := Api.c_types c;
      Api.methods := Api.c_methods c;
      Api.domains := JsObject.entries (Api.c_domains c);
      Api.calls := slice0 20 apiCalls;
      Api.hasSupabase := has_key (Api.c_types c) "supabase";
      Api.hasAxios := has_key (Api.c_types c) "axios";
      Api.hasFetch := has_key (Api.c_types c) "fetch"
    |}).

(** ** Tool [analyze_database_schema] *)

Module Schema.

Record table := {
  t_name : jsstring;
  t_file : jsstring;
  t_definition : jsstring
}.

Record typedef := {
  d_name : jsstring;
  d_file : jsstring;
  d_type : jsstring;
  d_definition : jsstring
}.

Record func := {
  f_name : jsstring;
  f_file : jsstring
}.

Record policy := {
  p_name : jsstring;
  p_table : jsstring;
  p_file : jsstring
}.

Record relationship := {
  referencedTable : jsstring;
  r_file : jsstring
}.

(** Elements of [supabaseTypes] and of [supabaseUsage]. *)
Record reference := {
  ref_table : jsstring;
  ref_file : jsstring;
  ref_kind : jsstring          (* [context] or [operation] *)
}.

Record schema := {
  tables : list table;
  types : list typedef;
  functions : list func;
  policies : list policy;
  relationships : list relationship
}.

Record statistics := {
  totalTables : nat;
  totalTypes : nat;
  totalFunctions : nat;
  totalPolicies : nat;
  totalRelationships : nat;
  supabaseReferences : nat
}.

Record report := {
  schemaFiles : list jsstring;
  totalFiles : nat;
  found : schema;
  supabaseUsage : list reference;
  stats : statistics;
  hasSupabase : bool;
  hasSQL : bool;
  hasTypeScript : bool
}.

Record acc := {
  a_schema : schema;
  a_supabaseTypes : list reference
}.

End Schema.

Definition schema_patterns : list Glob.pattern :=
  [Glob.anywhere [Glob.Lit "schema"; Glob.Star] ["sql"; "ts"; "js"]%string;
   Glob.anywhere [Glob.Lit "database"; Glob.Star] ["sql"; "ts"; "js"]%string;
   Glob.below "migrations" [Glob.Star] ["sql"; "ts"; "js"]%string;
   Glob.below "supabase" [Glob.Star] ["sql"; "ts"; "js"]%string;
   Glob.below "types" [Glob.Star; Glob.Lit "database"; Glob.Star] ["ts"; "js"]%string;
   Glob.below "types" [Glob.Star; Glob.Lit "supabase"; Glob.Star] ["ts"; "js"]%string].

Definition schema_files (rt : Runtime) : list jsstring :=
  enumerated rt schema_patterns ignore_build.

Definition schema_words : list string :=
  ["Database"; "Table"; "Row"; "Insert"; "Update"]%string.

(** [\w*(?:Database|Table|Row|Insert|Update)\w*] *)
Definition schema_name : re :=
  cat [Star is_word; any_of schema_words; Star is_word].

Definition create_table : re :=
  cat [lit "CREATE"; ws1; lit "TABLE"; ws1; Group 1 word1].
Definition create_policy : re :=
  cat [lit "CREATE"; ws1; lit "POLICY"; ws1; Group 1 word1; ws1; lit "ON"; ws1;
       Group 2 word1].
Definition create_function : re :=
  cat [lit "CREATE"; ws1; Opt (cat [lit "OR"; ws1; lit "REPLACE"; ws1]);
       lit "FUNCTION"; ws1; Group 1 word1].
Definition references : re :=
  cat [lit "REFERENCES"; ws1; Group 1 word1].
Definition quoted_word : re := cat [quote; Group 1 word1; quote].

(** [match.match(r)?.[1]] followed by [if (name)] *)
Definition first_group (ci : bool) (r : re) (text : jsstring) : option jsstring :=
  match exec ci r text with
  | Some x => present (group 1 (groups x))
  | None => None
  end.

(** [text.slice(0, 200) + '...'] *)
Definition preview (text : jsstring) : jsstring := slice0 200 text ++ js "...".

(** [content.match(r) || []] for an expression with the flags [gi], and the
    elements pushed by the [forEach] that follows. *)
Definition collect {A} (r : re) (content : jsstring)
  (f : jsstring -> option A) : list A :=
  flat_map (fun x => match f (whole x) with Some a => [a] | None => [] end)
    (exec_all true r content).

Definition schema_file (a : Schema.acc) (file content : jsstring) : Schema.acc :=
  let s := Schema.a_schema a in
  {|
    Schema.a_schema := {|
      Schema.tables :=
        Schema.tables s ++
        collect (cat [create_table; ws; lit "("; Plus (is_not [41%N]); lit ")"])
          content
          (fun text =>
             match first_group true create_table text with
             | Some tableName =>
                 Some {| Schema.t_name := tableName; Schema.t_file := file;
                         Schema.t_definition := preview text |}
             | None => None
             end);
      Schema.types :=
        (Schema.types s ++
         collect (cat [lit "interface"; ws1; Group 1 schema_name; ws; lit "{";
                       Plus (is_not [125%N]); lit "}"])
           content
           (fun text =>
              match first_group true (cat [lit "interface"; ws1; Group 1 word1]) text with
              | Some interfaceName =>
                  Some {| Schema.d_name := interfaceName; Schema.d_file := file;
                          Schema.d_type := js "interface";
                          Schema.d_definition := preview text |}
              | None => None
              end))
        ++ collect (cat [lit "type"; ws1; Group 1 schema_name; ws; lit "=";
                         Plus (is_not [59%N])])
             content
             (fun text =>
                match first_group true (cat [lit "type"; ws1; Group 1 word1]) text with
                | Some typeName =>
                    Some {| Schema.d_name := typeName; Schema.d_file := file;
                            Schema.d_type := js "type";
                            Schema.d_definition := preview text |}
                | None => None
                end);
      Schema.functions :=
        Schema.functions s ++
        collect create_function content
          (fun text =>
             match first_group true create_function text with
             | Some funcName =>
                 Some {| Schema.f_name := funcName; Schema.f_file := file |}
             | None => None
             end);
      Schema.policies :=
        Schema.policies s ++
        collect create_policy content
          (fun text =>
             match exec true create_policy text with
             | Some policyMatch =>
                 Some {| Schema.p_name := capture 1 policyMatch;
                         Schema.p_table := capture 2 policyMatch;
                         Schema.p_file := file |}
             | None => None
             end);
      Schema.relationships :=
        Schema.relationships s ++
        collect (cat [references; ws; lit "("]) content
          (fun text =>
             match first_group true references text with
             | Some referencedTable =>
                 Some {| Schema.referencedTable := referencedTable;
                         Schema.r_file := file |}
             | None => None
             end)
    |};
    Schema.a_supabaseTypes :=
      if includes content (js "supabase") || includes content (js "Database") then
        Schema.a_supabaseTypes a ++
        collect (cat [lit "from"; ws; lit "("; ws; quoted_word; ws; lit ")"]) content
          (fun text =>
             match first_group false quoted_word text with
             | Some tableName =>
                 Some {| Schema.ref_table := tableName; Schema.ref_file := file;
                         Schema.ref_kind := js "supabase_query" |}
             | None => None
             end)
      else Schema.a_supabaseTypes a
  |}.

(** The body of the second loop, over the first thirty code files. *)
Definition usage_of_file (file content : jsstring) : list Schema.reference :=
  if includes content (js "supabase") then
    flat_map
      (fun x =>
         match first_group false quoted_word (whole x) with
         | Some tableName =>
             [{| Schema.ref_table := tableName; Schema.ref_file := file;
                 Schema.ref_kind := js "query" |}]
         | None => []
         end)
      (exec_all false
         (cat [lit ".from"; ws; lit "("; ws; quoted_word; ws; lit ")"]) content)
  else [].

Definition analyzeDatabaseSchema (rt : Runtime) : reply Schema.report :=
  try_catch (
    schemaFiles <- fg rt schema_patterns ignore_build ;;
    a <- for_of schemaFiles
           (fun a file =>
              content <- readFile rt file ;;
              Ok (schema_file a file content))
           {| Schema.a_schema :=
                {| Schema.tables := []; Schema.types := []; Schema.functions := [];
                   Schema.policies := []; Schema.relationships := [] |};
              Schema.a_supabaseTypes := [] |} ;;
    codeFiles <- fg rt source_patterns ignore_build ;;
    supabaseUsage <-
      for_of (slice0 30 codeFiles)
        (fun supabaseUsage file =>
           content <- readFile rt file ;;
           Ok (supabaseUsage ++ usage_of_file file content))
        [] ;;
    let s := Schema.a_schema a in
    Ok {|
      Schema.schemaFiles := schemaFiles;
      Schema.totalFiles := List.length schemaFiles;
      Schema.found := {|
        Schema.tables := slice0 20 (Schema.tables s);
        Schema.types := slice0 20 (Schema.types s);
        Schema.functions := slice0 10 (Schema.functions s);
        Schema.policies := slice0 10 (Schema.policies s);
        Schema.relationships := slice0 10 (Schema.relationships s)
      |};
      Schema.supabaseUsage := slice0 15 supabaseUsage;
      Schema.stats := {|
        Schema.totalTables := List.length (Schema.tables s);
        Schema.totalTypes := List.length (Schema.types s);
        Schema.totalFunctions := List.length (Schema.functions s);
        Schema.totalPolicies := List.length (Schema.policies s);
        Schema.totalRelationships := List.length (Schema.relationships s);
        Schema.supabaseReferences := List.length supabaseUsage
      |};
      Schema.hasSupabase :=
        Nat.ltb 0 (List.length supabaseUsage)
        || Nat.ltb 0 (List.length (Schema.a_supabaseTypes a));
      Schema.hasSQL := existsb (fun f => endsWith f (js ".sql")) schemaFiles;
      Schema.hasTypeScript := existsb (fun f => endsWith f (js ".ts")) schemaFiles
    |}).

(** ** Resources *)

Module Structure.

Record report := {
  totalFiles : nat;
  files : list jsstring;
  directories : list jsstring
}.

End Structure.

(** [**/*], and the [ignore] list of the resource [project://structure] *)
Definition structure_patterns : list Glob.pattern :=
  [[Glob.GlobStar; Glob.Seg [Glob.Star]]].

Definition structure_ignore : list Glob.pattern :=
  ignore_build ++ [Glob.inside ".git"].

Inductive resource_text : Type :=
| StructureText (r : Structure.report)
| PackageText (r : reply jsstring)      (* the raw manifest, or [{ error }] *)
| ComponentsResource (r : reply Components.report)
| RoutesResource (r : reply Routing.report).

Definition readProjectResource (rt : Runtime) (uri : jsstring)
  : result resource_text :=
  let resourceId := replace uri (js "project://") [] in
  if str_eqb resourceId (js "structure") then
    files <- fg rt structure_patterns structure_ignore ;;
    Ok (StructureText {|
      Structure.totalFiles := List.length files;
      Structure.files := slice0 100 files;
      Structure.directories :=
        filter (fun d => negb (str_eqb d []))
          (Set_of (map (fun f => hd [] (split f 47%N)) files))
    |})
  else if str_eqb resourceId (js "package") then
    Ok (PackageText
          match readFile rt (js "package.json") with
          | Ok content => Report content
          | Throw _ => ErrorObject (js "No package.json found")
          end)
  else if str_eqb resourceId (js "components") then
    Ok (ComponentsResource (getComponents rt))
  else if str_eqb resourceId (js "routes") then
    Ok (RoutesResource (getRoutingStructure rt))
  else
    Throw (js "Unknown resource: " ++ resourceId).

(** ** Prompts *)

Record message := {
  role : jsstring;
  content_type : jsstring;
  text : jsstring
}.

(** [${args.k}] inside a template literal *)
Definition interpolate (args : list (jsstring * jsstring)) (k : string) : jsstring :=
  match assoc (js k) args with
  | Some v => v
  | None => js "undefined"
  end.

Definition user_text (t : jsstring) : list message :=
  [{| role := js "user"; content_type := js "text"; text := t |}].

Definition getPrompt (name : jsstring) (args : list (jsstring * jsstring))
  : result (list message) :=
  if str_eqb name (js "code_review") then
    Ok (user_text
          (js "Please review the React component at "
           ++ interpolate args "component_path"
           ++ js " and provide suggestions for improvements. Focus on:
1. Code structure and organization
2. Performance optimizations
3. Accessibility compliance
4. Best practices adherence
5. Potential bugs or issues"))
  else if str_eqb name (js "refactor_suggest") then
    Ok (user_text
          (js "Analyze the file at "
           ++ interpolate args "file_path"
           ++ js " and suggest refactoring improvements. Consider:
1. Code duplication elimination
2. Function extraction opportunities
3. Better naming conventions
4. Improved error handling
5. Enhanced readability"))
  else if str_eqb name (js "performance_audit") then
    Ok (user_text
          (js "Perform a performance audit on the component " ++ [34%N]
           ++ interpolate args "component_name" ++ [34%N]
           ++ js ". Check for:
1. Unnecessary re-renders
2. Memory leaks
3. Bundle size impact
4. Load time optimizations
5. Runtime performance bottlenecks"))
  else
    Throw (js "Unknown prompt: " ++ name).

(** ** Request handlers

    A handler that returns [Throw] lets the exception leave it: it reaches
    the protocol layer that called the handler. *)

Inductive tool_text : Type :=
| ProjectText (r : reply Project.report)
| ComponentsText (r : reply Components.report)
| RoutingText (r : reply Routing.report)
| DependenciesText (r : reply Dependencies.report)
| TailwindText (r : reply Tailwind.report)
| HooksText (r : reply Hooks.report)
| ApiText (r : reply Api.report)
| SchemaText (r : reply Schema.report)
| ErrorText (t : jsstring).

Record CallToolResult := {
  tool_content : tool_text;       (* [content[0].text] *)
  isError : bool                  (* [false] when the property is absent *)
}.

(** The [switch (name)] of the tool handler. *)
Definition callTool (rt : Runtime) (name : jsstring) : result tool_text :=
  if str_eqb name (js "analyze_project") then Ok (ProjectText (analyzeProject rt))
  else if str_eqb name (js "get_components") then
    Ok (ComponentsText (getComponents rt))
  else if str_eqb name (js "get_routing_structure") then
    Ok (RoutingText (getRoutingStructure rt))
  else if str_eqb name (js "analyze_dependencies") then
    Ok (DependenciesText (analyzeDependencies rt))
  else if str_eqb name (js "get_tailwind_usage") then
    Ok (TailwindText (getTailwindUsage rt))
  else if str_eqb name (js "get_hooks_usage") then
    Ok (HooksText (getHooksUsage rt))
  else if str_eqb name (js "analyze_api_calls") then
    Ok (ApiText (analyzeApiCalls rt))
  else if str_eqb name (js "analyze_database_schema") then
    Ok (SchemaText (analyzeDatabaseSchema rt))
  else Throw (js "Unknown tool: " ++ name).

(** Handler of [CallToolRequestSchema]: the [switch] is inside a [try]. *)
Definition handleCallTool (rt : Runtime) (name : jsstring)
  : result CallToolResult :=
  match callTool rt name with
  | Ok result => Ok {| tool_content := result; isError := false |}
  | Throw msg =>
      Ok {| tool_content := ErrorText (js "Error: " ++ msg); isError := true |}
  end.

Record resource_contents := {
  r_uri : jsstring;
  mimeType : jsstring;
  r_text : resource_text
}.

(** Handler of [ReadResourceRequestSchema]: no [try] around the call. *)
Definition handleReadResource (rt : Runtime) (uri : jsstring)
  : result (list resource_contents) :=
  content <- readProjectResource rt uri ;;
  Ok [{| r_uri := uri; mimeType := js "application/json"; r_text := content |}].

(** Handler of [GetPromptRequestSchema]: [args || {}], no [try]. *)
Definition handleGetPrompt (name : jsstring)
  (args : option (list (jsstring * jsstring))) : result (list message) :=
  prompt <- getPrompt name (match args with Some a => a | None => [] end) ;;
  Ok prompt.

(** The fixed registry: the names of [ListTools], the URIs of
    [getProjectResources] and the names of [getPromptTemplates]. *)
Definition tool_names : list jsstring :=
  map js ["analyze_project"; "get_components"; "get_routing_structure";
          "analyze_dependencies"; "get_tailwind_usage"; "get_hooks_usage";
          "analyze_api_calls"; "analyze_database_schema"]%string.

Definition resource_uris : list jsstring :=
  map js ["project://structure"; "project://package"; "project://components";
          "project://routes"]%string.

Definition prompt_names : list jsstring :=
  map js ["code_review"; "refactor_suggest"; "performance_audit"]%string.

Definition registered (names : list jsstring) (n : jsstring) : bool :=
  existsb (str_eqb n) names.

(** ** Notions used to state the properties *)

(** The message of the first file of [l] whose read fails, if any. *)
Fixpoint first_unreadable (rt : Runtime) (l : list jsstring) : option jsstring :=
  match l with
  | [] => None
  | file :: l' =>
      match readFile rt file with
      | Ok _ => first_unreadable rt l'
      | Throw msg => Some msg
      end
  end.

(** The text of a readable file. *)
Definition content_of (rt : Runtime) (file : jsstring) : jsstring :=
  match readFile rt file with
  | Ok content => content
  | Throw _ => []
  end.

Definition error_of {R} (r : reply R) : option jsstring :=
  match r with
  | Report _ => None
  | ErrorObject msg => Some msg
  end.

(** The five tools that read the files they enumerate. *)
Inductive file_analysis : Type :=
| get_components
| get_tailwind_usage
| get_hooks_usage
| analyze_api_calls
| analyze_database_schema.

(** The files a tool reads, in the order it reads them. *)
Definition files_read (a : file_analysis) (rt : Runtime) : list jsstring :=
  match a with
  | get_components => slice0 20 (component_files rt)
  | get_tailwind_usage | get_hooks_usage | analyze_api_calls =>
      slice0 50 (source_files rt)
  | analyze_database_schema => schema_files rt ++ slice0 30 (source_files rt)
  end.

(** The [error] property of what the tool returns, if it returns one. *)
Definition error_returned (a : file_analysis) (rt : Runtime) : option jsstring :=
  match a with
  | get_components => error_of (getComponents rt)
  | get_tailwind_usage => error_of (getTailwindUsage rt)
  | get_hooks_usage => error_of (getHooksUsage rt)
  | analyze_api_calls => error_of (analyzeApiCalls rt)
  | analyze_database_schema => error_of (analyzeDatabaseSchema rt)
  end.

(** A directory without any file: nothing is enumerated and every read
    fails. *)
Definition empty_project : Runtime := {|
  resolvedPath := js "/tmp/empty";
  now := js "2025-01-01T00:00:00.000Z";
  tree := [];
  walk_error := fun _ _ => None;
  walk_rank := fun _ _ _ => 0;
  readFile := fun p => Throw (js "ENOENT: no such file or directory");
  JSON_parse := fun _ => Throw (js "Unexpected end of JSON input");
  URL_hostname := fun _ => None
|}.

(** The rule list of the dependency categories as the specification words
    it: an ordered list of rules, each a category with the substrings that
    select it; the first rule that matches decides, and [other] is the
    fallback. *)
Definition category_rules : list (Dependencies.category * list string) :=
  [ (Dependencies.react, ["react"; "@types/react"]%string);
    (Dependencies.ui, ["ui"; "component"; "material"; "ant"; "chakra"]%string);
    (Dependencies.state, ["redux"; "zustand"; "jotai"; "recoil"]%string);
    (Dependencies.routing, ["router"; "navigation"; "reach"]%string);
    (Dependencies.styling, ["styled"; "emotion"; "tailwind"; "css"; "sass"]%string);
    (Dependencies.database, ["supabase"; "prisma"; "mongoose"; "firebase"]%string);
    (Dependencies.build, ["vite"; "webpack"; "rollup"; "babel"; "esbuild"]%string);
    (Dependencies.testing, ["test"; "jest"; "vitest"; "cypress"; "playwright"]%string);
    (Dependencies.utilities, ["lodash"; "axios"; "dayjs"; "uuid"; "clsx"]%string) ].

Fixpoint first_match (rules : list (Dependencies.category * list string))
  (name : jsstring) : Dependencies.category :=
  match rules with
  | [] => Dependencies.other
  | (c, words) :: rules' =>
      if includes_any name words then c else first_match rules' name
  end.

(** Frequency rankings.  A fact is a key with the amount it adds to the
    count of the key. *)
Definition fact := (jsstring * nat)%type.

(** The total a fact sequence gives to a key. *)
Fixpoint total (k : jsstring) (facts : list fact) : nat :=
  match facts with
  | [] => 0
  | f :: facts' => (if str_eqb k (fst f) then snd f else 0) + total k facts'
  end.

(** The position of the first fact about a key. *)
Fixpoint first_index (k : jsstring) (facts : list fact) : nat :=
  match facts with
  | [] => 0
  | f :: facts' => if str_eqb k (fst f) then 0 else S (first_index k facts')
  end.

(** [a] is ranked before [b]: a greater count, or the same count and a first
    fact that comes earlier. *)
Definition outranks (facts : list fact) (a b : fact) : Prop :=
  snd b < snd a
  \/ (snd a = snd b /\ first_index (fst a) facts < first_index (fst b) facts).

(** [l] is the frequency ranking of a fact sequence: one entry per key that
    has a fact, carrying the total of the key, every entry ranked before the
    entries that follow it. *)
Definition ranking_of (facts : list fact) (l : list fact) : Prop :=
  NoDup (map fst l)
  /\ (forall k c, In (k, c) l <-> In k (map fst facts) /\ c = total k facts)
  /\ StronglySorted (outranks facts) l.

(** What the code computes from a fact sequence. *)
Definition ranking (facts : list fact) : list fact :=
  Array_sort by_count_desc (JsMap.entries (tally [] facts)).

(** The fact sequences of the two tools that rank: the class tokens that are
    counted, and the additions to [hookUsage], file after file in the order
    of the enumeration. *)
Definition class_facts (rt : Runtime) : list fact :=
  flat_map (fun file =>
              map (fun cls => (cls, 1))
                (filter counted (classNames_of (content_of rt file))))
    (slice0 50 (source_files rt)).

Definition hooks_facts (rt : Runtime) : list fact :=
  flat_map (fun file => hook_facts (content_of rt file))
    (slice0 50 (source_files rt)).

(** The base name of a path with its extension stripped, as the
    specification words it: the last segment, up to its last dot. *)
Fixpoint drop_extension (rname : jsstring) : jsstring :=
  match rname with
  | [] => []
  | c :: rname' => if N.eqb c 46%N then rname' else drop_extension rname'
  end.

Definition name_without_extension (file : jsstring) : jsstring :=
  let base := Path.basename file [] in
  if includes base (js ".") then rev (drop_extension (rev base)) else base.

(** The identifier [readProjectResource] derives from a URI. *)
Definition resourceId (uri : jsstring) : jsstring :=
  replace uri (js "project://") [].

Definition resource_ids : list jsstring :=
  map js ["structure"; "package"; "components"; "routes"]%string.

(** A project given by its files: each path with the outcome of reading
    it.  Every walk succeeds and reports the files in the order given; no
    manifest can be parsed and no URL is absolute. *)
Definition project_of (files : list (jsstring * result jsstring)) : Runtime := {|
  resolvedPath := js "/work/app";
  now := js "2025-01-01T00:00:00.000Z";
  tree := map fst files;
  walk_error := fun _ _ => None;
  walk_rank := fun _ _ _ => 0;
  readFile := fun p =>
    match assoc p files with
    | Some outcome => outcome
    | None => Throw (js "ENOENT: no such file or directory")
    end;
  JSON_parse := fun _ => Throw (js "Unexpected token");
  URL_hostname := fun _ => None
|}.

Definition card_tsx : jsstring * result jsstring :=
  (js "src/Card.tsx", Ok (js "export default function Card() { return <div/>; }")).

(** Two component files, the second one unreadable. *)
Definition project_with_locked_file : Runtime :=
  project_of [card_tsx; (js "src/Locked.tsx", Throw (js "EACCES: permission denied"))].

(** Two source files with class attributes and hooks; "p-4" and "flex" are
    both used twice, "p-4" first. *)
Definition project_with_classes : Runtime :=
  project_of
    [ (js "src/A.tsx",
       Ok (js "useEffect(f); <div className='p-4 flex'><b className='flex text-sm'/></div>"));
      (js "src/B.tsx",
       Ok (js "useToast(); useState(0); useEffect(g); <p className='text-sm p-4 mt-2 text-sm'/>")) ].

(** A literal of the source that contains double quotes, written with
    single quotes. *)
Definition with_double_quotes (s : string) : jsstring :=
  map (fun c => if N.eqb c 39%N then 34%N else c) (js s).

(** The scenario of the specification: a manifest that declares [react] and
    [@supabase/supabase-js], and the single source file [src/App.tsx]. *)
Definition manifest_text : jsstring :=
  with_double_quotes
    "{'dependencies':{'react':'18.0.0','@supabase/supabase-js':'2.0.0'}}".

Definition manifest_value : json :=
  JObject
    [(js "dependencies",
      JObject [(js "react", JString (js "18.0.0"));
               (js "@supabase/supabase-js", JString (js "2.0.0"))])].

Definition app_tsx : jsstring :=
  with_double_quotes "<Route path='/home'> useEffect(...)".

Definition scenario (parse : jsstring -> result json) : Runtime := {|
  resolvedPath := js "/work/app";
  now := js "2025-01-01T00:00:00.000Z";
  tree := [js "package.json"; js "src/App.tsx"];
  walk_error := fun _ _ => None;
  walk_rank := fun _ _ _ => 0;
  readFile := fun p =>
    if str_eqb p (js "package.json") then Ok manifest_text
    else if str_eqb p (js "src/App.tsx") then Ok app_tsx
    else Throw (js "ENOENT: no such file or directory");
  JSON_parse := parse;
  URL_hostname := fun _ => None
|}.

(** A parser that knows the manifest of the scenario. *)
Definition parse_manifest (s : jsstring) : result json :=
  if str_eqb s manifest_text then Ok manifest_value
  else Throw (js "Unexpected token").

Definition route_home : Routing.route := {|
  Routing.path := js "/home";
  Routing.file := js "src/App.tsx";
  Routing.component := js "App";
  Routing.isProtected := false
|}.

(** Component files whose names contain ".jsx" before the end. *)
Definition project_with_dotted_names : Runtime :=
  project_of
    [ (js "src/Button.jsx.test.jsx", Ok (js "export default function T() {}"));
      (js "src/Form.jsx.tsx", Ok (js "export default function F() {}")) ].

(** Twenty-two component files. *)
Definition project_with_22_components : Runtime :=
  project_of
    (map (fun i => (js "src/C" ++ String_of_index i ++ js ".tsx",
                    Ok (js "export default function C() {}")))
       (seq 0 22)).

(** One file with thirty-one classes, each used once; the last one is
    "flex". *)
Definition project_with_31_classes : Runtime :=
  project_of
    [ (js "src/Page.tsx",
       Ok (js "<div className='"
           ++ flat_map (fun i => js "c" ++ String_of_index i ++ js " ") (seq 0 30)
           ++ js "flex'>")) ].

(** A bucket of the Tailwind report against the list of most used classes:
    at most ten entries, all taken from that list, and no class that the
    list does not hold. *)
Definition within (top b : list (jsstring * nat)) : Prop :=
  List.length b <= 10
  /\ incl b top
  /\ forall cls, ~ In cls (map fst top) -> ~ In cls (map fst b).

(** ** Start-up: the project path *)

(** [process.argv.find(arg => arg.startsWith('--project-path='))?.split('=')[1]
    || process.cwd()] *)
Definition projectPath (argv : list jsstring) (cwd : jsstring) : jsstring :=
  match find (fun arg => startsWith arg (js "--project-path=")) argv with
  | Some arg =>
      match nth_error (split arg 61%N) 1 with
      | Some v => if nonempty v then v else cwd
      | None => cwd
      end
  | None => cwd
  end.

(** The part of a string before its first occurrence of a code unit. *)
Fixpoint upto (sep : char) (s : jsstring) : jsstring :=
  match s with
  | [] => []
  | c :: s' => if N.eqb c sep then [] else c :: upto sep s'
  end.

(** ** A declarative reading of the expressions

    [matched ci r cs v cs'] : the expression [r] can match the text [v],
    turning the captures [cs] into [cs'].  The assertions [\b] and [^] are
    read as matching the empty text, whatever surrounds it. *)
Fixpoint matched (ci : bool) (r : re) (cs : list (nat * jsstring))
  (v : jsstring) (cs' : list (nat * jsstring)) {struct r} : Prop :=
  match r with
  | Chars l => cs' = cs /\ Forall2 (fun x c => chr_eqb ci x c = true) l v
  | Class p => cs' = cs /\ exists c, v = [c] /\ p c = true
  | Star p => cs' = cs /\ Forall (fun c => p c = true) v
  | Plus p => cs' = cs /\ v <> [] /\ Forall (fun c => p c = true) v
  | Seq a b =>
      exists v1 v2 cs1,
        v = v1 ++ v2 /\ matched ci a cs v1 cs1 /\ matched ci b cs1 v2 cs'
  | Alt a b => matched ci a cs v cs' \/ matched ci b cs v cs'
  | Opt a => matched ci a cs v cs' \/ (v = [] /\ cs' = cs)
  | Group i a => exists cs1, matched ci a cs v cs1 /\ cs' = (i, v) :: cs1
  | WordBoundary | Bos => v = [] /\ cs' = cs
  end.

(** [u] occurs in [v]. *)
Definition infix (u v : jsstring) : Prop := exists a b, v = a ++ u ++ b.

(** Everything the loop of [get_routing_structure] pushes, before the
    report keeps the first twenty. *)
Definition all_routes (rt : Runtime) : list Routing.route :=
  flat_map (fun file => routes_of_file file (content_of rt file))
    (routing_files rt).

(** Everything the loop of [analyze_api_calls] pushes. *)
Definition all_calls (rt : Runtime) : list Api.call :=
  flat_map (fun file => calls_of_file file (content_of rt file))
    (slice0 50 (source_files rt)).

Definition http_methods : list jsstring :=
  map js ["GET"; "POST"; "PUT"; "DELETE"; "PATCH"]%string.

(** A captured literal: not empty and without quotes. *)
Definition literal (u : jsstring) : Prop :=
  u <> [] /\ Forall (fun c => is_quote c = false) u.

(** The four shapes of an element of [apiCalls]. *)
Definition call_shape (c : Api.call) : Prop :=
  (Api.type c = js "fetch" /\ Api.method c = Some (js "GET")
   /\ (exists u, Api.url c = Some u /\ literal u)
   /\ Api.table c = None /\ Api.endpoint c = None)
  \/ (Api.type c = js "axios"
      /\ (exists mth, Api.method c = Some mth /\ In mth http_methods)
      /\ (exists u, Api.url c = Some u /\ literal u)
      /\ Api.table c = None /\ Api.endpoint c = None)
  \/ (Api.type c = js "supabase" /\ Api.method c = None /\ Api.url c = None
      /\ (exists t, Api.table c = Some t /\ literal t) /\ Api.endpoint c = None)
  \/ (Api.type c = js "api_endpoint" /\ Api.method c = None /\ Api.url c = None
      /\ Api.table c = None /\ (exists e, Api.endpoint c = Some e /\ literal e)).

(** [values.reduce((a, b) => a + b, 0)] *)
Definition sum_of (l : list nat) : nat := fold_left Nat.add l 0.

(** The counters of [analyze_api_calls] after the whole [forEach]. *)
Definition api_counters (rt : Runtime) : Api.counters :=
  fold_left (count_call rt) (all_calls rt)
    {| Api.c_types := []; Api.c_methods := []; Api.c_domains := [] |}.

Definition has_method (c : Api.call) : bool :=
  match Api.method c with Some _ => true | None => false end.

(** The shape of a custom hook: "use", an upper-case letter, then letters
    and digits. *)
Definition custom_hook_shape (h : jsstring) : Prop :=
  exists c w, h = js "use" ++ c :: w /\ is_upper c = true
              /\ Forall (fun x => is_alnum x = true) w.

(** The custom hooks pushed by the loop of [get_hooks_usage], file after
    file. *)
Definition all_custom_hooks (rt : Runtime) : list jsstring :=
  flat_map (fun file =>
              filter (fun h => negb (isBuiltIn h))
                (customHookMatches (content_of rt file)))
    (slice0 50 (source_files rt)).

(** A class token that is counted: not empty, without white space and
    without quotes. *)
Definition class_token (cls : jsstring) : Prop :=
  cls <> []
  /\ Forall (fun c => is_space c = false /\ is_quote c = false) cls.

(** What holds of each element of [fileUsage] in the Tailwind report. *)
Definition file_usage_ok (files : list jsstring) (u : Tailwind.fileUsage) : Prop :=
  In (Tailwind.file u) files
  /\ 1 <= Tailwind.uniqueClasses u
  /\ Tailwind.uniqueClasses u <= Tailwind.totalClasses u
  /\ List.length (Tailwind.topClasses u) = Nat.min 10 (Tailwind.uniqueClasses u)
  /\ NoDup (Tailwind.topClasses u).

(** The manifest as both tools obtain it: read, then parsed. *)
Definition manifest (rt : Runtime) : result json :=
  packageContent <- readFile rt (js "package.json") ;;
  JSON_parse rt packageContent.

Definition all_categories : list Dependencies.category :=
  [Dependencies.react; Dependencies.ui; Dependencies.state; Dependencies.routing;
   Dependencies.styling; Dependencies.database; Dependencies.build;
   Dependencies.testing; Dependencies.utilities; Dependencies.other].

(** The number of packages held by the ten arrays together. *)
Definition categorized (cs : Dependencies.categories) : nat :=
  list_sum (map (fun c => List.length (cs c)) all_categories).

(** [true] counts for one. *)
Definition b2n (b : bool) : nat := if b then 1 else 0.

(** ** The lists served by the resource and prompt registries *)



Record prompt_argument := {
  arg_name : jsstring;
  arg_description : jsstring;
  arg_required : bool
}.

Record prompt_template := {
  pt_name : jsstring;
  pt_description : jsstring;
  pt_arguments : list prompt_argument
}.

(** [getPromptTemplates] *)
Definition getPromptTemplates : list prompt_template :=
  [ {| pt_name := js "code_review";
       pt_description :=
         js "Review React component code and suggest improvements";
       pt_arguments :=
         [{| arg_name := js "component_path";
             arg_description := js "Path to the component file";
             arg_required := true |}] |};
    {| pt_name := js "refactor_suggest";
       pt_description :=
         js "Suggest refactoring improvements for better code structure";
       pt_arguments :=
         [{| arg_name := js "file_path";
             arg_description := js "Path to the file to refactor";
             arg_required := true |}] |};
    {| pt_name := js "performance_audit";
       pt_description :=
         js "Analyze component performance and suggest optimizations";
       pt_arguments :=
         [{| arg_name := js "component_name";
             arg_description := js "Name of the component to audit";
             arg_required := true |}] |} ].

(** The files listed by the resource [project://structure]. *)
Definition structure_files (rt : Runtime) : list jsstring :=
  enumerated rt structure_patterns structure_ignore.

Definition ignored_directories : list jsstring :=
  map js ["node_modules"; "dist"; "build"]%string.

(** ** Notions for [analyze_database_schema] *)

(** A captured identifier: one or more word characters. *)
Definition identifier (u : jsstring) : Prop :=
  u <> [] /\ Forall (fun c => is_word c = true) u.

(** A definition as the report shows it: at most two hundred code units of
    the matched text, followed by an ellipsis. *)
Definition is_preview (d : jsstring) : Prop :=
  List.length d <= 203 /\ endsWith d (js "...") = true.

(** What the first loop of [analyze_database_schema] collects from all the
    schema files, and what the second loop collects from the first thirty
    code files, before the report cuts the lists. *)
Definition all_schema (rt : Runtime) : Schema.acc :=
  fold_left (fun a file => schema_file a file (content_of rt file))
    (schema_files rt)
    {| Schema.a_schema :=
         {| Schema.tables := []; Schema.types := []; Schema.functions := [];
            Schema.policies := []; Schema.relationships := [] |};
       Schema.a_supabaseTypes := [] |}.

Definition all_usage (rt : Runtime) : list Schema.reference :=
  flat_map (fun file => usage_of_file file (content_of rt file))
    (slice0 30 (source_files rt)).

(** The entries of the five lists of the schema, all taken from one of
    [files]. *)
Definition schema_entries_ok (files : list jsstring) (s : Schema.schema) : Prop :=
  Forall (fun t => identifier (Schema.t_name t) /\ In (Schema.t_file t) files
                   /\ is_preview (Schema.t_definition t)) (Schema.tables s)
  /\ Forall (fun d => identifier (Schema.d_name d) /\ In (Schema.d_file d) files
                      /\ (Schema.d_type d = js "interface"
                          \/ Schema.d_type d = js "type")
                      /\ is_preview (Schema.d_definition d)) (Schema.types s)
  /\ Forall (fun f => identifier (Schema.f_name f) /\ In (Schema.f_file f) files)
       (Schema.functions s)
  /\ Forall (fun p => identifier (Schema.p_name p) /\ identifier (Schema.p_table p)
                      /\ In (Schema.p_file p) files) (Schema.policies s)
  /\ Forall (fun x => identifier (Schema.referencedTable x)
                      /\ In (Schema.r_file x) files) (Schema.relationships s).

(** A project with calls to a backend in one code file, and one schema
    file. *)
Definition project_with_backend : Runtime :=
  project_of
    [ (js "src/api.ts",
       Ok (js "fetch('/api/users'); axios.post('/login', d); supabase.from('profiles').select()"));
      (js "supabase/schema.sql",
       Ok (js "CREATE TABLE users (id int, team int REFERENCES teams (id)); CREATE POLICY own ON users; CREATE OR REPLACE FUNCTION touch")) ].

Definition call_users : Api.call := {|
  Api.type := js "fetch";
  Api.url := Some (js "/api/users");
  Api.method := Some (js "GET");
  Api.table := None;
  Api.endpoint := None;
  Api.file := js "src/api.ts"
|}.

Definition usage_profiles : Schema.reference := {|
  Schema.ref_table := js "profiles";
  Schema.ref_file := js "src/api.ts";
  Schema.ref_kind := js "query"
|}.

(** The walks a tool makes do not fail. *)
Definition walks_succeed (a : file_analysis) (rt : Runtime) : Prop :=
  match a with
  | get_components => walk_error rt component_patterns ignore_build = None
  | get_tailwind_usage | get_hooks_usage | analyze_api_calls =>
      walk_error rt source_patterns ignore_build = None
  | analyze_database_schema =>
      walk_error rt schema_patterns ignore_build = None
      /\ walk_error rt source_patterns ignore_build = None
  end.


(** A file has a class attribute: one of the three class expressions
    matches in its text. *)
Definition has_class_attribute (content : jsstring) : bool :=
  nonempty (classMatches content).

(** What one schema file alone contributes to the five lists of the
    schema. *)
Definition no_schema : Schema.acc :=
  {| Schema.a_schema :=
       {| Schema.tables := []; Schema.types := []; Schema.functions := [];
          Schema.policies := []; Schema.relationships := [] |};
     Schema.a_supabaseTypes := [] |}.

Definition found_in (rt : Runtime) (file : jsstring) : Schema.schema :=
  Schema.a_schema (schema_file no_schema file (content_of rt file)).

(** One file whose only class attribute holds a single space. *)
Definition project_with_blank_class : Runtime :=
  project_of [(js "src/Blank.tsx", Ok (js "<div className=' '/>"))].

(** One of the five lists, over all the schema files, file after file. *)
Definition found_by {A} (rt : Runtime) (part : Schema.schema -> list A)
  : list A :=
  flat_map (fun file => part (found_in rt file)) (schema_files rt).

(** Two files that are schema files and code files at once, in a project
    where the walk made for the six schema patterns reports them in one
    order and every other walk in the opposite order. *)
Definition project_walked_both_ways : Runtime := {|
  resolvedPath := js "/work/app";
  now := js "2025-01-01T00:00:00.000Z";
  tree := [js "supabase/a.ts"; js "supabase/b.ts"];
  walk_error := fun _ _ => None;
  walk_rank := fun patterns _ file =>
    if Nat.eqb (List.length patterns) 6
    then (if str_eqb file (js "supabase/a.ts") then 0 else 1)
    else (if str_eqb file (js "supabase/a.ts") then 1 else 0);
  readFile := fun p =>
    if str_eqb p (js "supabase/a.ts") then Ok (js "supabase.from('alpha')")
    else if str_eqb p (js "supabase/b.ts") then Ok (js "supabase.from('beta')")
    else Throw (js "ENOENT: no such file or directory");
  JSON_parse := fun _ => Throw (js "Unexpected token");
  URL_hostname := fun _ => None
|}.

(** * Properties *)

(** ** The embedding on small inputs *)

(** The counter [domains] is a plain object: the keys that are array
    indices come first, by value; [__proto__] is never created; a name of
    [Object.prototype] starts from the inherited function, not from zero. *)
Example domains_is_a_plain_object :
  JsObject.entries
    (fold_left increment
       [js "b.com"; js "10"; js "__proto__"; js "9"; js "b.com";
        js "constructor"] [])
  = [(js "9", Count 1); (js "10", Count 1); (js "b.com", Count 2);
     (js "constructor", Text (js "function Object() { [native code] }1"))].
Proof. vm_compute. reflexivity. Qed.

Example includes_ex : includes (js "react-router-dom") (js "router") = true.
Proof. reflexivity. Qed.

Example replace_first_only :
  replace (js "a.jsx.b.jsx") (js ".jsx") [] = js "a.b.jsx".
Proof. reflexivity. Qed.

Example split_ws_ex :
  split_re false ws1 (js "flex p-4 md:p-8") = [js "flex"; js "p-4"; js "md:p-8"].
Proof. reflexivity. Qed.

Example split_ws_edges :
  split_re false ws1 (js " a  b ") = [[]; js "a"; js "b"; []].
Proof. reflexivity. Qed.

Example exec_all_ex :
  map whole (exec_all false (cat [WordBoundary; lit "useEffect"; WordBoundary])
               (js "useEffect(a); myuseEffect; useEffect2; x.useEffect()"))
  = [js "useEffect"; js "useEffect"].
Proof. reflexivity. Qed.

Example basename_tsx :
  Path.basename (js "src/components/Button.tsx") (js ".tsx") = js "Button".
Proof. reflexivity. Qed.

Example basename_jsx :
  Path.basename (js "src/Card.jsx") (js ".tsx") = js "Card.jsx".
Proof. reflexivity. Qed.

Example basename_only_suffix :
  Path.basename (js "src/.tsx") (js ".tsx") = js ".tsx".
Proof. reflexivity. Qed.

Example sort_is_stable :
  Array_sort by_count_desc [(js "a", 1); (js "b", 3); (js "c", 1); (js "d", 3)]
  = [(js "b", 3); (js "d", 3); (js "a", 1); (js "c", 1)].
Proof. reflexivity. Qed.

Example glob_source_ex :
  map (Glob.matches false (Glob.anywhere [Glob.Star] ["tsx"; "jsx"]%string))
    [js "src/App.tsx"; js "App.jsx"; js "src/a/b/c.tsx"; js "src/x.ts";
     js "src/.hidden/a.tsx"; js ".tsx"; js "src/Foo.jsx.tsx"]
  = [true; true; true; false; false; false; true].
Proof. reflexivity. Qed.

Example glob_ignore_ex :
  map (fun p => existsb (fun g => Glob.matches true g p) ignore_build)
    [js "node_modules/react/index.js"; js "src/App.tsx";
     js "packages/a/dist/main.js"; js "src/builder/x.ts"]
  = [true; false; true; false].
Proof. reflexivity. Qed.

Example tailwind_tokens :
  classNames_of (js "<div className='flex p-4 md:p-8'>")
  = [js "flex"; js "p-4"; js "md:p-8"].
Proof. reflexivity. Qed.

Example responsive_ex :
  map (starts_with_any responsive_prefixes) [js "md:p-8"; js "p-4"; js "xmd:p"]
  = [true; false; false].
Proof. reflexivity. Qed.

Example hooks_ex :
  hook_facts (js "const [a, b] = useState(0); useEffect(f); useEffect(g); useToast()")
  = [(js "useState", 1); (js "useEffect", 2); (js "useToast", 1)].
Proof. reflexivity. Qed.

Example api_ex :
  map (fun c => (Api.type c, Api.method c))
    (calls_of_file (js "a.ts") (js "axios.post('/api/users', x); fetch('http://h/')"))
  = [(js "fetch", Some (js "GET")); (js "axios", Some (js "POST"));
     (js "api_endpoint", None)].
Proof. reflexivity. Qed.

Example schema_ex :
  let a := schema_file
             {| Schema.a_schema :=
                  {| Schema.tables := []; Schema.types := []; Schema.functions := [];
                     Schema.policies := []; Schema.relationships := [] |};
                Schema.a_supabaseTypes := [] |}
             (js "db/schema.sql")
             (js "create table users (id int references orgs (id)); CREATE OR REPLACE FUNCTION f; create policy p on users") in
  (map Schema.t_name (Schema.tables (Schema.a_schema a)),
   map Schema.f_name (Schema.functions (Schema.a_schema a)),
   map Schema.p_table (Schema.policies (Schema.a_schema a)),
   map Schema.referencedTable (Schema.relationships (Schema.a_schema a)))
  = ([js "users"], [js "f"], [js "users"], [js "orgs"]).
Proof. reflexivity. Qed.

(** ** Strings and loops *)

Lemma str_eqb_eq (a b : jsstring) : str_eqb a b = true <-> a = b.
Proof.
  revert b; induction a as [|x a IH]; intros [|y b]; simpl;
    try (split; [discriminate | congruence]); try tauto.
  rewrite andb_true_iff, N.eqb_eq, IH. split.
  - intros [-> ->]; reflexivity.
  - intros H; injection H; auto.
Qed.

Lemma str_eqb_refl (a : jsstring) : str_eqb a a = true.
Proof. apply str_eqb_eq; reflexivity. Qed.

Lemma str_eqb_neq (a b : jsstring) : str_eqb a b = false <-> a <> b.
Proof.
  rewrite <- str_eqb_eq. destruct (str_eqb a b); split; congruence.
Qed.

Lemma existsb_str_eqb (k : jsstring) (l : list jsstring) :
  existsb (str_eqb k) l = true <-> In k l.
Proof.
  rewrite existsb_exists. split.
  - intros [x [Hin Heq]]. apply str_eqb_eq in Heq. subst; assumption.
  - intros Hin. exists k. split; [assumption | apply str_eqb_refl].
Qed.

(** A loop that reads each file and folds its text into a state stops at
    the first read that fails, and otherwise is the fold over the texts. *)
Lemma for_of_read {S} (rt : Runtime) (f : S -> jsstring -> jsstring -> S)
  (l : list jsstring) (s0 : S) :
  for_of l (fun s file => content <- readFile rt file ;; Ok (f s file content)) s0
  = match first_unreadable rt l with
    | Some msg => Throw msg
    | None => Ok (fold_left (fun s file => f s file (content_of rt file)) l s0)
    end.
Proof.
  revert s0. induction l as [|file l IH]; intros s0; simpl.
  - reflexivity.
  - destruct (readFile rt file) as [content|msg] eqn:E; simpl.
    + rewrite IH.
      replace (content_of rt file) with content
        by (unfold content_of; rewrite E; reflexivity).
      reflexivity.
    + reflexivity.
Qed.

Lemma first_unreadable_app (rt : Runtime) (l1 l2 : list jsstring) :
  first_unreadable rt (l1 ++ l2)
  = match first_unreadable rt l1 with
    | Some msg => Some msg
    | None => first_unreadable rt l2
    end.
Proof.
  induction l1 as [|file l1 IH]; simpl.
  - reflexivity.
  - destruct (readFile rt file); [apply IH | reflexivity].
Qed.

Lemma first_unreadable_some (rt : Runtime) (l : list jsstring) (msg : jsstring) :
  first_unreadable rt l = Some msg ->
  exists file, In file l /\ readFile rt file = Throw msg.
Proof.
  induction l as [|file l IH]; simpl; [discriminate|].
  destruct (readFile rt file) as [c|m] eqn:E.
  - intros H. destruct (IH H) as [f [Hin Hf]]. exists f. auto.
  - intros H. injection H as ->. exists file. auto.
Qed.

Lemma first_unreadable_none (rt : Runtime) (l : list jsstring) :
  first_unreadable rt l = None <->
  forall file, In file l -> exists content, readFile rt file = Ok content.
Proof.
  induction l as [|file l IH]; simpl.
  - split; [intros _ f [] | reflexivity].
  - destruct (readFile rt file) as [c|m] eqn:E.
    + rewrite IH. split.
      * intros H f [<-|Hin]; [exists c; assumption | apply H; assumption].
      * intros H f Hin. apply H. right; assumption.
    + split; [discriminate|]. intros H.
      destruct (H file (or_introl eq_refl)) as [c Hc]. congruence.
Qed.

Lemma enumerated_empty (rt : Runtime) (patterns ignore : list Glob.pattern) :
  tree rt = [] -> enumerated rt patterns ignore = [].
Proof. intros H. unfold enumerated, walk. rewrite H. reflexivity. Qed.

Lemma fg_succeeds (rt : Runtime) (patterns ignore : list Glob.pattern) :
  walk_error rt patterns ignore = None ->
  fg rt patterns ignore = Ok (enumerated rt patterns ignore).
Proof. intros H. unfold fg. rewrite H. reflexivity. Qed.


Lemma fg_result (rt : Runtime) (patterns ignore : list Glob.pattern)
  (files : list jsstring) :
  fg rt patterns ignore = Ok files <->
  walk_error rt patterns ignore = None /\ files = enumerated rt patterns ignore.
Proof.
  unfold fg. destruct (walk_error rt patterns ignore); split.
  - discriminate.
  - intros [H _]. discriminate.
  - intros H. injection H as <-. split; reflexivity.
  - intros [_ ->]. reflexivity.
Qed.

(** The error each of the five tools returns, step by step: the walk, then
    the reads. *)
Lemma getComponents_error (rt : Runtime) :
  error_of (getComponents rt)
  = match walk_error rt component_patterns ignore_build with
    | Some msg => Some msg
    | None => first_unreadable rt (slice0 20 (component_files rt))
    end.
Proof.
  unfold getComponents, fg.
  destruct (walk_error rt component_patterns ignore_build); [reflexivity|].
  cbn [bind]. rewrite for_of_read. fold (component_files rt).
  destruct (first_unreadable rt (slice0 20 (component_files rt))); reflexivity.
Qed.

Lemma getTailwindUsage_error (rt : Runtime) :
  error_of (getTailwindUsage rt)
  = match walk_error rt source_patterns ignore_build with
    | Some msg => Some msg
    | None => first_unreadable rt (slice0 50 (source_files rt))
    end.
Proof.
  unfold getTailwindUsage, fg.
  destruct (walk_error rt source_patterns ignore_build); [reflexivity|].
  cbn [bind]. rewrite for_of_read. fold (source_files rt).
  destruct (first_unreadable rt (slice0 50 (source_files rt))); reflexivity.
Qed.

Lemma getHooksUsage_error (rt : Runtime) :
  error_of (getHooksUsage rt)
  = match walk_error rt source_patterns ignore_build with
    | Some msg => Some msg
    | None => first_unreadable rt (slice0 50 (source_files rt))
    end.
Proof.
  unfold getHooksUsage, fg.
  destruct (walk_error rt source_patterns ignore_build); [reflexivity|].
  cbn [bind]. rewrite for_of_read. fold (source_files rt).
  destruct (first_unreadable rt (slice0 50 (source_files rt))); reflexivity.
Qed.

Lemma analyzeApiCalls_error (rt : Runtime) :
  error_of (analyzeApiCalls rt)
  = match walk_error rt source_patterns ignore_build with
    | Some msg => Some msg
    | None => first_unreadable rt (slice0 50 (source_files rt))
    end.
Proof.
  unfold analyzeApiCalls, fg.
  destruct (walk_error rt source_patterns ignore_build); [reflexivity|].
  cbn [bind]. rewrite for_of_read. fold (source_files rt).
  destruct (first_unreadable rt (slice0 50 (source_files rt))); reflexivity.
Qed.

(** [analyze_database_schema] walks, reads the schema files, walks again
    and reads the first thirty code files. *)
Lemma analyzeDatabaseSchema_error (rt : Runtime) :
  error_of (analyzeDatabaseSchema rt)
  = match walk_error rt schema_patterns ignore_build with
    | Some msg => Some msg
    | None =>
        match first_unreadable rt (schema_files rt) with
        | Some msg => Some msg
        | None =>
            match walk_error rt source_patterns ignore_build with
            | Some msg => Some msg
            | None => first_unreadable rt (slice0 30 (source_files rt))
            end
        end
    end.
Proof.
  unfold analyzeDatabaseSchema, fg.
  destruct (walk_error rt schema_patterns ignore_build); [reflexivity|].
  cbn [bind]. rewrite for_of_read. fold (schema_files rt).
  destruct (first_unreadable rt (schema_files rt)); [reflexivity|].
  cbn [bind].
  destruct (walk_error rt source_patterns ignore_build); [reflexivity|].
  cbn [bind]. rewrite for_of_read. fold (source_files rt).
  destruct (first_unreadable rt (slice0 30 (source_files rt))); reflexivity.
Qed.

(** When its walks succeed, a tool returns the error of the first read that
    fails, and a report when none fails. *)
Lemma error_returned_after_walk (a : file_analysis) (rt : Runtime) :
  walks_succeed a rt ->
  error_returned a rt = first_unreadable rt (files_read a rt).
Proof.
  destruct a; unfold walks_succeed, error_returned, files_read.
  - intros H. rewrite getComponents_error, H. reflexivity.
  - intros H. rewrite getTailwindUsage_error, H. reflexivity.
  - intros H. rewrite getHooksUsage_error, H. reflexivity.
  - intros H. rewrite analyzeApiCalls_error, H. reflexivity.
  - intros [H1 H2]. rewrite analyzeDatabaseSchema_error, H1, H2.
    rewrite first_unreadable_app.
    destruct (first_unreadable rt (schema_files rt)); reflexivity.
Qed.

(** A file that cannot be read, among those a tool reads, leaves the tool
    with an error, whatever its walks do. *)
Lemma unreadable_file_is_an_error (a : file_analysis) (rt : Runtime)
  (file msg : jsstring) :
  In file (files_read a rt) -> readFile rt file = Throw msg ->
  exists m, error_returned a rt = Some m.
Proof.
  intros Hin Hfail.
  assert (Hsome : forall l, In file l -> exists m, first_unreadable rt l = Some m).
  { intros l Hl. destruct (first_unreadable rt l) as [m|] eqn:E.
    - exists m. reflexivity.
    - destruct (proj1 (first_unreadable_none rt l) E file Hl) as [c Hc].
      congruence. }
  destruct a; unfold error_returned, files_read in *.
  - rewrite getComponents_error.
    destruct (walk_error rt component_patterns ignore_build) as [m|];
      [exists m; reflexivity | apply Hsome, Hin].
  - rewrite getTailwindUsage_error.
    destruct (walk_error rt source_patterns ignore_build) as [m|];
      [exists m; reflexivity | apply Hsome, Hin].
  - rewrite getHooksUsage_error.
    destruct (walk_error rt source_patterns ignore_build) as [m|];
      [exists m; reflexivity | apply Hsome, Hin].
  - rewrite analyzeApiCalls_error.
    destruct (walk_error rt source_patterns ignore_build) as [m|];
      [exists m; reflexivity | apply Hsome, Hin].
  - rewrite analyzeDatabaseSchema_error.
    destruct (walk_error rt schema_patterns ignore_build) as [m|];
      [exists m; reflexivity|].
    destruct (first_unreadable rt (schema_files rt)) as [m|] eqn:E1;
      [exists m; reflexivity|].
    destruct (walk_error rt source_patterns ignore_build) as [m|];
      [exists m; reflexivity|].
    apply in_app_or in Hin. destruct Hin as [Hin|Hin].
    + destruct (Hsome _ Hin) as [m Hm]. congruence.
    + apply Hsome, Hin.
Qed.

(** ** Read failures *)

(** C1, as the code has it: none of the five tools that read the files they
    enumerate skips a file it cannot read.  When one of the files the tool
    reads cannot be read, the tool returns the object [{ error: message }]
    and no report; when the enumeration itself succeeded, the message is
    the one of the first read that fails.  The tool returns in every case:
    the failure does not leave it. *)
Theorem read_failure_is_returned_as_error (a : file_analysis) (rt : Runtime)
  (file msg : jsstring)
  (Hin : In file (files_read a rt))
  (Hfail : readFile rt file = Throw msg) :
  (exists m, error_returned a rt = Some m)
  /\ (walks_succeed a rt ->
      exists m, first_unreadable rt (files_read a rt) = Some m
                /\ error_returned a rt = Some m).
Proof.
  split; [exact (@unreadable_file_is_an_error a rt file msg Hin Hfail)|].
  intros Hwalk. rewrite (@error_returned_after_walk a rt Hwalk).
  destruct (first_unreadable rt (files_read a rt)) as [m|] eqn:E.
  - exists m. split; reflexivity.
  - destruct (proj1 (first_unreadable_none rt _) E file Hin) as [c Hc].
    congruence.
Qed.

Lemma read_failure_is_returned_as_error_witness :
  In (js "src/Locked.tsx") (files_read get_components project_with_locked_file)
  /\ readFile project_with_locked_file (js "src/Locked.tsx")
     = Throw (js "EACCES: permission denied")
  /\ walks_succeed get_components project_with_locked_file
  /\ exists m, error_returned get_components project_with_locked_file = Some m.
Proof.
  assert (Hin : In (js "src/Locked.tsx")
                  (files_read get_components project_with_locked_file))
    by (vm_compute; right; left; reflexivity).
  split; [exact Hin|]. split; [reflexivity|]. split; [reflexivity|].
  exact (proj1 (@read_failure_is_returned_as_error get_components
                  project_with_locked_file (js "src/Locked.tsx")
                  (js "EACCES: permission denied") Hin eq_refl)).
Defined.

(** C1 as stated fails: with one readable and one unreadable component file
    the tool returns the error object, and the component of the readable
    file, reported when that file is alone, is lost. *)
Lemma unreadable_file_aborts_get_components :
  readFile project_with_locked_file (js "src/Card.tsx")
    = Ok (js "export default function Card() { return <div/>; }")
  /\ getComponents project_with_locked_file
     = ErrorObject (js "EACCES: permission denied")
  /\ exists r, getComponents (project_of [card_tsx]) = Report r
               /\ map Components.name (Components.components r) = [js "Card"].
Proof.
  split; [reflexivity|]. split; [reflexivity|].
  eexists. split; [reflexivity|]. reflexivity.
Qed.

(** ** Empty projects and absent manifests *)

(** C2, as the code has it: in a project without files and without
    manifest, whose directory can be walked, seven tools return their report
    with every count at zero, and [analyze_dependencies] returns the error
    object. *)
Theorem empty_project_reports (rt : Runtime) (msg : jsstring)
  (Hfiles : tree rt = [])
  (Hwalk : forall patterns ignore, walk_error rt patterns ignore = None)
  (Hmanifest : readFile rt (js "package.json") = Throw msg) :
  analyzeProject rt = Report {|
      Project.projectPath := resolvedPath rt;
      Project.packageName := Some (JString (js "Unknown"));
      Project.packageVersion := Some (JString (js "Unknown"));
      Project.totalFiles := 0;
      Project.types :=
        {| Project.tsx := 0; Project.jsx := 0; Project.ts := 0; Project.js_ := 0 |};
      Project.hasReact := false; Project.hasTypeScript := false;
      Project.hasVite := false; Project.hasNext := false;
      Project.hasTailwind := false; Project.hasSupabase := false;
      Project.timestamp := now rt |}
  /\ getComponents rt = Report {|
      Components.totalComponents := 0; Components.analyzed := 0;
      Components.components := [] |}
  /\ getRoutingStructure rt = Report {|
      Routing.routingFiles := []; Routing.routes := [];
      Routing.totalRoutes := 0; Routing.hasReactRouter := false |}
  /\ analyzeDependencies rt = ErrorObject (js "No package.json found")
  /\ getTailwindUsage rt = Report {|
      Tailwind.totalFiles := 0; Tailwind.analyzedFiles := 0;
      Tailwind.totalUniqueClasses := 0; Tailwind.mostUsedClasses := [];
      Tailwind.buckets :=
        {| Tailwind.layout := []; Tailwind.colors := [];
           Tailwind.typography := []; Tailwind.responsive := [] |};
      Tailwind.files := [] |}
  /\ getHooksUsage rt = Report {|
      Hooks.totalFiles := 0; Hooks.analyzedFiles := 0;
      Hooks.totalHooksUsage := 0; Hooks.mostUsedHooks := [];
      Hooks.customHooksFound := []; Hooks.files := [] |}
  /\ analyzeApiCalls rt = Report {|
      Api.totalApiCalls := 0; Api.apiTypes := []; Api.methods := [];
      Api.domains := []; Api.calls := [];
      Api.hasSupabase := false; Api.hasAxios := false; Api.hasFetch := false |}
  /\ analyzeDatabaseSchema rt = Report {|
      Schema.schemaFiles := []; Schema.totalFiles := 0;
      Schema.found :=
        {| Schema.tables := []; Schema.types := []; Schema.functions := [];
           Schema.policies := []; Schema.relationships := [] |};
      Schema.supabaseUsage := [];
      Schema.stats :=
        {| Schema.totalTables := 0; Schema.totalTypes := 0;
           Schema.totalFunctions := 0; Schema.totalPolicies := 0;
           Schema.totalRelationships := 0; Schema.supabaseReferences := 0 |};
      Schema.hasSupabase := false; Schema.hasSQL := false;
      Schema.hasTypeScript := false |}.
Proof.
  assert (Hfg : forall patterns ignore, fg rt patterns ignore = Ok []).
  { intros patterns ignore.
    rewrite (fg_succeeds _ _ _ (Hwalk patterns ignore)).
    rewrite (@enumerated_empty rt _ _ Hfiles). reflexivity. }
  repeat split.
  - unfold analyzeProject. rewrite Hfg, Hmanifest. reflexivity.
  - unfold getComponents. rewrite Hfg. reflexivity.
  - unfold getRoutingStructure. rewrite Hfg. reflexivity.
  - unfold analyzeDependencies. rewrite Hmanifest. reflexivity.
  - unfold getTailwindUsage. rewrite Hfg. reflexivity.
  - unfold getHooksUsage. rewrite Hfg. reflexivity.
  - unfold analyzeApiCalls. rewrite Hfg. reflexivity.
  - unfold analyzeDatabaseSchema. rewrite !Hfg. reflexivity.
Qed.

Lemma empty_project_reports_witness :
  analyzeDependencies empty_project = ErrorObject (js "No package.json found")
  /\ getComponents empty_project = Report {|
       Components.totalComponents := 0; Components.analyzed := 0;
       Components.components := [] |}.
Proof.
  pose proof (@empty_project_reports empty_project
                (js "ENOENT: no such file or directory") eq_refl
                (fun _ _ => eq_refl) eq_refl) as H.
  split; [apply H | apply H].
Defined.

(** C2 as stated fails for one of the eight tools: on the empty project
    [analyze_dependencies] returns the error object, not a report. *)
Lemma empty_project_dependencies_is_error :
  tree empty_project = []
  /\ analyzeDependencies empty_project = ErrorObject (js "No package.json found").
Proof. split; reflexivity. Qed.




(** ** Dependency categories *)

Lemma category_eqb_eq (a b : Dependencies.category) :
  Dependencies.category_eqb a b = true <-> a = b.
Proof. destruct a, b; simpl; split; congruence. Qed.

(** The chain of conditionals is the ordered rule list. *)
Lemma categorizePackage_rules (name : jsstring) (version : json)
  (categories : Dependencies.categories) :
  categorizePackage name version categories
  = Dependencies.push categories (first_match category_rules name)
      {| Dependencies.name := name; Dependencies.version := version |}.
Proof.
  unfold categorizePackage.
  cbn -[includes js Dependencies.push].
  rewrite ?orb_false_r, ?orb_assoc.
  repeat match goal with
         | |- context [if ?b then _ else _] => destruct b
         end; reflexivity.
Qed.

(** What "first match wins" means for [first_match]: the category returned
    is the one of a rule that matches while no rule before it does, or it is
    [other] when no rule matches. *)
Lemma first_match_wins (rules : list (Dependencies.category * list string))
  (name : jsstring) :
  (exists before words after,
      rules = before ++ (first_match rules name, words) :: after
      /\ includes_any name words = true
      /\ forall r, In r before -> includes_any name (snd r) = false)
  \/ (first_match rules name = Dependencies.other
      /\ forall r, In r rules -> includes_any name (snd r) = false).
Proof.
  induction rules as [|[c words] rules IH]; simpl.
  - right. split; [reflexivity | intros r []].
  - destruct (includes_any name words) eqn:E.
    + left. exists [], words, rules. repeat split; [assumption | intros r []].
    + destruct IH as [[before [w [after [Hr [Hw Hb]]]]] | [Ho Hn]].
      * left. exists ((c, words) :: before), w, after. repeat split.
        -- simpl. rewrite <- Hr. reflexivity.
        -- assumption.
        -- intros r [<-|Hin]; [assumption | apply Hb; assumption].
      * right. split; [assumption|].
        intros r [<-|Hin]; [assumption | apply Hn; assumption].
Qed.

(** C4: [categorizePackage] adds the package to exactly one of the ten
    arrays, the one of the first rule of the ordered rule list that the name
    matches ([other] when none does); the array depends on the name only,
    neither on the version nor on what was categorised before.  A name that
    contains both "react" and "router" goes to [react], the earlier rule. *)
Theorem categorization_total_exclusive (name : jsstring) (version : json)
  (categories : Dependencies.categories) :
  let pkg := {| Dependencies.name := name; Dependencies.version := version |} in
  let c := first_match category_rules name in
  categorizePackage name version categories c = categories c ++ [pkg]
  /\ (forall c', c' <> c ->
        categorizePackage name version categories c' = categories c')
  /\ (forall c', categorizePackage name version categories c'
                 = categories c' ++ [pkg] -> c' = c)
  /\ (includes (js "react-router-dom") (js "router") = true
      /\ first_match category_rules (js "react-router-dom") = Dependencies.react).
Proof.
  intros pkg c. rewrite categorizePackage_rules. fold pkg c.
  assert (Hother : forall c', c' <> c ->
            Dependencies.push categories c pkg c' = categories c').
  { intros c' Hne. unfold Dependencies.push.
    destruct (Dependencies.category_eqb c c') eqn:E; [|reflexivity].
    apply category_eqb_eq in E. congruence. }
  repeat split.
  - unfold Dependencies.push.
    replace (Dependencies.category_eqb c c) with true
      by (symmetry; apply category_eqb_eq; reflexivity).
    reflexivity.
  - exact Hother.
  - intros c' H.
    destruct (Dependencies.category_eqb c c') eqn:E.
    + apply category_eqb_eq in E. congruence.
    + assert (Hne : c' <> c)
        by (intros ->; rewrite (proj2 (category_eqb_eq c c) eq_refl) in E;
            discriminate).
      rewrite (Hother c' Hne) in H.
      apply (f_equal (@List.length _)) in H. rewrite length_app in H.
      simpl in H. lia.
Qed.

(** ** Counting facts in a [Map] *)

Lemma assoc_set {V} (mp : JsMap.t V) (k k' : jsstring) (v : V) :
  assoc k' (JsMap.set mp k v) = if str_eqb k' k then Some v else assoc k' mp.
Proof.
  induction mp as [|[k0 v0] mp IH]; simpl.
  - reflexivity.
  - destruct (str_eqb k k0) eqn:E; simpl.
    + apply str_eqb_eq in E. subst k0.
      destruct (str_eqb k' k); reflexivity.
    + destruct (str_eqb k' k0) eqn:E0.
      * apply str_eqb_eq in E0. subst k0.
        destruct (str_eqb k' k) eqn:E1; [|reflexivity].
        apply str_eqb_eq in E1. subst k'. rewrite str_eqb_refl in E. discriminate.
      * apply IH.
Qed.

Lemma keys_set {V} (mp : JsMap.t V) (k : jsstring) (v : V) :
  map fst (JsMap.set mp k v)
  = if existsb (str_eqb k) (map fst mp) then map fst mp else map fst mp ++ [k].
Proof.
  induction mp as [|[k0 v0] mp IH]; simpl.
  - reflexivity.
  - destruct (str_eqb k k0); simpl.
    + reflexivity.
    + rewrite IH. destruct (existsb (str_eqb k) (map fst mp)); reflexivity.
Qed.

Lemma assoc_none {V} (mp : JsMap.t V) (k : jsstring) :
  assoc k mp = None <-> ~ In k (map fst mp).
Proof.
  induction mp as [|[k0 v0] mp IH]; simpl.
  - tauto.
  - destruct (str_eqb k k0) eqn:E.
    + apply str_eqb_eq in E. subst. split; [discriminate | tauto].
    + apply str_eqb_neq in E. rewrite IH. split.
      * intros H [H1|H1]; [congruence | tauto].
      * tauto.
Qed.

Lemma assoc_in {V} (mp : JsMap.t V) (k : jsstring) (v : V) :
  NoDup (map fst mp) -> (In (k, v) mp <-> assoc k mp = Some v).
Proof.
  induction mp as [|[k0 v0] mp IH]; simpl; intros Hnd.
  - split; [tauto | discriminate].
  - inversion Hnd as [|? ? Hnotin Hnd']; subst.
    destruct (str_eqb k k0) eqn:E.
    + apply str_eqb_eq in E. subst k0. split.
      * intros [H|H]; [congruence|].
        exfalso. apply Hnotin. apply (in_map fst) in H. exact H.
      * intros H. left. congruence.
    + apply str_eqb_neq in E. rewrite <- (IH Hnd'). split.
      * intros [H|H]; [congruence | assumption].
      * tauto.
Qed.

Lemma tally_app (mp : JsMap.t nat) (l1 l2 : list fact) :
  tally mp (l1 ++ l2) = tally (tally mp l1) l2.
Proof. apply fold_left_app. Qed.

Lemma total_app (k : jsstring) (l1 l2 : list fact) :
  total k (l1 ++ l2) = total k l1 + total k l2.
Proof. induction l1 as [|f l1 IH]; simpl; [reflexivity | rewrite IH; lia]. Qed.

Lemma total_absent (k : jsstring) (facts : list fact) :
  ~ In k (map fst facts) -> total k facts = 0.
Proof.
  induction facts as [|f facts IH]; simpl; intros H; [reflexivity|].
  destruct (str_eqb k (fst f)) eqn:E.
  - apply str_eqb_eq in E. exfalso. apply H. left. congruence.
  - rewrite IH; tauto.
Qed.

Lemma first_index_bound (k : jsstring) (facts : list fact) :
  In k (map fst facts) -> first_index k facts < List.length facts.
Proof.
  induction facts as [|f facts IH]; simpl; intros H; [tauto|].
  destruct (str_eqb k (fst f)) eqn:E; [lia|].
  apply str_eqb_neq in E. destruct H as [H|H]; [congruence|].
  specialize (IH H). lia.
Qed.

Lemma first_index_absent (k : jsstring) (facts : list fact) :
  ~ In k (map fst facts) -> first_index k facts = List.length facts.
Proof.
  induction facts as [|f facts IH]; simpl; intros H; [reflexivity|].
  destruct (str_eqb k (fst f)) eqn:E.
  - apply str_eqb_eq in E. exfalso. apply H. left. congruence.
  - rewrite IH; tauto.
Qed.

Lemma first_index_app (k : jsstring) (l1 l2 : list fact) :
  first_index k (l1 ++ l2)
  = if existsb (str_eqb k) (map fst l1) then first_index k l1
    else List.length l1 + first_index k l2.
Proof.
  induction l1 as [|f l1 IH]; simpl; [reflexivity|].
  destruct (str_eqb k (fst f)); simpl; [reflexivity|].
  rewrite IH. destruct (existsb (str_eqb k) (map fst l1)); reflexivity.
Qed.

(** The order in which a relation is required only matters on the elements
    of the list. *)
Lemma StronglySorted_weaken {A} (R R' : A -> A -> Prop) (l : list A) :
  (forall a b, In a l -> In b l -> R a b -> R' a b) ->
  StronglySorted R l -> StronglySorted R' l.
Proof.
  induction l as [|x l IH]; intros Himp Hs; [constructor|].
  inversion Hs as [|? ? Hs' Hall]; subst. constructor.
  - apply IH; [|assumption]. intros a b Ha Hb. apply Himp; right; assumption.
  - rewrite Forall_forall in *. intros y Hy.
    apply Himp; [left; reflexivity | right; assumption | apply Hall; assumption].
Qed.

Lemma StronglySorted_snoc {A} (R : A -> A -> Prop) (l : list A) (x : A) :
  StronglySorted R l -> Forall (fun y => R y x) l -> StronglySorted R (l ++ [x]).
Proof.
  induction l as [|y l IH]; simpl; intros Hs Hall.
  - repeat constructor.
  - inversion Hs as [|? ? Hs' Hy]; subst.
    inversion Hall as [|? ? Hyx Hall']; subst.
    constructor; [apply IH; assumption|].
    apply Forall_app. split; [assumption | repeat constructor; assumption].
Qed.

(** The [Map] built from a fact sequence: its keys are the keys of the
    facts, each once and in the order of their first fact, and each carries
    the total of its facts. *)
Lemma tally_invariant (facts : list fact) :
  let mp := tally [] facts in
  NoDup (map fst mp)
  /\ (forall k, In k (map fst mp) <-> In k (map fst facts))
  /\ (forall k, In k (map fst facts) -> assoc k mp = Some (total k facts))
  /\ StronglySorted (fun a b => first_index a facts < first_index b facts)
       (map fst mp).
Proof.
  induction facts as [|f facts IH] using rev_ind.
  - simpl. repeat split; try tauto; constructor.
  - cbv zeta in *. destruct IH as [Hnd [Hkeys [Hval Hord]]].
    rewrite tally_app. simpl. unfold bump.
    set (mp := tally [] facts) in *.
    set (n := match JsMap.get mp (fst f) with Some c => c | None => 0 end + snd f).
    assert (Hkeys' : forall k, In k (map fst (JsMap.set mp (fst f) n))
                               <-> In k (map fst (facts ++ [f]))).
    { intros k. rewrite keys_set, map_app, in_app_iff. simpl.
      destruct (existsb (str_eqb (fst f)) (map fst mp)) eqn:E.
      - apply existsb_str_eqb in E. rewrite Hkeys. split; [tauto|].
        intros [H|[<-|[]]]; [assumption | apply Hkeys; assumption].
      - rewrite in_app_iff, Hkeys. simpl. tauto. }
    repeat split.
    + rewrite keys_set.
      destruct (existsb (str_eqb (fst f)) (map fst mp)) eqn:E; [assumption|].
      assert (Hnot : ~ In (fst f) (map fst mp)).
      { intros H. apply existsb_str_eqb in H. congruence. }
      rewrite <- rev_involutive. apply NoDup_rev. rewrite rev_app_distr. simpl.
      constructor.
      * rewrite <- in_rev. assumption.
      * apply NoDup_rev. assumption.
    + apply Hkeys'.
    + apply Hkeys'.
    + intros k Hk. rewrite assoc_set, total_app. simpl.
      destruct (str_eqb k (fst f)) eqn:E.
      * apply str_eqb_eq in E. subst k. unfold n, JsMap.get.
        destruct (assoc (fst f) mp) as [c|] eqn:Ea.
        -- assert (Hin : In (fst f) (map fst facts)).
           { apply Hkeys. destruct (assoc_none mp (fst f)) as [_ H].
             destruct (in_dec (list_eq_dec N.eq_dec) (fst f) (map fst mp));
               [assumption|]. rewrite (H n0) in Ea. discriminate. }
           rewrite (Hval _ Hin) in Ea. injection Ea as <-. f_equal. lia.
        -- apply assoc_none in Ea. rewrite Hkeys in Ea.
           rewrite (total_absent _ _ Ea). f_equal. lia.
      * apply str_eqb_neq in E.
        rewrite map_app, in_app_iff in Hk. simpl in Hk.
        destruct Hk as [Hk|[Hk|[]]]; [|congruence].
        rewrite (Hval _ Hk). f_equal. lia.
    + assert (Hsame : forall a, In a (map fst facts) ->
                first_index a (facts ++ [f]) = first_index a facts).
      { intros a Ha. rewrite first_index_app.
        apply existsb_str_eqb in Ha. rewrite Ha. reflexivity. }
      assert (Hold : StronglySorted
                (fun a b => first_index a (facts ++ [f]) < first_index b (facts ++ [f]))
                (map fst mp)).
      { apply StronglySorted_weaken with (2 := Hord).
        intros a b Ha Hb. rewrite !Hsame by (apply Hkeys; assumption). auto. }
      rewrite keys_set.
      destruct (existsb (str_eqb (fst f)) (map fst mp)) eqn:E; [assumption|].
      apply StronglySorted_snoc; [assumption|].
      apply Forall_forall. intros y Hy.
      assert (Hy' : In y (map fst facts)) by (apply Hkeys; assumption).
      rewrite (Hsame _ Hy').
      assert (Hnot : ~ In (fst f) (map fst facts)).
      { intros H. apply Hkeys in H. apply existsb_str_eqb in H. congruence. }
      rewrite first_index_app.
      replace (existsb (str_eqb (fst f)) (map fst facts)) with false.
      * pose proof (first_index_bound _ _ Hy'). lia.
      * symmetry. destruct (existsb (str_eqb (fst f)) (map fst facts)) eqn:E';
          [|reflexivity]. apply existsb_str_eqb in E'. tauto.
Qed.

(** ** The stable sort by descending count *)

Lemma sort_insert_perm {A} (cmp : A -> A -> Z) (x : A) (l : list A) :
  Permutation (sort_insert cmp x l) (x :: l).
Proof.
  induction l as [|y l IH]; simpl.
  - apply Permutation_refl.
  - destruct (Z.ltb 0 (cmp x y)).
    + eapply perm_trans; [apply perm_skip; exact IH | apply perm_swap].
    + apply Permutation_refl.
Qed.

Lemma Array_sort_perm {A} (cmp : A -> A -> Z) (l : list A) :
  Permutation (Array_sort cmp l) l.
Proof.
  induction l as [|x l IH]; simpl.
  - constructor.
  - eapply perm_trans; [apply sort_insert_perm | apply perm_skip; exact IH].
Qed.

Lemma Array_sort_length {A} (cmp : A -> A -> Z) (l : list A) :
  List.length (Array_sort cmp l) = List.length l.
Proof. apply Permutation_length, Array_sort_perm. Qed.

(** Inserting an entry whose first fact comes before the first facts of
    all the entries of a ranked list keeps the list ranked. *)
Lemma sort_insert_ranked (facts : list fact) (x : fact) (l : list fact) :
  StronglySorted (outranks facts) l ->
  Forall (fun y => first_index (fst x) facts < first_index (fst y) facts) l ->
  StronglySorted (outranks facts) (sort_insert by_count_desc x l).
Proof.
  induction l as [|y l IH]; simpl; intros Hs Hall.
  - repeat constructor.
  - inversion Hs as [|? ? Hs' Hy]; subst.
    inversion Hall as [|? ? Hxy Hall']; subst.
    unfold by_count_desc at 1.
    destruct (Z.ltb_spec 0 (Z.of_nat (snd y) - Z.of_nat (snd x))) as [Hlt|Hge].
    + constructor; [apply IH; assumption|].
      apply Forall_forall. intros z Hz.
      apply (Permutation_in _ (sort_insert_perm by_count_desc x l)) in Hz.
      destruct Hz as [<-|Hz].
      * left. lia.
      * rewrite Forall_forall in Hy. apply Hy; assumption.
    + constructor; [assumption|].
      constructor.
      * unfold outranks. lia.
      * apply Forall_forall. intros z Hz.
        rewrite Forall_forall in Hy, Hall'.
        specialize (Hy z Hz). specialize (Hall' z Hz).
        unfold outranks in *. lia.
Qed.

Lemma Array_sort_ranked (facts : list fact) (es : list fact) :
  StronglySorted (fun a b => first_index a facts < first_index b facts)
    (map fst es) ->
  StronglySorted (outranks facts) (Array_sort by_count_desc es).
Proof.
  induction es as [|x es IH]; simpl; intros Hs.
  - constructor.
  - inversion Hs as [|? ? Hs' Hx]; subst.
    apply sort_insert_ranked; [apply IH; assumption|].
    apply Forall_forall. intros y Hy.
    apply (Permutation_in _ (Array_sort_perm by_count_desc es)) in Hy.
    rewrite Forall_forall in Hx. apply Hx. apply in_map. assumption.
Qed.

(** What the code computes is the frequency ranking of the facts. *)
Lemma ranking_is_ranking (facts : list fact) : ranking_of facts (ranking facts).
Proof.
  destruct (tally_invariant facts) as [Hnd [Hkeys [Hval Hord]]].
  unfold ranking, JsMap.entries.
  set (mp := tally [] facts) in *.
  pose proof (Array_sort_perm by_count_desc mp) as Hperm.
  assert (Hnd' : NoDup (map fst (Array_sort by_count_desc mp))).
  { apply (Permutation_NoDup (l := map fst mp)); [|assumption].
    apply Permutation_map, Permutation_sym, Hperm. }
  repeat split.
  - assumption.
  - apply (Permutation_in _ Hperm) in H.
    apply Hkeys. apply (in_map fst) in H. exact H.
  - apply (Permutation_in _ Hperm) in H.
    assert (Hk : In k (map fst facts))
      by (apply Hkeys; apply (in_map fst) in H; exact H).
    apply (assoc_in _ _ _ Hnd) in H. rewrite (Hval _ Hk) in H. congruence.
  - intros [Hk ->].
    apply (Permutation_in _ (Permutation_sym Hperm)).
    apply (assoc_in _ _ _ Hnd). apply Hval. assumption.
  - apply Array_sort_ranked. assumption.
Qed.

Lemma outranks_irrefl (facts : list fact) (a : fact) : ~ outranks facts a a.
Proof. unfold outranks. lia. Qed.

Lemma outranks_asym (facts : list fact) (a b : fact) :
  outranks facts a b -> outranks facts b a -> False.
Proof. unfold outranks. lia. Qed.

(** Two lists ranked by [outranks] that have the same elements are the
    same list. *)
Lemma ranked_unique (facts : list fact) (l1 l2 : list fact) :
  StronglySorted (outranks facts) l1 ->
  StronglySorted (outranks facts) l2 ->
  (forall e, In e l1 <-> In e l2) ->
  l1 = l2.
Proof.
  revert l2. induction l1 as [|a l1 IH]; intros [|b l2] H1 H2 Hsame.
  - reflexivity.
  - exfalso. apply (Hsame b). left; reflexivity.
  - exfalso. apply (Hsame a). left; reflexivity.
  - inversion H1 as [|? ? H1' Ha]; subst.
    inversion H2 as [|? ? H2' Hb]; subst.
    rewrite Forall_forall in Ha, Hb.
    assert (Hab : a = b).
    { destruct (proj1 (Hsame a) (or_introl eq_refl)) as [Heq|Hin]; [congruence|].
      destruct (proj2 (Hsame b) (or_introl eq_refl)) as [Heq|Hin']; [congruence|].
      exfalso. apply (outranks_asym (Hb a Hin) (Ha b Hin')). }
    subst b. f_equal. apply IH; try assumption.
    intros e. split; intros He.
    + destruct (proj1 (Hsame e) (or_intror He)) as [Heq|Hin]; [|assumption].
      subst e. exfalso. apply (outranks_irrefl (Ha a He)).
    + destruct (proj2 (Hsame e) (or_intror He)) as [Heq|Hin]; [|assumption].
      subst e. exfalso. apply (outranks_irrefl (Hb a He)).
Qed.

(** A fact sequence has one frequency ranking. *)
Lemma ranking_of_unique (facts : list fact) (l1 l2 : list fact) :
  ranking_of facts l1 -> ranking_of facts l2 -> l1 = l2.
Proof.
  intros [_ [Hin1 Hs1]] [_ [Hin2 Hs2]].
  apply (ranked_unique Hs1 Hs2).
  intros [k c]. rewrite Hin1, Hin2. tauto.
Qed.

(** Ranked lists, read through positions: of two entries the one that
    comes first has the greater count, or the same count and the earlier
    first fact. *)
Lemma ranked_positions (facts : list fact) (l l1 l2 l3 : list fact) (a b : fact) :
  StronglySorted (outranks facts) l ->
  l = l1 ++ a :: l2 ++ b :: l3 ->
  outranks facts a b.
Proof.
  intros Hs ->. revert Hs. induction l1 as [|x l1 IH]; simpl; intros Hs.
  - inversion Hs as [|? ? _ Ha]; subst. rewrite Forall_forall in Ha.
    apply Ha. apply in_or_app. right. left. reflexivity.
  - inversion Hs; subst. apply IH. assumption.
Qed.

Lemma in_firstn {A} (n : nat) (l : list A) (x : A) :
  In x (firstn n l) -> In x l.
Proof.
  intros H. rewrite <- (firstn_skipn n l). apply in_or_app. left. exact H.
Qed.

Lemma StronglySorted_firstn {A} (R : A -> A -> Prop) (n : nat) (l : list A) :
  StronglySorted R l -> StronglySorted R (firstn n l).
Proof.
  revert l. induction n as [|n IH]; intros [|x l] Hs; simpl; try constructor.
  - inversion Hs; subst. apply IH. assumption.
  - inversion Hs as [|? ? _ Hx]; subst. rewrite Forall_forall in *.
    intros y Hy. apply Hx. apply (in_firstn n l). assumption.
Qed.

(** ** The rankings of [get_tailwind_usage] and [get_hooks_usage] *)

Lemma tally_classes_facts (mp : JsMap.t nat) (classes : list jsstring) :
  tally_classes mp classes
  = tally mp (map (fun cls => (cls, 1)) (filter counted classes)).
Proof.
  unfold tally_classes, tally. revert mp.
  induction classes as [|cls classes IH]; intros mp; simpl.
  - reflexivity.
  - destruct (counted cls); simpl; apply IH.
Qed.

Lemma tailwind_classUsage (rt : Runtime) (files : list jsstring)
  (a0 : Tailwind.acc) :
  Tailwind.classUsage
    (fold_left (fun a file => tailwind_file a file (content_of rt file)) files a0)
  = tally (Tailwind.classUsage a0)
      (flat_map (fun file =>
                   map (fun cls => (cls, 1))
                     (filter counted (classNames_of (content_of rt file))))
         files).
Proof.
  revert a0. induction files as [|file files IH]; intros a0; simpl.
  - reflexivity.
  - rewrite IH, tally_app. cbn [tailwind_file Tailwind.classUsage].
    rewrite tally_classes_facts. reflexivity.
Qed.

Lemma hooks_hookUsage (rt : Runtime) (files : list jsstring) (a0 : Hooks.acc) :
  Hooks.hookUsage
    (fold_left (fun a file => hooks_file a file (content_of rt file)) files a0)
  = tally (Hooks.hookUsage a0)
      (flat_map (fun file => hook_facts (content_of rt file)) files).
Proof.
  revert a0. induction files as [|file files IH]; intros a0; simpl.
  - reflexivity.
  - rewrite IH, tally_app. reflexivity.
Qed.

(** The report of [get_tailwind_usage], when there is one, is built from
    the fold over the files read. *)
Lemma getTailwindUsage_report (rt : Runtime) (r : Tailwind.report) :
  getTailwindUsage rt = Report r ->
  r = tailwind_report (source_files rt)
        (fold_left (fun a file => tailwind_file a file (content_of rt file))
           (slice0 50 (source_files rt))
           {| Tailwind.classUsage := []; Tailwind.usage := [] |}).
Proof.
  unfold getTailwindUsage, fg.
  destruct (walk_error rt source_patterns ignore_build); cbn [bind try_catch];
    [discriminate|].
  rewrite for_of_read. fold (source_files rt).
  destruct (first_unreadable rt (slice0 50 (source_files rt))); cbn [bind try_catch].
  - discriminate.
  - intros H. injection H as <-. reflexivity.
Qed.

Lemma getHooksUsage_report (rt : Runtime) (r : Hooks.report) :
  getHooksUsage rt = Report r ->
  r = hooks_report (source_files rt)
        (fold_left (fun a file => hooks_file a file (content_of rt file))
           (slice0 50 (source_files rt))
           {| Hooks.hookUsage := []; Hooks.custom := []; Hooks.usage := [] |}).
Proof.
  unfold getHooksUsage, fg.
  destruct (walk_error rt source_patterns ignore_build); cbn [bind try_catch];
    [discriminate|].
  rewrite for_of_read. fold (source_files rt).
  destruct (first_unreadable rt (slice0 50 (source_files rt))); cbn [bind try_catch].
  - discriminate.
  - intros H. injection H as <-. reflexivity.
Qed.

Lemma mostUsedClasses_ranking (rt : Runtime) (r : Tailwind.report) :
  getTailwindUsage rt = Report r ->
  Tailwind.mostUsedClasses r = firstn 30 (ranking (class_facts rt)).
Proof.
  intros H. rewrite (@getTailwindUsage_report rt r H).
  unfold tailwind_report. cbn [Tailwind.mostUsedClasses].
  rewrite tailwind_classUsage. reflexivity.
Qed.

Lemma mostUsedHooks_ranking (rt : Runtime) (r : Hooks.report) :
  getHooksUsage rt = Report r ->
  Hooks.mostUsedHooks r = firstn 20 (ranking (hooks_facts rt)).
Proof.
  intros H. rewrite (@getHooksUsage_report rt r H).
  unfold hooks_report. cbn [Hooks.mostUsedHooks].
  rewrite hooks_hookUsage. reflexivity.
Qed.

(** C5: the list of most used classes and the list of most used hooks are
    the first 30, respectively 20, entries of the frequency ranking of the
    facts of the files read: counts never increase along the list, and of
    two entries with the same count the one whose first fact comes earlier in
    the enumeration comes first.  A fact sequence has only one such ranking,
    so the same facts always give the same ordered list. *)
Theorem frequency_rankings_ordered (rt : Runtime)
  (tw : Tailwind.report) (hk : Hooks.report)
  (Htw : getTailwindUsage rt = Report tw)
  (Hhk : getHooksUsage rt = Report hk) :
  (exists full, ranking_of (class_facts rt) full
                /\ Tailwind.mostUsedClasses tw = firstn 30 full)
  /\ (exists full, ranking_of (hooks_facts rt) full
                   /\ Hooks.mostUsedHooks hk = firstn 20 full)
  /\ (forall l1 a l2 b l3,
        Tailwind.mostUsedClasses tw = l1 ++ a :: l2 ++ b :: l3 ->
        outranks (class_facts rt) a b)
  /\ (forall l1 a l2 b l3,
        Hooks.mostUsedHooks hk = l1 ++ a :: l2 ++ b :: l3 ->
        outranks (hooks_facts rt) a b)
  /\ (forall facts l1 l2,
        ranking_of facts l1 -> ranking_of facts l2 -> l1 = l2).
Proof.
  pose proof (@mostUsedClasses_ranking rt tw Htw) as Hc.
  pose proof (@mostUsedHooks_ranking rt hk Hhk) as Hh.
  pose proof (ranking_is_ranking (class_facts rt)) as Rc.
  pose proof (ranking_is_ranking (hooks_facts rt)) as Rh.
  split; [exists (ranking (class_facts rt)); split; assumption|].
  split; [exists (ranking (hooks_facts rt)); split; assumption|].
  split; [|split].
  - intros l1 a l2 b l3 Heq.
    apply (@ranked_positions _ (Tailwind.mostUsedClasses tw) l1 l2 l3); [|assumption].
    rewrite Hc. apply StronglySorted_firstn. apply Rc.
  - intros l1 a l2 b l3 Heq.
    apply (@ranked_positions _ (Hooks.mostUsedHooks hk) l1 l2 l3); [|assumption].
    rewrite Hh. apply StronglySorted_firstn. apply Rh.
  - intros facts l1 l2. apply ranking_of_unique.
Qed.

Lemma frequency_rankings_ordered_witness :
  exists tw hk,
    getTailwindUsage project_with_classes = Report tw
    /\ getHooksUsage project_with_classes = Report hk
    /\ Tailwind.mostUsedClasses tw
       = [(js "text-sm", 3); (js "p-4", 2); (js "flex", 2); (js "mt-2", 1)]
    /\ Hooks.mostUsedHooks hk
       = [(js "useEffect", 2); (js "useState", 1); (js "useToast", 1)]
    /\ exists full, ranking_of (class_facts project_with_classes) full
                    /\ Tailwind.mostUsedClasses tw = firstn 30 full.
Proof.
  eexists. eexists.
  split; [reflexivity|]. split; [reflexivity|].
  split; [vm_compute; reflexivity|]. split; [vm_compute; reflexivity|].
  apply (@frequency_rankings_ordered project_with_classes _ _ eq_refl eq_refl).
Defined.

(** ** Names outside the registry *)

Lemma not_registered (names : list jsstring) (n k : jsstring) :
  registered names n = false -> In k names -> str_eqb n k = false.
Proof.
  unfold registered. intros H Hin.
  destruct (str_eqb n k) eqn:E; [|reflexivity].
  apply str_eqb_eq in E. subst k.
  apply existsb_str_eqb in Hin. congruence.
Qed.

(** C6, as the code has it: an unknown tool name is answered by an error
    result (the text "Error: Unknown tool: NAME" with [isError] set), and the
    tool handler returns.  An unknown resource identifier and an unknown
    prompt name make [readProjectResource] and [getPrompt] throw, and the
    handlers of these two requests let the exception through. *)
Theorem unknown_names (rt : Runtime) (name uri prompt : jsstring)
  (args : option (list (jsstring * jsstring)))
  (Htool : registered tool_names name = false)
  (Hresource : registered resource_ids (resourceId uri) = false)
  (Hprompt : registered prompt_names prompt = false) :
  handleCallTool rt name
  = Ok {| tool_content := ErrorText (js "Error: " ++ js "Unknown tool: " ++ name);
          isError := true |}
  /\ handleReadResource rt uri
     = Throw (js "Unknown resource: " ++ resourceId uri)
  /\ handleGetPrompt prompt args = Throw (js "Unknown prompt: " ++ prompt).
Proof.
  repeat split.
  - unfold handleCallTool, callTool.
    rewrite !(@not_registered tool_names name _ Htool) by (simpl; tauto). reflexivity.
  - unfold handleReadResource, readProjectResource. fold (resourceId uri).
    rewrite !(@not_registered resource_ids (resourceId uri) _ Hresource) by (simpl; tauto). reflexivity.
  - unfold handleGetPrompt, getPrompt.
    rewrite !(@not_registered prompt_names prompt _ Hprompt) by (simpl; tauto). reflexivity.
Qed.

Lemma unknown_names_witness :
  handleCallTool empty_project (js "drop_tables")
  = Ok {| tool_content := ErrorText (js "Error: Unknown tool: drop_tables");
          isError := true |}
  /\ handleReadResource empty_project (js "project://secrets")
     = Throw (js "Unknown resource: secrets")
  /\ handleGetPrompt (js "summarize") None = Throw (js "Unknown prompt: summarize").
Proof.
  exact (@unknown_names empty_project (js "drop_tables") (js "project://secrets")
           (js "summarize") None eq_refl eq_refl eq_refl).
Defined.

(** C6 as stated fails for resources and prompts: the exception leaves the
    handler. *)
Lemma unknown_resource_and_prompt_throw :
  registered resource_uris (js "project://secrets") = false
  /\ handleReadResource empty_project (js "project://secrets")
     = Throw (js "Unknown resource: secrets")
  /\ registered prompt_names (js "summarize") = false
  /\ handleGetPrompt (js "summarize") None = Throw (js "Unknown prompt: summarize").
Proof. repeat split. Qed.

(** A URI outside the registry whose identifier is known is served. *)
Example bare_identifier_is_served :
  registered resource_uris (js "components") = false
  /\ handleReadResource empty_project (js "components")
     = Ok [{| r_uri := js "components"; mimeType := js "application/json";
              r_text := ComponentsResource (Report {|
                Components.totalComponents := 0; Components.analyzed := 0;
                Components.components := [] |}) |}].
Proof. split; reflexivity. Qed.

(** ** The scenario of the specification *)

(** C7, as the code has it.  Take a project whose manifest is read and
    parsed and holds, under [dependencies], a truthy value (a version that
    is not the empty string) for [react] and for [@supabase/supabase-js];
    whose enumerations succeed and give the single file [src/App.tsx]; and
    where that file holds the text of the scenario,
    [<Route path="/home"> useEffect(...)].  Then [analyze_project] reports
    [hasReact] and [hasSupabase], [get_hooks_usage] counts [useEffect] once,
    and [get_routing_structure] reports the path "/home" twice: the tag is
    matched by the rule for [path=] and by the rule for [<Route ... path=],
    and each match is a route fact. *)
Theorem scenario_reports (rt : Runtime) (packageInfo : json)
  (Hmanifest : manifest rt = Ok packageInfo)
  (Hreact :
     truthy (opt_prop (opt_prop (Some packageInfo) "dependencies") "react")
     = true)
  (Hsupabase :
     truthy (opt_prop (opt_prop (Some packageInfo) "dependencies")
               "@supabase/supabase-js") = true)
  (Hsources : fg rt source_patterns ignore_build = Ok [js "src/App.tsx"])
  (Hrouting : fg rt routing_patterns ignore_build = Ok [js "src/App.tsx"])
  (Hcontent : readFile rt (js "src/App.tsx") = Ok app_tsx) :
  (exists p, analyzeProject rt = Report p
             /\ Project.hasReact p = true /\ Project.hasSupabase p = true)
  /\ (exists r, getRoutingStructure rt = Report r
                /\ Routing.routes r = [route_home; route_home]
                /\ Routing.totalRoutes r = 2)
  /\ (exists h, getHooksUsage rt = Report h
                /\ Hooks.mostUsedHooks h = [(js "useEffect", 1)]
                /\ 1 <= total (js "useEffect") (Hooks.mostUsedHooks h)).
Proof.
  split; [|split].
  - unfold analyzeProject. rewrite Hsources. fold (manifest rt).
    rewrite Hmanifest. cbn [bind try_catch].
    eexists. split; [reflexivity|].
    cbn [Project.hasReact Project.hasSupabase]. unfold declares, or_else.
    rewrite Hreact, Hsupabase. split; [exact Hreact | exact Hsupabase].
  - unfold getRoutingStructure. rewrite Hrouting.
    cbn [bind for_of]. rewrite Hcontent. cbn [bind try_catch].
    eexists. split; [reflexivity|]. split; vm_compute; reflexivity.
  - unfold getHooksUsage. rewrite Hsources. cbn [bind].
    change (slice0 50 [js "src/App.tsx"]) with [js "src/App.tsx"].
    cbn [for_of]. rewrite Hcontent. cbn [bind try_catch].
    eexists. split; [reflexivity|]. split; [vm_compute; reflexivity|].
    vm_compute. apply le_n.
Qed.

Lemma scenario_reports_witness :
  manifest (scenario parse_manifest) = Ok manifest_value
  /\ fg (scenario parse_manifest) source_patterns ignore_build
     = Ok [js "src/App.tsx"]
  /\ fg (scenario parse_manifest) routing_patterns ignore_build
     = Ok [js "src/App.tsx"]
  /\ readFile (scenario parse_manifest) (js "src/App.tsx") = Ok app_tsx
  /\ exists r, getRoutingStructure (scenario parse_manifest) = Report r
               /\ Routing.routes r = [route_home; route_home]
               /\ Routing.totalRoutes r = 2.
Proof.
  assert (Hs : fg (scenario parse_manifest) source_patterns ignore_build
               = Ok [js "src/App.tsx"]) by (vm_compute; reflexivity).
  assert (Hr : fg (scenario parse_manifest) routing_patterns ignore_build
               = Ok [js "src/App.tsx"]) by (vm_compute; reflexivity).
  split; [reflexivity|]. split; [exact Hs|]. split; [exact Hr|].
  split; [reflexivity|].
  exact (proj1 (proj2 (@scenario_reports (scenario parse_manifest) manifest_value
                         eq_refl eq_refl eq_refl Hs Hr eq_refl))).
Defined.

(** The number of route facts depends on the whole text of the file, not
    on the presence of the tag: two tags give four facts, and a tag that
    follows an open quote gives none with the path "/home". *)
Example two_tags_four_facts :
  map Routing.path
    (routes_of_file (js "src/App.tsx")
       (with_double_quotes "<Route path='/home'> <Route path='/home'>"))
  = [js "/home"; js "/home"; js "/home"; js "/home"].
Proof. vm_compute. reflexivity. Qed.

Example tag_without_home_fact :
  includes
    (with_double_quotes "<Route path='x> <Route path='/home'>")
    (with_double_quotes "<Route path='/home'>")
  = true
  /\ map Routing.path
       (routes_of_file (js "src/App.tsx")
          (with_double_quotes "<Route path='x> <Route path='/home'>"))
     = [js "x> <Route path="; js "x> <Route path="].
Proof. split; vm_compute; reflexivity. Qed.

(** The flags of [analyze_project] look at the value, not at the key: a
    package declared with the empty string as its version is not seen. *)
Example empty_version_is_not_declared :
  declares (JObject [(js "dependencies", JObject [(js "react", JString [])])])
    "react" = false.
Proof. reflexivity. Qed.

(** C7 as stated fails on the number of route facts: the report of the
    scenario holds two facts with the path "/home", not one. *)
Lemma scenario_has_two_home_routes :
  exists r, getRoutingStructure (scenario parse_manifest) = Report r
            /\ count_if (fun x => str_eqb (Routing.path x) (js "/home"))
                 (Routing.routes r) = 2
            /\ count_if (fun x => str_eqb (Routing.path x) (js "/home"))
                 (Routing.routes r) <> 1.
Proof.
  eexists. split; [reflexivity|]. split; [vm_compute; reflexivity|].
  vm_compute. discriminate.
Qed.

(** ** The files enumerated for [get_components] *)

Lemma startsWith_app (s p : jsstring) :
  startsWith s p = true <-> exists t, s = p ++ t.
Proof.
  revert s. induction p as [|x p IH]; intros s; simpl.
  - split; [intros _; exists s; reflexivity | destruct s; reflexivity].
  - destruct s as [|y s]; simpl.
    + split; [discriminate | intros [t Ht]; discriminate].
    + rewrite andb_true_iff, N.eqb_eq, IH. split.
      * intros [-> [t ->]]. exists t. reflexivity.
      * intros [t Ht]. injection Ht as -> ->. split; [reflexivity|].
        exists t. reflexivity.
Qed.

Lemma endsWith_app (s p : jsstring) :
  endsWith s p = true <-> exists t, s = t ++ p.
Proof.
  unfold endsWith. rewrite startsWith_app. split.
  - intros [t Ht]. exists (rev t).
    rewrite <- (rev_involutive s), Ht, rev_app_distr, rev_involutive.
    reflexivity.
  - intros [t ->]. exists (rev t). apply rev_app_distr.
Qed.

(** The last piece of [s.split(sep)] is a suffix of [s]. *)
Lemma split_char_last (sep : char) (s cur : jsstring) :
  exists init piece pre,
    split_char sep cur s = init ++ [piece] /\ rev cur ++ s = pre ++ piece.
Proof.
  revert cur. induction s as [|c s IH]; intros cur; simpl.
  - exists [], (rev cur), []. split; [reflexivity|]. apply app_nil_r.
  - destruct (N.eqb c sep).
    + destruct (IH []) as [init [piece [pre [Hs Hp]]]]. simpl in Hp.
      exists (rev cur :: init), piece, (rev cur ++ c :: pre). split.
      * rewrite Hs. reflexivity.
      * rewrite Hp, <- app_assoc. reflexivity.
    + destruct (IH (c :: cur)) as [init [piece [pre [Hs Hp]]]].
      exists init, piece, pre. split; [assumption|].
      rewrite <- Hp. simpl. rewrite <- app_assoc. reflexivity.
Qed.

(** A name matched by [*.{e1,e2,...}] ends with a dot and one of the
    extensions. *)
Lemma match_star_dot_brace (exts : list string) (s : jsstring) :
  Glob.match_atoms [Glob.Star; Glob.Lit "."; Glob.Brace exts] s = true ->
  exists pre ext, In ext exts /\ s = pre ++ js "." ++ js ext.
Proof.
  induction s as [|c s IH]; intros H.
  - simpl in H. discriminate.
  - change (Glob.match_atoms [Glob.Star; Glob.Lit "."; Glob.Brace exts] (c :: s))
      with (Glob.match_atoms [Glob.Lit "."; Glob.Brace exts] (c :: s)
            || Glob.match_atoms [Glob.Star; Glob.Lit "."; Glob.Brace exts] s) in H.
    apply orb_true_iff in H. destruct H as [H|H].
    + cbn [Glob.match_atoms] in H. apply andb_true_iff in H.
      destruct H as [Hdot Hext]. apply startsWith_app in Hdot.
      destruct Hdot as [t Ht]. rewrite Ht in *.
      change (skipn (List.length (js ".")) (js "." ++ t)) with t in Hext.
      apply existsb_exists in Hext. destruct Hext as [ext [Hin Hext]].
      apply andb_true_iff in Hext. destruct Hext as [Hpre Hnil].
      apply startsWith_app in Hpre. destruct Hpre as [u ->].
      rewrite skipn_app, Nat.sub_diag, skipn_all in Hnil. simpl in Hnil.
      destruct u; [|discriminate].
      exists [], ext. split; [assumption|]. rewrite app_nil_r. reflexivity.
    + destruct (IH H) as [pre [ext [Hin ->]]].
      exists (c :: pre), ext. split; [assumption | reflexivity].
Qed.

(** Whatever its order, the walk of a call reports the files of the
    project, each as often as the project has it. *)
Lemma walk_perm (rt : Runtime) (patterns ignore : list Glob.pattern) :
  Permutation (walk rt patterns ignore) (tree rt).
Proof. apply Array_sort_perm. Qed.

Lemma enumerated_In (rt : Runtime) (patterns ignore : list Glob.pattern)
  (file : jsstring) :
  In file (enumerated rt patterns ignore) <->
  In file (tree rt)
  /\ existsb (fun g => Glob.matches false g file) patterns
     && negb (existsb (fun g => Glob.matches true g file) ignore) = true.
Proof.
  unfold enumerated. rewrite filter_In. split; intros [Hin H]; split;
    try exact H.
  - exact (Permutation_in _ (walk_perm rt patterns ignore) Hin).
  - exact (Permutation_in _ (Permutation_sym (walk_perm rt patterns ignore)) Hin).
Qed.

(** The two walks of [analyze_database_schema] can come in different
    orders: the schema files are then listed in one order and the usages in
    the other. *)
Example two_walks_two_orders :
  schema_files project_walked_both_ways
    = [js "supabase/a.ts"; js "supabase/b.ts"]
  /\ source_files project_walked_both_ways
     = [js "supabase/b.ts"; js "supabase/a.ts"]
  /\ exists r, analyzeDatabaseSchema project_walked_both_ways = Report r
               /\ Schema.schemaFiles r = [js "supabase/a.ts"; js "supabase/b.ts"]
               /\ map Schema.ref_table (Schema.supabaseUsage r)
                  = [js "beta"; js "alpha"].
Proof.
  split; [vm_compute; reflexivity|]. split; [vm_compute; reflexivity|].
  eexists. split; [reflexivity|]. split; vm_compute; reflexivity.
Qed.

(** A path matched by [**/NAME] has NAME matching its last segment. *)
Lemma match_globstar_last (dot : bool) (atoms : list Glob.atom)
  (segs : list jsstring) :
  Glob.match_segments dot [Glob.GlobStar; Glob.Seg atoms] segs = true ->
  exists init s, segs = init ++ [s] /\ Glob.match_segment dot atoms s = true.
Proof.
  induction segs as [|s segs IH]; intros H.
  - simpl in H. discriminate.
  - change (Glob.match_segments dot [Glob.GlobStar; Glob.Seg atoms] (s :: segs))
      with (Glob.match_segments dot [Glob.Seg atoms] (s :: segs)
            || (dot || negb (Glob.hidden s))
               && Glob.match_segments dot [Glob.GlobStar; Glob.Seg atoms] segs) in H.
    apply orb_true_iff in H. destruct H as [H|H].
    + cbn [Glob.match_segments] in H. apply andb_true_iff in H.
      destruct H as [Hs Hnil]. destruct segs; [|discriminate].
      exists [], s. split; [reflexivity | assumption].
    + apply andb_true_iff in H. destruct H as [_ H].
      destruct (IH H) as [init [s' [-> Hs']]].
      exists (s :: init), s'. split; [reflexivity | assumption].
Qed.

(** Every path enumerated for [get_components] ends in ".tsx" or ".jsx",
    and is a file of the project outside the ignored directories. *)
Lemma component_files_extension (rt : Runtime) (file : jsstring) :
  In file (component_files rt) ->
  In file (tree rt)
  /\ (endsWith file (js ".tsx") = true \/ endsWith file (js ".jsx") = true).
Proof.
  unfold component_files, component_patterns. rewrite enumerated_In.
  intros [Hin H]. split; [assumption|].
  apply andb_true_iff in H. destruct H as [H _].
  cbn [existsb] in H. rewrite orb_false_r in H.
  unfold Glob.matches, Glob.anywhere in H.
  apply match_globstar_last in H. destruct H as [init [s [Hsplit Hs]]].
  unfold Glob.match_segment in Hs. apply andb_true_iff in Hs.
  destruct Hs as [_ Hs]. apply match_star_dot_brace in Hs.
  destruct Hs as [pre [ext [Hext ->]]].
  destruct (split_char_last 47%N file []) as [init' [piece [pre' [Hs' Hp]]]].
  unfold split in Hsplit. rewrite Hs' in Hsplit.
  apply app_inj_tail in Hsplit. destruct Hsplit as [_ ->].
  simpl in Hp. subst file.
  destruct Hext as [<-|[<-|[]]]; [left|right];
    apply endsWith_app; exists (pre' ++ pre); rewrite <- app_assoc; reflexivity.
Qed.

(** ** Component names *)

Lemma loop_app (step : Path.scan_state -> Z -> char -> Path.scan_state)
  (l1 l2 : jsstring) (i : Z) (st : Path.scan_state) :
  Path.loop step (l1 ++ l2) i st
  = Path.loop step l2 (i - Z.of_nat (List.length l1)) (Path.loop step l1 i st).
Proof.
  revert i st. induction l1 as [|c l1 IH]; intros i st.
  - simpl. f_equal. lia.
  - cbn [app Path.loop List.length]. rewrite IH. f_equal. lia.
Qed.

Lemma loop_stopped (sfx l : jsstring) (i : Z) (st : Path.scan_state) :
  Path.stopped st = true -> Path.loop (Path.step_suffix sfx) l i st = st.
Proof.
  revert i st. induction l as [|c l IH]; intros i st H; simpl.
  - reflexivity.
  - unfold Path.step_suffix at 2. rewrite H. apply IH. assumption.
Qed.

(** After the suffix has been dealt with, code units other than the slash
    leave the state as it is. *)
Lemma loop_idle (sfx l : jsstring) (i s e f : Z) :
  ~ In 47%N l -> f <> (-1)%Z ->
  Path.loop (Path.step_suffix sfx) l i (Path.ScanState s e false (-1) f false)
  = Path.ScanState s e false (-1) f false.
Proof.
  revert i. induction l as [|c l IH]; intros i Hns Hf; simpl.
  - reflexivity.
  - unfold Path.step_suffix at 2. cbn [Path.stopped Path.firstNonSlashEnd].
    unfold Path.CHAR_FORWARD_SLASH.
    destruct (N.eqb_spec c 47) as [->|_]; [exfalso; apply Hns; left; reflexivity|].
    destruct (Z.eqb_spec f (-1)) as [|_]; [contradiction|].
    cbn [Path.extIdx Z.leb Z.compare]. apply IH; [|assumption].
    intros H. apply Hns. right. assumption.
Qed.

(** The first slash met after the name ends the walk. *)
Lemma loop_slash (sfx l : jsstring) (i s e f : Z) :
  Path.loop (Path.step_suffix sfx) (47%N :: l) i
    (Path.ScanState s e false (-1) f false)
  = Path.ScanState (i + 1) e false (-1) f true.
Proof.
  cbn [Path.loop]. unfold Path.step_suffix at 2. simpl.
  apply loop_stopped. reflexivity.
Qed.

Lemma step_char (sfx : jsstring) (s e x f i : Z) (ms : bool) (c : char) :
  c <> 47%N ->
  Path.step_suffix sfx (Path.ScanState s e ms x f false) i c
  = let f' := if Z.eqb f (-1) then (i + 1)%Z else f in
    let ms' := if Z.eqb f (-1) then false else ms in
    if Z.leb 0 x then
      if N.eqb c (Path.charCodeAt sfx x)
      then Path.ScanState s (if Z.eqb (x - 1) (-1) then i else e) ms' (x - 1) f' false
      else Path.ScanState s f' ms' (-1) f' false
    else Path.ScanState s e ms' x f' false.
Proof.
  intros Hc. unfold Path.step_suffix, Path.CHAR_FORWARD_SLASH.
  cbn [Path.stopped Path.firstNonSlashEnd].
  destruct (N.eqb_spec c 47) as [|_]; [contradiction|].
  destruct (Z.eqb f (-1)); reflexivity.
Qed.

Ltac basename_step :=
  rewrite step_char by discriminate;
  match goal with
  | |- context [Path.charCodeAt ?s ?x] =>
      let v := eval vm_compute in (Path.charCodeAt s x) in
      change (Path.charCodeAt s x) with v
  end;
  match goal with
  | H : Z.eqb _ (-1) = false |- _ => rewrite ?H
  end;
  repeat match goal with
         | |- context [(Z.pos ?a - 1)%Z] =>
             let v := eval vm_compute in (Z.pos a - 1)%Z in
             change (Z.pos a - 1)%Z with v
         | |- context [(0 - 1)%Z] => change (0 - 1)%Z with (-1)%Z
         end;
  cbn -[Path.step_suffix Z.add Z.sub].

Lemma suffix_tsx (i : Z) : (3 <= i)%Z ->
  Path.loop (Path.step_suffix (js ".tsx")) (rev (js ".tsx")) i
    (Path.ScanState 0 (-1) true 3 (-1) false)
  = Path.ScanState 0 (i - 3) false (-1) (i + 1) false.
Proof.
  intros Hi.
  assert (Hf : Z.eqb (i + 1) (-1) = false) by (apply Z.eqb_neq; lia).
  change (rev (js ".tsx")) with [120; 115; 116; 46]%N.
  change (js ".tsx") with [46; 116; 115; 120]%N.
  cbn [Path.loop].
  do 4 basename_step.
  f_equal. lia.
Qed.

Lemma suffix_jsx (i : Z) : (3 <= i)%Z ->
  Path.loop (Path.step_suffix (js ".tsx")) (rev (js ".jsx")) i
    (Path.ScanState 0 (-1) true 3 (-1) false)
  = Path.ScanState 0 (i + 1) false (-1) (i + 1) false.
Proof.
  intros Hi.
  assert (Hf : Z.eqb (i + 1) (-1) = false) by (apply Z.eqb_neq; lia).
  change (rev (js ".jsx")) with [120; 115; 106; 46]%N.
  change (js ".tsx") with [46; 116; 115; 120]%N.
  cbn [Path.loop].
  do 4 basename_step.
  reflexivity.
Qed.

Lemma str_eqb_length (a b : jsstring) :
  List.length a <> List.length b -> str_eqb a b = false.
Proof.
  intros H. apply str_eqb_neq. intros ->. apply H. reflexivity.
Qed.

(** The base name of [dir/stem.tsx] with the suffix ".tsx" removed is
    [stem]; of [dir/stem.jsx] it is [stem.jsx]. *)
Lemma basename_of_component (dir stem ext : jsstring) (tsx : bool) :
  (dir = [] \/ exists d, dir = d ++ [47%N]) ->
  stem <> [] -> ~ In 47%N stem ->
  ext = (if tsx then js ".tsx" else js ".jsx") ->
  Path.basename (dir ++ stem ++ ext) (js ".tsx")
  = if tsx then stem else stem ++ ext.
Proof.
  intros Hdir Hstem Hns Hdef.
  assert (Hext : List.length ext = 4) by (subst ext; destruct tsx; reflexivity).
  assert (Hlen : List.length (dir ++ stem ++ ext)
                 = List.length dir + List.length stem + 4).
  { rewrite !length_app, Hext. lia. }
  assert (Hpos : 0 < List.length stem) by (destruct stem; [congruence | simpl; lia]).
  unfold Path.basename.
  change (List.length (js ".tsx")) with 4.
  rewrite Hlen.
  replace (4 <=? List.length dir + List.length stem + 4) with true
    by (symmetry; apply Nat.leb_le; lia).
  rewrite str_eqb_length by (rewrite Hlen; simpl; lia).
  cbn [Nat.eqb negb andb].
  rewrite !rev_app_distr, <- app_assoc, !loop_app, !length_rev, Hext.
  set (L := Z.of_nat (List.length dir + List.length stem + 4)).
  change (Z.of_nat 4 - 1)%Z with 3%Z.
  assert (Hwalk :
    Path.loop (Path.step_suffix (js ".tsx")) (rev ext) (L - 1)
      (Path.ScanState 0 (-1) true 3 (-1) false)
    = Path.ScanState 0 (if tsx then L - 4 else L) false (-1) L false).
  { subst ext. destruct tsx.
    - rewrite suffix_tsx by (unfold L; lia). f_equal; lia.
    - rewrite suffix_jsx by (unfold L; lia). f_equal; lia. }
  rewrite Hwalk.
  rewrite loop_idle;
    [| rewrite <- in_rev; assumption | unfold L; lia].
  set (E := (if tsx then L - 4 else L)%Z).
  assert (HE : (Z.of_nat (List.length dir) < E)%Z) by (unfold E, L; destruct tsx; lia).
  assert (Hfinal :
    Path.loop (Path.step_suffix (js ".tsx")) (rev dir)
      (L - 1 - Z.of_nat 4 - Z.of_nat (List.length stem))
      (Path.ScanState 0 E false (-1) L false)
    = Path.ScanState (Z.of_nat (List.length dir)) E false (-1) L
        (negb (Nat.eqb (List.length dir) 0))).
  { destruct Hdir as [->|[d ->]].
    - reflexivity.
    - rewrite rev_app_distr. cbn [rev app]. rewrite loop_slash.
      rewrite length_app. cbn [List.length]. 
      replace (Nat.eqb (List.length d + 1) 0) with false
        by (symmetry; apply Nat.eqb_neq; lia).
      cbn [negb]. f_equal. unfold L. rewrite length_app. cbn [List.length]. lia. }
  rewrite Hfinal. cbn [Path.start Path.end_ Path.firstNonSlashEnd].
  destruct (Z.eqb_spec (Z.of_nat (List.length dir)) E) as [Heq|_]; [lia|].
  destruct (Z.eqb_spec E (-1)) as [Heq|_]; [lia|].
  unfold Path.zslice, slice. rewrite Nat2Z.id.
  rewrite skipn_app, Nat.sub_diag, skipn_all. cbn [skipn app].
  unfold E, L. destruct tsx.
  - replace (Z.to_nat (Z.of_nat (List.length dir + List.length stem + 4) - 4)
             - List.length dir) with (List.length stem + 0) by lia.
    rewrite firstn_app_2. cbn [firstn]. apply app_nil_r.
  - replace (Z.to_nat (Z.of_nat (List.length dir + List.length stem + 4))
             - List.length dir) with (List.length (stem ++ ext))
      by (rewrite length_app, Hext; lia).
    apply firstn_all.
Qed.

Lemma startsWith_nil (s : jsstring) : startsWith s [] = true.
Proof. destruct s; reflexivity. Qed.

Lemma replace_absent (s p r : jsstring) :
  includes s p = false -> replace s p r = s.
Proof.
  induction s as [|c s IH]; simpl; intros H.
  - apply orb_false_elim in H. destruct H as [H _]. rewrite H. reflexivity.
  - apply orb_false_elim in H. destruct H as [H1 H2]. rewrite H1.
    f_equal. apply IH. assumption.
Qed.

(** ".jsx" cannot overlap itself: in [stem.jsx] its first occurrence is the
    final one when [stem] does not contain it. *)
Lemma replace_final_jsx (stem : jsstring) :
  includes stem (js ".jsx") = false ->
  replace (stem ++ js ".jsx") (js ".jsx") [] = stem.
Proof.
  induction stem as [|c t IH]; intros H.
  - reflexivity.
  - cbn [includes] in H. apply orb_false_elim in H. destruct H as [H1 H2].
    cbn [app replace].
    assert (Hs : startsWith (c :: t ++ js ".jsx") (js ".jsx") = false).
    { change (js ".jsx") with [46; 106; 115; 120]%N in *.
      destruct t as [|a [|b [|d t']]]; simpl in *;
        rewrite ?andb_false_r; try reflexivity.
      rewrite startsWith_nil in *. exact H1. }
    rewrite Hs. f_equal. apply IH. assumption.
Qed.

(** Where C8 holds: for a component file [dir/stem.tsx] or [dir/stem.jsx]
    whose stem is not empty and does not contain ".jsx", the name reported is
    the stem. *)
Lemma componentName_of_ordinary_file (dir stem ext : jsstring) :
  (dir = [] \/ exists d, dir = d ++ [47%N]) ->
  stem <> [] -> ~ In 47%N stem ->
  includes stem (js ".jsx") = false ->
  ext = js ".tsx" \/ ext = js ".jsx" ->
  componentName (dir ++ stem ++ ext) = stem.
Proof.
  intros Hdir Hstem Hns Hjsx [->| ->]; unfold componentName.
  - rewrite (@basename_of_component dir stem (js ".tsx") true) by auto.
    apply replace_absent. assumption.
  - rewrite (@basename_of_component dir stem (js ".jsx") false) by auto.
    apply replace_final_jsx. assumption.
Qed.

Lemma getComponents_report (rt : Runtime) (r : Components.report) :
  getComponents rt = Report r ->
  r = let components :=
        fold_left (fun cs file => cs ++ [analyzeComponent file (content_of rt file)])
          (slice0 20 (component_files rt)) [] in
      {| Components.totalComponents := List.length (component_files rt);
         Components.analyzed := List.length components;
         Components.components := components |}.
Proof.
  unfold getComponents, fg.
  destruct (walk_error rt component_patterns ignore_build); cbn [bind try_catch];
    [discriminate|].
  rewrite for_of_read. fold (component_files rt).
  destruct (first_unreadable rt (slice0 20 (component_files rt)));
    cbn [bind try_catch].
  - discriminate.
  - intros H. injection H as <-. reflexivity.
Qed.

Lemma fold_snoc_map {A B} (g : A -> B) (l : list A) (acc : list B) :
  fold_left (fun cs x => cs ++ [g x]) l acc = acc ++ map g l.
Proof.
  revert acc. induction l as [|x l IH]; intros acc; simpl.
  - symmetry. apply app_nil_r.
  - rewrite IH, <- app_assoc. reflexivity.
Qed.

(** The names in the report of [get_components] are the [componentName]s
    of the first twenty enumerated files. *)
Lemma reported_component_names (rt : Runtime) (r : Components.report) :
  getComponents rt = Report r ->
  map Components.name (Components.components r)
  = map componentName (slice0 20 (component_files rt)).
Proof.
  intros H. rewrite (@getComponents_report rt r H).
  cbn [Components.components].
  rewrite (fold_snoc_map (fun file => analyzeComponent file (content_of rt file))).
  cbn [app]. rewrite map_map. reflexivity.
Qed.

Example ordinary_component_names :
  map componentName [js "src/components/Button.tsx"; js "src/Card.jsx"; js "App.tsx"]
  = [js "Button"; js "Card"; js "App"]
  /\ map name_without_extension
       [js "src/components/Button.tsx"; js "src/Card.jsx"; js "App.tsx"]
     = [js "Button"; js "Card"; js "App"].
Proof. split; reflexivity. Qed.

(** C8 at a failing input: [replace('.jsx', '')] removes the first ".jsx"
    of the name, not the extension.  Both files are enumerated and analysed;
    the names reported are "Button.test.jsx" and "Form", the base names
    without extension are "Button.jsx.test" and "Form.jsx". *)
Theorem component_name_of_dotted_file :
  component_files project_with_dotted_names
  = [js "src/Button.jsx.test.jsx"; js "src/Form.jsx.tsx"]
  /\ (exists r, getComponents project_with_dotted_names = Report r
                /\ map Components.name (Components.components r)
                   = [js "Button.test.jsx"; js "Form"])
  /\ map name_without_extension (component_files project_with_dotted_names)
     = [js "Button.jsx.test"; js "Form.jsx"].
Proof.
  split; [vm_compute; reflexivity|]. split.
  - eexists. split; [reflexivity|]. vm_compute. reflexivity.
  - vm_compute. reflexivity.
Qed.

(** ** Truncation in [get_components] *)




(** ** The pattern buckets of [get_tailwind_usage] *)

Lemma bucket_within (prefixes : list string) (top : list (jsstring * nat)) :
  within top (bucket prefixes top).
Proof.
  assert (Hincl : incl (bucket prefixes top) top).
  { intros e He. unfold bucket, slice0 in He. apply in_firstn in He.
    apply filter_In in He. tauto. }
  repeat split.
  - unfold bucket, slice0. rewrite length_firstn. lia.
  - exact Hincl.
  - intros cls Hnot Hin. apply Hnot.
    apply in_map_iff in Hin. destruct Hin as [e [<- He]].
    apply in_map. apply Hincl. assumption.
Qed.

(** C10: the four buckets are taken from the thirty most used classes: each
    holds at most ten entries, all of them entries of [mostUsedClasses], and a
    class that is not among these thirty is in no bucket. *)
Theorem buckets_from_top_30 (rt : Runtime) (r : Tailwind.report)
  (Hreport : getTailwindUsage rt = Report r) :
  let top := Tailwind.mostUsedClasses r in
  top = firstn 30 (ranking (class_facts rt))
  /\ List.length top <= 30
  /\ within top (Tailwind.layout (Tailwind.buckets r))
  /\ within top (Tailwind.colors (Tailwind.buckets r))
  /\ within top (Tailwind.typography (Tailwind.buckets r))
  /\ within top (Tailwind.responsive (Tailwind.buckets r)).
Proof.
  intros top.
  pose proof (@mostUsedClasses_ranking rt r Hreport) as Htop. fold top in Htop.
  split; [assumption|].
  split; [rewrite Htop, length_firstn; lia|].
  subst top. rewrite (@getTailwindUsage_report rt r Hreport).
  unfold tailwind_report.
  cbn [Tailwind.mostUsedClasses Tailwind.buckets Tailwind.layout Tailwind.colors
       Tailwind.typography Tailwind.responsive].
  repeat split; apply bucket_within.
Qed.

Lemma buckets_from_top_30_witness :
  exists r, getTailwindUsage project_with_31_classes = Report r
            /\ Tailwind.totalUniqueClasses r = 31
            /\ List.length (Tailwind.mostUsedClasses r) = 30
            /\ starts_with_any layout_prefixes (js "flex") = true
            /\ Tailwind.layout (Tailwind.buckets r) = []
            /\ within (Tailwind.mostUsedClasses r)
                 (Tailwind.layout (Tailwind.buckets r)).
Proof.
  eexists. split; [reflexivity|].
  split; [vm_compute; reflexivity|]. split; [vm_compute; reflexivity|].
  split; [vm_compute; reflexivity|]. split; [vm_compute; reflexivity|].
  apply (@buckets_from_top_30 project_with_31_classes _ eq_refl).
Defined.

(** ** The matcher against the declarative reading *)

Lemma eat_sound (ci : bool) (l : jsstring) (s s' : mstate) :
  eat ci l s = Some s' ->
  exists v, rest s = v ++ rest s' /\ pos s' = pos s + List.length v
            /\ caps s' = caps s
            /\ Forall2 (fun x c => chr_eqb ci x c = true) l v.
Proof.
  revert s. induction l as [|x l IH]; intros s H; simpl in H.
  - injection H as <-. exists []. repeat split; [simpl; lia | constructor].
  - destruct (rest s) as [|c t] eqn:Er; [discriminate|].
    destruct (chr_eqb ci x c) eqn:Ec; [|discriminate].
    destruct (IH _ H) as [v [Hr [Hp [Hc Hf]]]]. simpl in Hr, Hp, Hc.
    exists (c :: v). repeat split.
    + simpl. rewrite Hr. reflexivity.
    + simpl. lia.
    + assumption.
    + constructor; assumption.
Qed.

Lemma star_sound (p : char -> bool) (k : cont) (l : jsstring) :
  forall bef n cs res,
    star p k bef l n cs = Some res ->
    exists v bef' l',
      l = v ++ l' /\ Forall (fun c => p c = true) v
      /\ k (MState bef' l' (n + List.length v) cs) = Some res.
Proof.
  induction l as [|c t IH]; intros bef n cs res H; simpl in H.
  - exists [], bef, []. repeat split; [constructor|].
    rewrite Nat.add_0_r. assumption.
  - destruct (p c) eqn:Ep.
    + destruct (star p k (Some c) t (S n) cs) as [r|] eqn:Es.
      * injection H as <-. destruct (IH _ _ _ _ Es) as [v [bef' [l' [Hl [Hf Hk]]]]].
        exists (c :: v), bef', l'. repeat split.
        -- simpl. rewrite Hl. reflexivity.
        -- constructor; assumption.
        -- simpl. rewrite <- Hk. do 2 f_equal. lia.
      * exists [], bef, (c :: t). repeat split; [constructor|].
        rewrite Nat.add_0_r. assumption.
    + exists [], bef, (c :: t). repeat split; [constructor|].
      rewrite Nat.add_0_r. assumption.
Qed.

(** Whenever the matcher succeeds, the continuation was reached after a
    text that the expression matches in the declarative reading. *)
Lemma m_sound (ci : bool) (r : re) :
  forall (k : cont) (s res : mstate),
    m ci r k s = Some res ->
    exists v s',
      rest s = v ++ rest s' /\ pos s' = pos s + List.length v
      /\ matched ci r (caps s) v (caps s') /\ k s' = Some res.
Proof.
  induction r as [l|p|p|p|a IHa b IHb|a IHa b IHb|a IHa|i a IHa| |];
    intros k s res H; simpl in H.
  - destruct (eat ci l s) as [s'|] eqn:E; [|discriminate].
    destruct (eat_sound _ _ _ E) as [v [Hr [Hp [Hc Hf]]]].
    exists v, s'. simpl. rewrite Hc. auto.
  - destruct (rest s) as [|c t] eqn:Er; [discriminate|].
    destruct (p c) eqn:Ep; [|discriminate].
    exists [c], (MState (Some c) t (S (pos s)) (caps s)). simpl.
    repeat split; try assumption; try lia. exists c. auto.
  - destruct (star_sound _ _ _ _ _ _ H) as [v [bef' [l' [Hl [Hf Hk]]]]].
    exists v, (MState bef' l' (pos s + List.length v) (caps s)). simpl. auto.
  - destruct (rest s) as [|c t] eqn:Er; [discriminate|].
    destruct (p c) eqn:Ep; [|discriminate].
    destruct (star_sound _ _ _ _ _ _ H) as [v [bef' [l' [Hl [Hf Hk]]]]].
    exists (c :: v), (MState bef' l' (S (pos s) + List.length v) (caps s)).
    simpl. repeat split.
    + rewrite Hl. reflexivity.
    + lia.
    + discriminate.
    + constructor; assumption.
    + assumption.
  - destruct (IHa _ _ _ H) as [v1 [s1 [Hr1 [Hp1 [Hm1 Hk1]]]]].
    destruct (IHb _ _ _ Hk1) as [v2 [s2 [Hr2 [Hp2 [Hm2 Hk2]]]]].
    exists (v1 ++ v2), s2. simpl. repeat split.
    + rewrite Hr1, Hr2. apply app_assoc.
    + rewrite length_app. lia.
    + exists v1, v2, (caps s1). auto.
    + assumption.
  - destruct (m ci a k s) as [r|] eqn:E.
    + injection H as <-. destruct (IHa _ _ _ E) as [v [s' [Hr [Hp [Hm Hk]]]]].
      exists v, s'. simpl. auto.
    + destruct (IHb _ _ _ H) as [v [s' [Hr [Hp [Hm Hk]]]]].
      exists v, s'. simpl. auto.
  - destruct (m ci a k s) as [r|] eqn:E.
    + injection H as <-. destruct (IHa _ _ _ E) as [v [s' [Hr [Hp [Hm Hk]]]]].
      exists v, s'. simpl. auto.
    + exists [], s. simpl. repeat split; auto.
  - destruct (IHa _ _ _ H) as [v [s1 [Hr [Hp [Hm Hk]]]]].
    exists v, (MState (before s1) (rest s1) (pos s1)
                 ((i, firstn (pos s1 - pos s) (rest s)) :: caps s1)).
    simpl. repeat split; try assumption.
    exists (caps s1). split; [assumption|].
    do 2 f_equal. rewrite Hr, Hp.
    replace (pos s + List.length v - pos s) with (List.length v + 0) by lia.
    rewrite firstn_app_2. simpl. apply app_nil_r.
  - destruct (xorb _ _); [|discriminate].
    exists [], s. simpl. repeat split; auto.
  - destruct (pos s =? 0); [|discriminate].
    exists [], s. simpl. repeat split; auto.
Qed.

Lemma match_here_sound (ci : bool) (r : re) (bef : option char)
  (l : jsstring) (n len : nat) (x : rmatch) :
  match_here ci r bef l n = Some (len, x) ->
  exists t, l = whole x ++ t /\ len = List.length (whole x)
            /\ matched ci r [] (whole x) (groups x).
Proof.
  unfold match_here. intros H.
  destruct (m ci r Some (MState bef l n [])) as [s'|] eqn:E; [|discriminate].
  injection H as <- <-.
  destruct (m_sound _ _ _ _ E) as [v [s'' [Hr [Hp [Hm Hk]]]]].
  injection Hk as ->. simpl in Hr, Hp, Hm. simpl.
  assert (Hw : firstn (pos s' - n) l = v).
  { rewrite Hr, Hp. replace (n + List.length v - n) with (List.length v + 0) by lia.
    rewrite firstn_app_2. simpl. apply app_nil_r. }
  rewrite Hw. exists (rest s'). repeat split; [assumption | lia | assumption].
Qed.

(** Every match reported for an expression with the [g] flag is a piece of
    the text that the expression matches. *)
Lemma scan_sound (ci : bool) (r : re) (x : rmatch) (l : jsstring) :
  forall bef n skip,
    In x (scan ci r bef l n skip) ->
    (exists a b, l = a ++ whole x ++ b)
    /\ matched ci r [] (whole x) (groups x).
Proof.
  induction l as [|c t IH]; intros bef n skip H.
  - destruct skip; simpl in H; [|contradiction].
    destruct (match_here ci r bef [] n) as [[len y]|] eqn:E; [|contradiction].
    destruct H as [<-|[]].
    destruct (match_here_sound _ _ _ _ _ E) as [t' [Hl [_ Hm]]].
    split; [exists [], t'; assumption | assumption].
  - assert (Hrec : forall bef' n' skip',
              In x (scan ci r bef' t n' skip') ->
              (exists a b, c :: t = a ++ whole x ++ b)
              /\ matched ci r [] (whole x) (groups x)).
    { intros bef' n' skip' Hin.
      destruct (IH _ _ _ Hin) as [[a [b Hab]] Hm].
      split; [exists (c :: a), b; rewrite Hab; reflexivity | assumption]. }
    destruct skip; simpl in H; [|eapply Hrec; eassumption].
    destruct (match_here ci r bef (c :: t) n) as [[len y]|] eqn:E.
    + destruct H as [<-|H]; [|eapply Hrec; eassumption].
      destruct (match_here_sound _ _ _ _ _ E) as [t' [Hl [_ Hm]]].
      split; [exists [], t'; assumption | assumption].
    + eapply Hrec; eassumption.
Qed.

Lemma exec_all_sound (ci : bool) (r : re) (s : jsstring) (x : rmatch) :
  In x (exec_all ci r s) ->
  (exists a b, s = a ++ whole x ++ b) /\ matched ci r [] (whole x) (groups x).
Proof. apply scan_sound. Qed.

Lemma search_sound (ci : bool) (r : re) (x : rmatch) (l : jsstring) :
  forall bef n,
    search ci r bef l n = Some x ->
    (exists a b, l = a ++ whole x ++ b) /\ matched ci r [] (whole x) (groups x).
Proof.
  induction l as [|c t IH]; intros bef n H; simpl in H.
  - destruct (match_here ci r bef [] n) as [[len y]|] eqn:E; [|discriminate].
    injection H as <-.
    destruct (match_here_sound _ _ _ _ _ E) as [t' [Hl [_ Hm]]].
    split; [exists [], t'; assumption | assumption].
  - destruct (match_here ci r bef (c :: t) n) as [[len y]|] eqn:E.
    + injection H as <-.
      destruct (match_here_sound _ _ _ _ _ E) as [t' [Hl [_ Hm]]].
      split; [exists [], t'; assumption | assumption].
    + destruct (IH _ _ H) as [[a [b Hab]] Hm].
      split; [exists (c :: a), b; rewrite Hab; reflexivity | assumption].
Qed.

Lemma infix_here (u b : jsstring) : infix u (u ++ b).
Proof. exists [], b. reflexivity. Qed.

Lemma infix_app_r (u a w : jsstring) : infix u w -> infix u (a ++ w).
Proof.
  intros [x [y ->]]. exists (a ++ x), y. rewrite <- app_assoc. reflexivity.
Qed.

Lemma infix_trans (u v w : jsstring) : infix u v -> infix v w -> infix u w.
Proof.
  intros [a [b ->]] [c [d ->]]. exists (c ++ a), (b ++ d).
  rewrite <- !app_assoc. reflexivity.
Qed.

Lemma includes_eq (s p : jsstring) :
  includes s p
  = startsWith s p || match s with [] => false | _ :: s' => includes s' p end.
Proof. destruct s; reflexivity. Qed.

Lemma infix_includes (u v : jsstring) : infix u v -> includes v u = true.
Proof.
  intros [a [b ->]]. induction a as [|c a IH]; simpl.
  - rewrite includes_eq.
    replace (startsWith (u ++ b) u) with true; [reflexivity|].
    symmetry. apply startsWith_app. exists b. reflexivity.
  - rewrite IH. apply orb_true_r.
Qed.

Ltac break_matched :=
  repeat match goal with
         | H : exists _, _ |- _ => destruct H
         | H : _ /\ _ |- _ => destruct H
         end; subst.

Ltac find_infix := first [ apply infix_here | apply infix_app_r; find_infix ].

Lemma not_quote (c : char) : is_not [34; 39]%N c = true -> is_quote c = false.
Proof.
  unfold is_not, is_quote. simpl. rewrite orb_false_r.
  intros H. apply negb_true_iff in H. exact H.
Qed.

Lemma Forall_not_quote (u : jsstring) :
  Forall (fun c => is_not [34; 39]%N c = true) u ->
  Forall (fun c => is_quote c = false) u.
Proof. apply Forall_impl. exact not_quote. Qed.

(** ** Facts of [get_routing_structure] *)

(** What each of the four route expressions captures: a text without
    quotes, not empty, taken from the match. *)
Lemma route_capture (pattern : re) (v : jsstring) (cs : list (nat * jsstring)) :
  In pattern routePatterns ->
  matched false pattern [] v cs ->
  exists u, group 1 cs = Some u /\ u <> [] /\ infix u v
            /\ Forall (fun c => is_quote c = false) u.
Proof.
  intros Hin H.
  destruct Hin as [<-|[<-|[<-|[<-|[]]]]]; simpl in H; break_matched;
    (eexists; split; [reflexivity|]; split; [assumption|];
     split; [find_infix | apply Forall_not_quote; assumption]).
Qed.

Lemma fold_app_flat_map {A B} (g : A -> list B) (l : list A) (acc : list B) :
  fold_left (fun a x => a ++ g x) l acc = acc ++ flat_map g l.
Proof.
  revert acc. induction l as [|x l IH]; intros acc; simpl.
  - symmetry. apply app_nil_r.
  - rewrite IH, <- app_assoc. reflexivity.
Qed.

Lemma getRoutingStructure_report (rt : Runtime) (r : Routing.report) :
  getRoutingStructure rt = Report r ->
  r = {| Routing.routingFiles := routing_files rt;
         Routing.routes := slice0 20 (all_routes rt);
         Routing.totalRoutes := List.length (all_routes rt);
         Routing.hasReactRouter :=
           existsb (fun x => includes (Routing.path x) (js "/")) (all_routes rt) |}.
Proof.
  unfold getRoutingStructure, fg.
  destruct (walk_error rt routing_patterns ignore_build); cbn [bind try_catch];
    [discriminate|].
  rewrite for_of_read. fold (routing_files rt).
  destruct (first_unreadable rt (routing_files rt)); cbn [bind try_catch].
  - discriminate.
  - intros H. injection H as <-.
    rewrite (fold_app_flat_map
               (fun file => routes_of_file file (content_of rt file))).
    reflexivity.
Qed.

(** X1: [get_routing_structure] returns an error object in two cases:
    its enumeration fails, or one of the routing files, all of which it
    reads without a limit, cannot be read.  The error is the one of the
    walk, or else the one of the first read that fails; the tool returns a
    report exactly when the walk succeeds and every routing file is
    readable. *)
Theorem routing_read_failure (rt : Runtime) :
  error_of (getRoutingStructure rt)
  = match walk_error rt routing_patterns ignore_build with
    | Some msg => Some msg
    | None => first_unreadable rt (routing_files rt)
    end.
Proof.
  unfold getRoutingStructure, fg.
  destruct (walk_error rt routing_patterns ignore_build); [reflexivity|].
  cbn [bind]. rewrite for_of_read. fold (routing_files rt).
  destruct (first_unreadable rt (routing_files rt)); reflexivity.
Qed.

(** X2: the report of [get_routing_structure] lists the first twenty
    routes, [totalRoutes] counts all of them, and [hasReactRouter] looks at
    all of them: it is set as soon as one route, listed or cut off, has a
    slash in its path. *)
Theorem routing_report_limits (rt : Runtime) (r : Routing.report)
  (Hreport : getRoutingStructure rt = Report r) :
  Routing.routes r = firstn 20 (all_routes rt)
  /\ Routing.totalRoutes r = List.length (all_routes rt)
  /\ List.length (Routing.routes r) = Nat.min 20 (Routing.totalRoutes r)
  /\ (Routing.hasReactRouter r = true <->
      exists x, In x (all_routes rt) /\ includes (Routing.path x) (js "/") = true)
  /\ (forall x, In x (Routing.routes r) ->
                includes (Routing.path x) (js "/") = true ->
                Routing.hasReactRouter r = true).
Proof.
  rewrite (@getRoutingStructure_report rt r Hreport).
  cbn [Routing.routes Routing.totalRoutes Routing.hasReactRouter]. unfold slice0.
  split; [reflexivity|]. split; [reflexivity|].
  split; [apply length_firstn|].
  split; [apply existsb_exists|].
  intros x Hx Hs. apply existsb_exists. exists x.
  split; [apply (in_firstn 20); assumption | assumption].
Qed.

(** X3: every route of the report comes from one of the routing files and
    carries what was computed for that file as a whole: the component name of
    the file and the flag [isProtected], which is the test of the whole text
    of the file.  Its path is not empty, holds no quote, and occurs in the
    text of the file. *)
Theorem route_facts_well_formed (rt : Runtime) (r : Routing.report)
  (x : Routing.route)
  (Hreport : getRoutingStructure rt = Report r)
  (Hin : In x (Routing.routes r)) :
  In (Routing.file x) (routing_files rt)
  /\ Routing.component x = componentName (Routing.file x)
  /\ Routing.isProtected x
     = test true (any_of ["protected"; "private"; "auth"]%string)
         (content_of rt (Routing.file x))
  /\ Routing.path x <> []
  /\ Forall (fun c => is_quote c = false) (Routing.path x)
  /\ includes (content_of rt (Routing.file x)) (Routing.path x) = true.
Proof.
  rewrite (@getRoutingStructure_report rt r Hreport) in Hin.
  cbn [Routing.routes] in Hin. apply in_firstn in Hin.
  unfold all_routes in Hin. apply in_flat_map in Hin.
  destruct Hin as [file [Hfile Hx]].
  unfold routes_of_file in Hx. apply in_flat_map in Hx.
  destruct Hx as [pattern [Hpat Hx]]. apply in_map_iff in Hx.
  destruct Hx as [y [<- Hy]]. cbn [Routing.file Routing.component
                                    Routing.isProtected Routing.path].
  apply exec_all_sound in Hy. destruct Hy as [Hsub Hm].
  destruct (@route_capture pattern _ _ Hpat Hm) as [u [Hg [Hne [Hinf Hq]]]].
  unfold capture. rewrite Hg.
  repeat split; try assumption; try reflexivity.
  apply infix_includes. apply infix_trans with (v := whole y); assumption.
Qed.

(** ** Facts of [analyze_api_calls] *)

Lemma literal_eq (l v : jsstring) :
  Forall2 (fun x c => chr_eqb false x c = true) l v -> v = l.
Proof.
  induction 1 as [|x c l v Hc _ IH]; [reflexivity|].
  simpl in Hc. apply N.eqb_eq in Hc. subst. reflexivity.
Qed.

Lemma fetch_capture (v : jsstring) (cs : list (nat * jsstring)) :
  matched false fetch_re [] v cs ->
  exists u, group 1 cs = Some u /\ literal u.
Proof.
  intros H. simpl in H. break_matched.
  eexists. split; [reflexivity|].
  split; [assumption | apply Forall_not_quote; assumption].
Qed.

Lemma axios_capture (v : jsstring) (cs : list (nat * jsstring)) :
  matched false axios_re [] v cs ->
  exists mth u, group 1 cs = Some mth /\ group 2 cs = Some u
                /\ In (toUpperCase mth) http_methods /\ literal u.
Proof.
  intros H. simpl in H. break_matched.
  match goal with
  | H : _ \/ _ |- _ =>
      destruct H as [H|[H|[H|[H|H]]]]; destruct H as [-> H];
        apply literal_eq in H; subst
  end;
    (eexists; eexists; split; [reflexivity|]; split; [reflexivity|];
     split; [simpl; tauto|];
     split; [assumption | apply Forall_not_quote; assumption]).
Qed.

Lemma supabase_capture (v : jsstring) (cs : list (nat * jsstring)) :
  matched false supabase_re [] v cs ->
  exists u, group 1 cs = Some u /\ literal u.
Proof.
  intros H. simpl in H. break_matched.
  eexists. split; [reflexivity|].
  split; [assumption | apply Forall_not_quote; assumption].
Qed.

Lemma endpoints_capture (v : jsstring) (cs : list (nat * jsstring)) :
  matched false endpoints_re [] v cs ->
  exists u, group 1 cs = Some u /\ literal u.
Proof.
  intros H. simpl in H. break_matched.
  eexists. split; [reflexivity|].
  split; [assumption | apply Forall_not_quote; assumption].
Qed.

Lemma calls_of_file_shape (file content : jsstring) (c : Api.call) :
  In c (calls_of_file file content) -> call_shape c /\ Api.file c = file.
Proof.
  unfold calls_of_file. rewrite !in_app_iff, !in_map_iff.
  intros [[x [<- Hx]]|[[x [<- Hx]]|[[x [<- Hx]]|[x [<- Hx]]]]];
    apply exec_all_sound in Hx; destruct Hx as [_ Hm];
    (split; [|reflexivity]); unfold call_shape, capture; simpl.
  - destruct (fetch_capture Hm) as [u [-> Hu]].
    left. repeat split; try reflexivity. exists u. auto.
  - destruct (axios_capture Hm) as [mth [u [-> [-> [Hm' Hu]]]]].
    right; left. repeat split; try reflexivity.
    + exists (toUpperCase mth). auto.
    + exists u. auto.
  - destruct (supabase_capture Hm) as [u [-> Hu]].
    right; right; left. repeat split; try reflexivity. exists u. auto.
  - destruct (endpoints_capture Hm) as [u [-> Hu]].
    right; right; right. repeat split; try reflexivity. exists u. auto.
Qed.

Lemma fold_left_add (l : list nat) (a : nat) :
  fold_left Nat.add l a = a + list_sum l.
Proof.
  revert a. induction l as [|x l IH]; intros a; simpl.
  - lia.
  - rewrite IH. lia.
Qed.

Lemma sum_of_list_sum (l : list nat) : sum_of l = list_sum l.
Proof. unfold sum_of. rewrite fold_left_add. reflexivity. Qed.

Lemma set_sum (mp : JsMap.t nat) (k : jsstring) (v : nat) :
  list_sum (map snd (JsMap.set mp k v))
  + match assoc k mp with Some c => c | None => 0 end
  = list_sum (map snd mp) + v.
Proof.
  induction mp as [|[k0 v0] mp IH]; simpl.
  - lia.
  - destruct (str_eqb k k0); simpl; lia.
Qed.

(** Adding to a counter adds as much to the sum of the counters. *)
Lemma bump_sum (mp : JsMap.t nat) (k : jsstring) (n : nat) :
  list_sum (JsMap.values (bump mp k n)) = list_sum (JsMap.values mp) + n.
Proof.
  unfold bump, JsMap.values, JsMap.get.
  pose proof (set_sum mp k
                (match assoc k mp with Some c => c | None => 0 end + n)).
  lia.
Qed.

Lemma tally_sum (mp : JsMap.t nat) (facts : list fact) :
  list_sum (JsMap.values (tally mp facts))
  = list_sum (JsMap.values mp) + list_sum (map snd facts).
Proof.
  unfold tally. revert mp. induction facts as [|f facts IH]; intros mp; simpl.
  - lia.
  - rewrite IH, bump_sum. lia.
Qed.

Lemma list_sum_ones {A} (l : list A) :
  list_sum (map (fun _ => 1) l) = List.length l.
Proof. induction l as [|x l IH]; simpl; [reflexivity | rewrite IH; lia]. Qed.

Lemma api_types_tally (rt : Runtime) (calls : list Api.call) (c0 : Api.counters) :
  Api.c_types (fold_left (count_call rt) calls c0)
  = tally (Api.c_types c0) (map (fun c => (Api.type c, 1)) calls).
Proof.
  revert c0. induction calls as [|c calls IH]; intros c0; simpl.
  - reflexivity.
  - rewrite IH. reflexivity.
Qed.

Lemma api_methods_tally (rt : Runtime) (calls : list Api.call) (c0 : Api.counters) :
  Api.c_methods (fold_left (count_call rt) calls c0)
  = tally (Api.c_methods c0)
      (flat_map (fun c => match present (Api.method c) with
                          | Some mth => [(mth, 1)]
                          | None => []
                          end) calls).
Proof.
  revert c0. induction calls as [|c calls IH]; intros c0; simpl.
  - reflexivity.
  - rewrite IH, tally_app. cbn [count_call Api.c_methods].
    destruct (present (Api.method c)); reflexivity.
Qed.

Lemma analyzeApiCalls_report (rt : Runtime) (r : Api.report) :
  analyzeApiCalls rt = Report r ->
  r = let c := api_counters rt in
      {| Api.totalApiCalls := List.length (all_calls rt);
         Api.apiTypes := Api.c_types c;
         Api.methods := Api.c_methods c;
         Api.domains := JsObject.entries (Api.c_domains c);
         Api.calls := slice0 20 (all_calls rt);
         Api.hasSupabase := has_key (Api.c_types c) "supabase";
         Api.hasAxios := has_key (Api.c_types c) "axios";
         Api.hasFetch := has_key (Api.c_types c) "fetch" |}.
Proof.
  unfold analyzeApiCalls, fg.
  destruct (walk_error rt source_patterns ignore_build); cbn [bind try_catch];
    [discriminate|].
  rewrite for_of_read. fold (source_files rt).
  destruct (first_unreadable rt (slice0 50 (source_files rt))); cbn [bind try_catch].
  - discriminate.
  - intros H. injection H as <-. unfold api_counters, all_calls.
    rewrite (fold_app_flat_map
               (fun file => calls_of_file file (content_of rt file))).
    reflexivity.
Qed.

Lemma all_calls_shape (rt : Runtime) (c : Api.call) :
  In c (all_calls rt) ->
  call_shape c /\ In (Api.file c) (slice0 50 (source_files rt)).
Proof.
  unfold all_calls. rewrite in_flat_map. intros [file [Hfile Hc]].
  destruct (calls_of_file_shape _ _ _ Hc) as [Hs ->]. auto.
Qed.

(** X4: every call listed by [analyze_api_calls] has one of four shapes: a
    [fetch] with method GET and a URL, an [axios] call with one of the five
    methods in upper case and a URL, a [supabase] query with a table, or an
    [api_endpoint] with an endpoint; the literal is never empty and has no
    quote, and the file is one of the first fifty source files. *)
Theorem api_calls_well_formed (rt : Runtime) (r : Api.report) (c : Api.call)
  (Hreport : analyzeApiCalls rt = Report r)
  (Hin : In c (Api.calls r)) :
  call_shape c /\ In (Api.file c) (slice0 50 (source_files rt)).
Proof.
  rewrite (@analyzeApiCalls_report rt r Hreport) in Hin.
  cbn [Api.calls] in Hin. apply in_firstn in Hin.
  apply all_calls_shape. assumption.
Qed.

Lemma has_key_tally (facts : list fact) (k : string) :
  has_key (tally [] facts) k = true <-> In (js k) (map fst facts).
Proof.
  unfold has_key. rewrite existsb_str_eqb.
  destruct (tally_invariant facts) as [_ [Hkeys _]]. apply Hkeys.
Qed.

Lemma has_type (rt : Runtime) (k : string) :
  has_key (Api.c_types (api_counters rt)) k = true
  <-> exists c, In c (all_calls rt) /\ Api.type c = js k.
Proof.
  unfold api_counters. rewrite api_types_tally. cbn [Api.c_types].
  rewrite has_key_tally, map_map. cbn [fst]. rewrite in_map_iff.
  split; intros [c [H1 H2]]; exists c; auto.
Qed.

Lemma methods_facts_sum (calls : list Api.call) :
  Forall call_shape calls ->
  list_sum (map snd
    (flat_map (fun c => match present (Api.method c) with
                        | Some mth => [(mth, 1)]
                        | None => []
                        end) calls))
  = count_if has_method calls
  /\ forall k, In k (map fst
       (flat_map (fun c => match present (Api.method c) with
                           | Some mth => [(mth, 1)]
                           | None => []
                           end) calls)) -> In k http_methods.
Proof.
  induction 1 as [|c calls Hc _ [IH1 IH2]]; simpl.
  - split; [reflexivity | intros k []].
  - assert (Hp : present (Api.method c) = Api.method c
                 /\ forall mth, Api.method c = Some mth -> In mth http_methods).
    { destruct Hc as [[_ [-> _]]|[[_ [[mth [-> Hm]] _]]|[[_ [-> _]]|[_ [-> _]]]]].
      - split; [reflexivity|]. intros mth H. injection H as <-. simpl. tauto.
      - split.
        + destruct Hm as [<-|[<-|[<-|[<-|[<-|[]]]]]]; reflexivity.
        + intros m' H. injection H as <-. assumption.
      - split; [reflexivity | discriminate].
      - split; [reflexivity | discriminate]. }
    destruct Hp as [Hp Hm]. rewrite Hp. unfold count_if, has_method in *. simpl.
    destruct (Api.method c) as [mth|]; simpl.
    + split; [rewrite IH1; reflexivity|].
      intros k [<-|Hk]; [apply Hm; reflexivity | apply IH2; assumption].
    + split; assumption.
Qed.

(** X5: in the report of [analyze_api_calls], [totalApiCalls] counts every
    call found while [calls] lists the first twenty; the counts by type add
    up to [totalApiCalls]; the counts by method add up to the number of calls
    that have a method, and only GET, POST, PUT, DELETE and PATCH are
    counted; [hasFetch], [hasAxios] and [hasSupabase] tell whether a call of
    that type was found anywhere, listed or not. *)
Theorem api_report_counts (rt : Runtime) (r : Api.report)
  (Hreport : analyzeApiCalls rt = Report r) :
  Api.calls r = firstn 20 (all_calls rt)
  /\ Api.totalApiCalls r = List.length (all_calls rt)
  /\ sum_of (JsMap.values (Api.apiTypes r)) = Api.totalApiCalls r
  /\ sum_of (JsMap.values (Api.methods r)) = count_if has_method (all_calls rt)
  /\ sum_of (JsMap.values (Api.methods r)) <= Api.totalApiCalls r
  /\ (forall k, In k (map fst (Api.methods r)) -> In k http_methods)
  /\ (Api.hasFetch r = true <->
      exists c, In c (all_calls rt) /\ Api.type c = js "fetch")
  /\ (Api.hasAxios r = true <->
      exists c, In c (all_calls rt) /\ Api.type c = js "axios")
  /\ (Api.hasSupabase r = true <->
      exists c, In c (all_calls rt) /\ Api.type c = js "supabase").
Proof.
  rewrite (@analyzeApiCalls_report rt r Hreport).
  cbv zeta.
  cbn [Api.calls Api.totalApiCalls Api.apiTypes Api.methods Api.hasFetch
       Api.hasAxios Api.hasSupabase].
  assert (Hshape : Forall call_shape (all_calls rt)).
  { apply Forall_forall. intros c Hc. apply (all_calls_shape rt c Hc). }
  destruct (methods_facts_sum Hshape) as [Hsum Hkeys].
  assert (Hm : sum_of (JsMap.values (Api.c_methods (api_counters rt)))
               = count_if has_method (all_calls rt)).
  { rewrite sum_of_list_sum. unfold api_counters.
    rewrite api_methods_tally, tally_sum. cbn [Api.c_methods]. exact Hsum. }
  split; [reflexivity|]. split; [reflexivity|].
  split.
  { rewrite sum_of_list_sum. unfold api_counters.
    rewrite api_types_tally, tally_sum. cbn [Api.c_types].
    rewrite map_map. cbn [snd]. rewrite list_sum_ones. reflexivity. }
  split; [exact Hm|].
  split.
  { rewrite Hm. unfold count_if. apply filter_length_le. }
  split.
  { intros k Hk. apply Hkeys. unfold api_counters in Hk.
    rewrite api_methods_tally in Hk. cbn [Api.c_methods] in Hk.
    destruct (tally_invariant
                (flat_map (fun c => match present (Api.method c) with
                                    | Some mth => [(mth, 1)]
                                    | None => []
                                    end) (all_calls rt))) as [_ [Hk' _]].
    apply Hk'. assumption. }
  split; [apply has_type|]. split; apply has_type.
Qed.

(** ** [Set] and sums *)

Lemma Set_of_acc (l acc : list jsstring) :
  let res := fold_left
               (fun acc x => if existsb (str_eqb x) acc then acc else acc ++ [x])
               l acc in
  (NoDup acc -> NoDup res)
  /\ (forall x, In x res <-> In x acc \/ In x l)
  /\ List.length res <= List.length acc + List.length l
  /\ (acc <> [] \/ l <> [] -> res <> []).
Proof.
  revert acc. induction l as [|y l IH]; intros acc; simpl.
  - repeat split; try tauto; try lia.
  - destruct (existsb (str_eqb y) acc) eqn:E.
    + apply existsb_str_eqb in E.
      destruct (IH acc) as [H1 [H2 [H3 H4]]]. repeat split.
      * assumption.
      * rewrite H2. tauto.
      * rewrite H2. intros [H|[<-|H]]; tauto.
      * lia.
      * intros _. apply H4. left. intros ->. contradiction.
    + assert (Hn : ~ In y acc).
      { intros H. apply existsb_str_eqb in H. congruence. }
      destruct (IH (acc ++ [y])) as [H1 [H2 [H3 H4]]]. repeat split.
      * intros Hnd. apply H1. rewrite <- rev_involutive. apply NoDup_rev.
        rewrite rev_app_distr. simpl. constructor.
        -- rewrite <- in_rev. assumption.
        -- apply NoDup_rev. assumption.
      * rewrite H2, in_app_iff. simpl. tauto.
      * rewrite H2, in_app_iff. simpl. tauto.
      * rewrite length_app in H3. simpl in H3. lia.
      * intros _. apply H4. left. destruct acc; discriminate.
Qed.

Lemma Set_of_NoDup (l : list jsstring) : NoDup (Set_of l).
Proof. apply (Set_of_acc l []). constructor. Qed.

Lemma Set_of_In (l : list jsstring) (x : jsstring) : In x (Set_of l) <-> In x l.
Proof.
  destruct (Set_of_acc l []) as [_ [H _]]. unfold Set_of. rewrite H.
  simpl. tauto.
Qed.

Lemma Set_of_length (l : list jsstring) : List.length (Set_of l) <= List.length l.
Proof. destruct (Set_of_acc l []) as [_ [_ [H _]]]. exact H. Qed.

Lemma Set_of_nonempty (l : list jsstring) : l <> [] -> Set_of l <> [].
Proof.
  intros H. destruct (Set_of_acc l []) as [_ [_ [_ H']]]. apply H'. auto.
Qed.

Lemma list_sum_perm (l l' : list nat) :
  Permutation l l' -> list_sum l = list_sum l'.
Proof. induction 1; simpl; lia. Qed.

Lemma list_sum_firstn (n : nat) (l : list nat) :
  list_sum (firstn n l) <= list_sum l.
Proof.
  revert l. induction n as [|n IH]; intros [|x l]; simpl; try lia.
  specialize (IH l). lia.
Qed.

(** The counts of the ranking add up to what the facts add. *)
Lemma ranking_sum (facts : list fact) :
  list_sum (map snd (ranking facts)) = list_sum (map snd facts).
Proof.
  unfold ranking, JsMap.entries.
  rewrite (list_sum_perm
             (Permutation_map snd (Array_sort_perm by_count_desc (tally [] facts)))).
  change (map snd (tally [] facts)) with (JsMap.values (tally [] facts)).
  rewrite tally_sum. reflexivity.
Qed.

Lemma total_positive (k : jsstring) (facts : list fact) :
  Forall (fun f => 1 <= snd f) facts -> In k (map fst facts) ->
  1 <= total k facts.
Proof.
  induction 1 as [|f facts Hf _ IH]; simpl; [tauto|].
  intros [Hk|Hk].
  - subst k. rewrite str_eqb_refl. lia.
  - specialize (IH Hk). lia.
Qed.

(** An entry of the ranking of facts that each add at least one has a
    count of at least one, and its key is the key of a fact. *)
Lemma ranking_entry (facts : list fact) (k : jsstring) (c : nat) :
  Forall (fun f => 1 <= snd f) facts ->
  In (k, c) (ranking facts) -> 1 <= c /\ In k (map fst facts).
Proof.
  intros Hpos Hin.
  destruct (ranking_is_ranking facts) as [_ [H _]].
  apply H in Hin. destruct Hin as [Hk ->].
  split; [apply total_positive; assumption | assumption].
Qed.

(** ** Facts of [get_hooks_usage] *)

Lemma custom_hook_capture (v : jsstring) (cs : list (nat * jsstring)) :
  matched false
    (cat [WordBoundary; lit "use"; Class is_upper; Star is_alnum; WordBoundary])
    [] v cs ->
  custom_hook_shape v.
Proof.
  intros H. simpl in H. break_matched.
  match goal with
  | H : Forall2 _ _ _ |- _ => apply literal_eq in H; subst
  end.
  eexists; eexists. split; [|split; eassumption].
  simpl. rewrite app_nil_r. reflexivity.
Qed.

Lemma customHookMatches_shape (content h : jsstring) :
  In h (customHookMatches content) -> custom_hook_shape h.
Proof.
  unfold customHookMatches. rewrite in_map_iff. intros [x [<- Hx]].
  apply exec_all_sound in Hx. destruct Hx as [_ Hm].
  apply (custom_hook_capture Hm).
Qed.

Lemma hook_facts_spec (content : jsstring) :
  Forall (fun f => 1 <= snd f) (hook_facts content)
  /\ forall k, In k (map fst (hook_facts content)) ->
               isBuiltIn k = true
               \/ (isBuiltIn k = false /\ In k (customHookMatches content)).
Proof.
  unfold hook_facts. split.
  - apply Forall_app. split.
    + apply Forall_forall. intros f Hf. apply in_flat_map in Hf.
      destruct Hf as [hook [_ Hf]].
      destruct (hookMatches hook content) as [|x xs]; [contradiction|].
      destruct Hf as [<-|[]]. simpl. lia.
    + apply Forall_forall. intros f Hf. apply in_map_iff in Hf.
      destruct Hf as [h [<- _]]. simpl. lia.
  - intros k Hk. rewrite map_app, in_app_iff in Hk. destruct Hk as [Hk|Hk].
    + left. apply in_map_iff in Hk. destruct Hk as [f [<- Hf]].
      apply in_flat_map in Hf. destruct Hf as [hook [Hh Hf]].
      destruct (hookMatches hook content) as [|x xs]; [contradiction|].
      destruct Hf as [<-|[]]. cbn [fst].
      unfold isBuiltIn. apply existsb_str_eqb. assumption.
    + right. rewrite map_map in Hk. cbn [fst] in Hk. rewrite map_id in Hk.
      apply filter_In in Hk. destruct Hk as [Hk Hb].
      apply negb_true_iff in Hb. auto.
Qed.

Lemma hooks_custom (rt : Runtime) (files : list jsstring) (a0 : Hooks.acc) :
  map Hooks.hook
    (Hooks.custom
       (fold_left (fun a file => hooks_file a file (content_of rt file)) files a0))
  = map Hooks.hook (Hooks.custom a0)
    ++ flat_map (fun file =>
                   filter (fun h => negb (isBuiltIn h))
                     (customHookMatches (content_of rt file))) files.
Proof.
  revert a0. induction files as [|file files IH]; intros a0; simpl.
  - symmetry. apply app_nil_r.
  - rewrite IH. cbn [hooks_file Hooks.custom].
    rewrite map_app, map_map. cbn [Hooks.hook]. rewrite map_id, <- app_assoc.
    reflexivity.
Qed.

Lemma hooks_facts_spec (rt : Runtime) :
  Forall (fun f => 1 <= snd f) (hooks_facts rt)
  /\ forall k, In k (map fst (hooks_facts rt)) ->
               isBuiltIn k = true
               \/ (isBuiltIn k = false /\ In k (all_custom_hooks rt)).
Proof.
  unfold hooks_facts, all_custom_hooks. split.
  - apply Forall_forall. intros f Hf. apply in_flat_map in Hf.
    destruct Hf as [file [_ Hf]].
    destruct (hook_facts_spec (content_of rt file)) as [H _].
    rewrite Forall_forall in H. apply H. assumption.
  - intros k Hk. apply in_map_iff in Hk. destruct Hk as [f [<- Hf]].
    apply in_flat_map in Hf. destruct Hf as [file [Hfile Hf]].
    destruct (hook_facts_spec (content_of rt file)) as [_ H].
    destruct (H (fst f) (in_map fst _ _ Hf)) as [Hb|[Hb Hc]]; [left; assumption|].
    right. split; [assumption|]. apply in_flat_map. exists file.
    split; [assumption|]. apply filter_In. split; [assumption|].
    rewrite Hb. reflexivity.
Qed.

(** X6: in the report of [get_hooks_usage], [totalHooksUsage] is the sum of
    everything counted, for all hooks and not only for the twenty listed;
    every listed hook has a count of at least one, and is either one of the
    ten built-in names or a custom hook that [customHooksFound] lists too. *)
Theorem hooks_report_counts (rt : Runtime) (r : Hooks.report)
  (Hreport : getHooksUsage rt = Report r) :
  Hooks.totalHooksUsage r = list_sum (map snd (hooks_facts rt))
  /\ list_sum (map snd (Hooks.mostUsedHooks r)) <= Hooks.totalHooksUsage r
  /\ forall h c, In (h, c) (Hooks.mostUsedHooks r) ->
       1 <= c
       /\ (isBuiltIn h = true
           \/ (isBuiltIn h = false /\ In h (Hooks.customHooksFound r))).
Proof.
  pose proof (@mostUsedHooks_ranking rt r Hreport) as Hm.
  destruct (hooks_facts_spec rt) as [Hpos Hkeys].
  assert (Htot : Hooks.totalHooksUsage r = list_sum (map snd (hooks_facts rt))).
  { rewrite (@getHooksUsage_report rt r Hreport).
    unfold hooks_report. cbn [Hooks.totalHooksUsage].
    rewrite hooks_hookUsage, fold_left_add, tally_sum. reflexivity. }
  assert (Hcustom : Hooks.customHooksFound r = Set_of (all_custom_hooks rt)).
  { rewrite (@getHooksUsage_report rt r Hreport).
    unfold hooks_report. cbn [Hooks.customHooksFound].
    rewrite hooks_custom. reflexivity. }
  split; [assumption|]. split.
  - rewrite Htot, Hm, <- (ranking_sum (hooks_facts rt)), <- firstn_map.
    apply list_sum_firstn.
  - intros h c Hin. rewrite Hm in Hin. apply in_firstn in Hin.
    destruct (ranking_entry _ _ Hpos Hin) as [Hc Hk]. split; [assumption|].
    destruct (Hkeys h Hk) as [Hb|[Hb Hc']]; [left; assumption|].
    right. split; [assumption|]. rewrite Hcustom. apply Set_of_In. assumption.
Qed.

(** X7: [customHooksFound] lists each custom hook once; none of them is a
    built-in hook, and each is the word "use" followed by an upper-case
    letter and then letters and digits only. *)
Theorem custom_hooks_found (rt : Runtime) (r : Hooks.report)
  (Hreport : getHooksUsage rt = Report r) :
  NoDup (Hooks.customHooksFound r)
  /\ forall h, In h (Hooks.customHooksFound r) ->
               isBuiltIn h = false /\ custom_hook_shape h.
Proof.
  assert (Hcustom : Hooks.customHooksFound r = Set_of (all_custom_hooks rt)).
  { rewrite (@getHooksUsage_report rt r Hreport).
    unfold hooks_report. cbn [Hooks.customHooksFound].
    rewrite hooks_custom. reflexivity. }
  rewrite Hcustom. split; [apply Set_of_NoDup|].
  intros h Hh. apply (proj1 (Set_of_In _ _)) in Hh. unfold all_custom_hooks in Hh.
  apply in_flat_map in Hh. destruct Hh as [file [_ Hh]].
  apply filter_In in Hh. destruct Hh as [Hh Hb].
  split; [apply negb_true_iff; assumption|].
  apply (customHookMatches_shape _ _ Hh).
Qed.

(** ** Facts of [get_tailwind_usage] *)

Lemma star_some (p : char -> bool) (l : jsstring) :
  forall bef n cs, exists r, star p Some bef l n cs = Some r.
Proof.
  induction l as [|c t IH]; intros bef n cs; simpl.
  - eexists. reflexivity.
  - destruct (p c); [|eexists; reflexivity].
    destruct (IH (Some c) (S n) cs) as [r ->]. eexists. reflexivity.
Qed.

(** At a white-space code unit [\s+] matches, and what it matches is never
    empty. *)
Lemma ws1_at_space (bef : option char) (c : char) (t : jsstring) (q : nat) :
  is_space c = true -> match_here false ws1 bef (c :: t) q <> None.
Proof.
  intros Hc. unfold match_here, ws1. simpl. rewrite Hc.
  destruct (star_some is_space t (Some c) (S q) []) as [r ->]. discriminate.
Qed.

Lemma ws1_length (bef : option char) (l : jsstring) (q len : nat) (x : rmatch) :
  match_here false ws1 bef l q = Some (len, x) -> 1 <= len.
Proof.
  intros H. destruct (match_here_sound _ _ _ _ _ H) as [t [_ [-> Hm]]].
  simpl in Hm. destruct Hm as [_ [Hne _]].
  destruct (whole x); [congruence | simpl; lia].
Qed.

(** The pieces of [s.split(/\s+/)] are made of the code units of [s] that
    are not white space. *)
Lemma split_scan_pieces (Q : char -> Prop) (l : jsstring) :
  forall bef q skip p cur,
    p <= q + skip ->
    Forall Q l ->
    Forall (fun c => is_space c = false /\ Q c) cur ->
    Forall (Forall (fun c => is_space c = false /\ Q c))
      (split_scan false ws1 bef l q skip p cur).
Proof.
  induction l as [|c t IH]; intros bef q skip p cur Hp Hl Hcur; simpl.
  - constructor; [|constructor]. apply Forall_rev. assumption.
  - inversion Hl as [|? ? Hc Ht]; subst.
    destruct skip as [|skip].
    + destruct (match_here false ws1 bef (c :: t) q) as [[len x]|] eqn:E.
      * pose proof (ws1_length _ _ _ E) as Hlen.
        destruct (Nat.eqb_spec (q + len) p) as [Heq|_]; [lia|].
        destruct (Nat.eqb_spec len 0) as [Heq|_]; [lia|].
        constructor; [apply Forall_rev; assumption|].
        apply IH; [lia | assumption | constructor].
      * apply IH; [lia | assumption|].
        constructor; [|assumption]. split; [|assumption].
        destruct (is_space c) eqn:Es; [|reflexivity].
        exfalso. apply (@ws1_at_space bef c t q Es). assumption.
    + apply IH; [lia | assumption | assumption].
Qed.

Lemma split_ws_pieces (Q : char -> Prop) (s : jsstring) :
  Forall Q s ->
  Forall (Forall (fun c => is_space c = false /\ Q c)) (split_re false ws1 s).
Proof.
  intros H. unfold split_re. destruct s as [|c t].
  - destruct (match_here false ws1 None [] 0); repeat constructor.
  - apply split_scan_pieces; [lia | assumption | constructor].
Qed.

Lemma class_capture (pattern : re) (v : jsstring) (cs : list (nat * jsstring)) :
  In pattern classPatterns ->
  matched false pattern [] v cs ->
  exists u, group 1 cs = Some u /\ Forall (fun c => is_quote c = false) u.
Proof.
  intros Hin H.
  destruct Hin as [<-|[<-|[<-|[]]]]; simpl in H; break_matched;
    (eexists; split; [reflexivity | apply Forall_not_quote; assumption]).
Qed.

Lemma counted_nonempty (cls : jsstring) : counted cls = true -> cls <> [].
Proof.
  unfold counted. intros H Hnil. subst. discriminate.
Qed.

(** Every class token that is counted is a [class_token]. *)
Lemma counted_class_tokens (content cls : jsstring) :
  In cls (filter counted (classNames_of content)) -> class_token cls.
Proof.
  rewrite filter_In. intros [Hin Hc].
  split; [apply counted_nonempty; assumption|].
  unfold classNames_of in Hin. apply in_flat_map in Hin.
  destruct Hin as [x [Hx Hin]].
  unfold classMatches in Hx. apply in_flat_map in Hx.
  destruct Hx as [pattern [Hpat Hx]].
  apply exec_all_sound in Hx. destruct Hx as [_ Hm].
  destruct (@class_capture pattern _ _ Hpat Hm) as [u [Hg Hq]].
  unfold classes_of in Hin. rewrite Hg in Hin.
  pose proof (@split_ws_pieces _ u Hq) as Hp.
  rewrite Forall_forall in Hp. apply Hp. assumption.
Qed.

Lemma class_facts_spec (rt : Runtime) :
  Forall (fun f => 1 <= snd f) (class_facts rt)
  /\ forall k, In k (map fst (class_facts rt)) -> class_token k.
Proof.
  unfold class_facts. split.
  - apply Forall_forall. intros f Hf. apply in_flat_map in Hf.
    destruct Hf as [file [_ Hf]]. apply in_map_iff in Hf.
    destruct Hf as [cls [<- _]]. simpl. lia.
  - intros k Hk. apply in_map_iff in Hk. destruct Hk as [f [<- Hf]].
    apply in_flat_map in Hf. destruct Hf as [file [_ Hf]].
    apply in_map_iff in Hf. destruct Hf as [cls [<- Hcls]]. cbn [fst].
    apply (counted_class_tokens _ _ Hcls).
Qed.

Lemma NoDup_firstn {A} (n : nat) (l : list A) : NoDup l -> NoDup (firstn n l).
Proof.
  revert l. induction n as [|n IH]; intros [|x l] H; simpl; try constructor.
  - inversion H as [|? ? Hx Hl]; subst. intros Hin. apply Hx.
    apply (in_firstn n l). assumption.
  - inversion H; subst. apply IH. assumption.
Qed.

(** X8: [mostUsedClasses] lists [min(30, totalUniqueClasses)] classes, each
    once and with a count of at least one; a listed class is never empty and
    holds neither white space nor a quote; the listed counts add up to at most
    the number of class tokens counted. *)
Theorem most_used_classes_entries (rt : Runtime) (r : Tailwind.report)
  (Hreport : getTailwindUsage rt = Report r) :
  NoDup (map fst (Tailwind.mostUsedClasses r))
  /\ List.length (Tailwind.mostUsedClasses r)
     = Nat.min 30 (Tailwind.totalUniqueClasses r)
  /\ (forall cls c, In (cls, c) (Tailwind.mostUsedClasses r) ->
        1 <= c /\ class_token cls)
  /\ list_sum (map snd (Tailwind.mostUsedClasses r))
     <= List.length (class_facts rt).
Proof.
  pose proof (@mostUsedClasses_ranking rt r Hreport) as Hm.
  destruct (class_facts_spec rt) as [Hpos Hkeys].
  destruct (ranking_is_ranking (class_facts rt)) as [Hnd _].
  assert (Hsize : Tailwind.totalUniqueClasses r
                  = List.length (ranking (class_facts rt))).
  { rewrite (@getTailwindUsage_report rt r Hreport).
    unfold tailwind_report. cbn [Tailwind.totalUniqueClasses].
    rewrite tailwind_classUsage. unfold ranking, JsMap.size, JsMap.entries.
    rewrite Array_sort_length. reflexivity. }
  rewrite Hm, Hsize. repeat split.
  - rewrite <- firstn_map. apply NoDup_firstn. assumption.
  - apply length_firstn.
  - apply in_firstn in H. apply (ranking_entry _ _ Hpos H).
  - apply in_firstn in H. apply Hkeys. apply (ranking_entry _ _ Hpos H).
  - apply in_firstn in H. apply Hkeys. apply (ranking_entry _ _ Hpos H).
  - rewrite <- firstn_map.
    eapply Nat.le_trans; [apply list_sum_firstn|].
    rewrite ranking_sum. unfold class_facts.
    clear. induction (slice0 50 (source_files rt)) as [|file l IH]; simpl.
    + lia.
    + rewrite map_app, list_sum_app, length_app, map_map. cbn [snd].
      rewrite list_sum_ones, length_map. apply Nat.add_le_mono_l. exact IH.
Qed.

Lemma tailwind_usage (rt : Runtime) (all files : list jsstring)
  (a0 : Tailwind.acc) :
  incl files all ->
  Forall (file_usage_ok all) (Tailwind.usage a0) ->
  let a := fold_left (fun a file => tailwind_file a file (content_of rt file))
             files a0 in
  Forall (file_usage_ok all) (Tailwind.usage a)
  /\ List.length (Tailwind.usage a)
     <= List.length (Tailwind.usage a0) + List.length files.
Proof.
  revert a0. induction files as [|file files IH]; intros a0 Hincl H0; simpl.
  - split; [assumption | lia].
  - assert (Hincl' : incl files all)
      by (intros x Hx; apply Hincl; right; assumption).
    set (names := classNames_of (content_of rt file)).
    assert (H1 : Forall (file_usage_ok all)
                   (Tailwind.usage (tailwind_file a0 file (content_of rt file)))
                 /\ List.length
                      (Tailwind.usage (tailwind_file a0 file (content_of rt file)))
                    <= S (List.length (Tailwind.usage a0))).
    { cbn [tailwind_file Tailwind.usage]. fold names.
      destruct (Nat.ltb_spec 0 (List.length names)) as [Hlt|Hge];
        [|split; [assumption | lia]].
      split; [|rewrite length_app; simpl; lia].
      apply Forall_app. split; [assumption|]. constructor; [|constructor].
      assert (Hne : names <> []) by (intros E; rewrite E in Hlt; simpl in Hlt; lia).
      pose proof (Set_of_nonempty Hne) as Hs.
      unfold file_usage_ok. cbn [Tailwind.file Tailwind.uniqueClasses
                                  Tailwind.totalClasses Tailwind.topClasses].
      repeat split.
      - apply Hincl. left. reflexivity.
      - destruct (Set_of names); [congruence | simpl; lia].
      - apply Set_of_length.
      - unfold slice0. apply length_firstn.
      - unfold slice0. apply NoDup_firstn, Set_of_NoDup. }
    destruct H1 as [H1 H2].
    destruct (IH _ Hincl' H1) as [H3 H4]. split; [assumption | lia].
Qed.

Lemma split_scan_nonempty (ci : bool) (r : re) (l : jsstring) :
  forall bef q skip p cur, split_scan ci r bef l q skip p cur <> [].
Proof.
  induction l as [|c t IH]; intros bef q skip p cur; simpl; [discriminate|].
  destruct skip; [|apply IH].
  destruct (match_here ci r bef (c :: t) q) as [[len x]|]; [|apply IH].
  destruct (q + len =? p); [apply IH|].
  destruct (len =? 0); discriminate.
Qed.

(** [s.split(/\s+/)] always has a piece, be it the empty string. *)
Lemma split_ws_nonempty (s : jsstring) : split_re false ws1 s <> [].
Proof.
  destruct s as [|c t]; [vm_compute; discriminate|].
  unfold split_re. apply split_scan_nonempty.
Qed.

(** A file has class tokens exactly when it has a class attribute: every
    match contributes at least one token. *)
Lemma classNames_of_nonempty (content : jsstring) :
  Nat.ltb 0 (List.length (classNames_of content)) = has_class_attribute content.
Proof.
  unfold has_class_attribute, nonempty, classNames_of.
  destruct (classMatches content) as [|x l] eqn:E; [reflexivity|].
  assert (Hx : In x (classMatches content)) by (rewrite E; left; reflexivity).
  unfold classMatches in Hx. apply in_flat_map in Hx.
  destruct Hx as [pattern [Hpat Hx]].
  apply exec_all_sound in Hx. destruct Hx as [_ Hm].
  destruct (@class_capture pattern _ _ Hpat Hm) as [u [Hg _]].
  cbn [flat_map]. unfold classes_of at 1. rewrite Hg.
  pose proof (split_ws_nonempty u) as Hne.
  destruct (split_re false ws1 u); [congruence | reflexivity].
Qed.

(** The elements of [fileUsage], file after file. *)
Lemma tailwind_usage_fold (rt : Runtime) (files : list jsstring)
  (a0 : Tailwind.acc) :
  Tailwind.usage
    (fold_left (fun a file => tailwind_file a file (content_of rt file)) files a0)
  = Tailwind.usage a0
    ++ flat_map
         (fun file =>
            let names := classNames_of (content_of rt file) in
            if has_class_attribute (content_of rt file) then
              [{| Tailwind.file := file;
                  Tailwind.uniqueClasses := List.length (Set_of names);
                  Tailwind.totalClasses := List.length names;
                  Tailwind.topClasses := slice0 10 (Set_of names) |}]
            else [])
         files.
Proof.
  revert a0. induction files as [|file files IH]; intros a0; simpl.
  - symmetry. apply app_nil_r.
  - rewrite IH. cbn [tailwind_file Tailwind.usage].
    rewrite classNames_of_nonempty.
    destruct (has_class_attribute (content_of rt file)).
    + rewrite <- app_assoc. reflexivity.
    + reflexivity.
Qed.

Lemma flat_map_if_length {A B} (b : A -> bool) (g : A -> B) (l : list A) :
  List.length (flat_map (fun x => if b x then [g x] else []) l) = count_if b l.
Proof.
  unfold count_if. induction l as [|x l IH]; simpl; [reflexivity|].
  destruct (b x); simpl; rewrite IH; reflexivity.
Qed.

Lemma flat_map_if_map {A B C} (b : A -> bool) (g : A -> B) (h : B -> C)
  (l : list A) :
  map h (flat_map (fun x => if b x then [g x] else []) l)
  = map (fun x => h (g x)) (filter b l).
Proof.
  induction l as [|x l IH]; simpl; [reflexivity|].
  destruct (b x); simpl; rewrite IH; reflexivity.
Qed.

(** X9: in the Tailwind report [analyzedFiles] counts, among the first
    fifty source files, those with a class attribute, that is, those in
    which one of the three class expressions matches; [fileUsage] lists the
    first ten of them, in the order of the enumeration.  For each listed
    file, [totalClasses] counts the tokens of its attributes and
    [uniqueClasses] the distinct ones, blank tokens included (an attribute
    that holds only white space gives the empty string as a token), and
    [topClasses] holds the first ten distinct tokens.  So [uniqueClasses] is
    at least one and at most [totalClasses]. *)
Theorem tailwind_file_usage (rt : Runtime) (r : Tailwind.report)
  (Hreport : getTailwindUsage rt = Report r) :
  let read := slice0 50 (source_files rt) in
  let with_classes :=
    filter (fun file => has_class_attribute (content_of rt file)) read in
  Tailwind.totalFiles r = List.length (source_files rt)
  /\ Tailwind.analyzedFiles r = List.length with_classes
  /\ map Tailwind.file (Tailwind.files r) = firstn 10 with_classes
  /\ Forall (fun u =>
               let names := classNames_of (content_of rt (Tailwind.file u)) in
               Tailwind.totalClasses u = List.length names
               /\ Tailwind.uniqueClasses u = List.length (Set_of names)
               /\ Tailwind.topClasses u = firstn 10 (Set_of names))
       (Tailwind.files r)
  /\ Tailwind.analyzedFiles r <= Nat.min 50 (Tailwind.totalFiles r)
  /\ List.length (Tailwind.files r) = Nat.min 10 (Tailwind.analyzedFiles r)
  /\ Forall (file_usage_ok (slice0 50 (source_files rt))) (Tailwind.files r).
Proof.
  rewrite (@getTailwindUsage_report rt r Hreport).
  unfold tailwind_report.
  cbn [Tailwind.totalFiles Tailwind.analyzedFiles Tailwind.files].
  destruct (@tailwind_usage rt (slice0 50 (source_files rt))
              (slice0 50 (source_files rt))
              {| Tailwind.classUsage := []; Tailwind.usage := [] |}
              (fun x H => H) (Forall_nil _)) as [H1 H2].
  cbv zeta in H1, H2. cbn [Tailwind.usage List.length Nat.add] in H2.
  cbv zeta. revert H1 H2. rewrite tailwind_usage_fold.
  cbn [Tailwind.usage app]. intros H1 H2.
  unfold slice0 in *. rewrite length_firstn in H2.
  split; [reflexivity|]. split; [|split; [|split; [|split; [|split]]]].
  - rewrite (flat_map_if_length
               (fun file => has_class_attribute (content_of rt file))).
    reflexivity.
  - rewrite <- firstn_map.
    rewrite (flat_map_if_map
               (fun file => has_class_attribute (content_of rt file))).
    cbn [Tailwind.file]. rewrite map_id. reflexivity.
  - apply Forall_forall. intros u Hu. apply in_firstn in Hu.
    apply in_flat_map in Hu. destruct Hu as [file [_ Hu]].
    destruct (has_class_attribute (content_of rt file)); [|destruct Hu].
    destruct Hu as [<-|[]]. cbn [Tailwind.file Tailwind.totalClasses
                                 Tailwind.uniqueClasses Tailwind.topClasses].
    repeat split.
  - assumption.
  - apply length_firstn.
  - apply Forall_forall. intros u Hu. apply in_firstn in Hu.
    rewrite Forall_forall in H1. apply H1. assumption.
Qed.

(** ** [analyze_dependencies] and the manifest *)

(** X10: [analyze_dependencies] returns an error object in two cases only:
    when the manifest cannot be read or parsed ("No package.json found"), and
    when it parses to [null], where reading [dependencies] throws; any other
    parsed value, object or not, gives a report. *)
Theorem dependencies_error_cases (rt : Runtime) :
  error_of (analyzeDependencies rt)
  = match manifest rt with
    | Throw _ => Some (js "No package.json found")
    | Ok JNull =>
        Some (js "Cannot read properties of null (reading 'dependencies')")
    | Ok _ => None
    end.
Proof.
  unfold analyzeDependencies, manifest.
  destruct (packageContent <- readFile rt (js "package.json");;
            JSON_parse rt packageContent) as [packageInfo|msg]; [|reflexivity].
  destruct packageInfo; reflexivity.
Qed.

Lemma analyzeDependencies_report (rt : Runtime) (r : Dependencies.report) :
  analyzeDependencies rt = Report r ->
  exists packageInfo,
    manifest rt = Ok packageInfo /\ packageInfo <> JNull
    /\ let dependencies := or_empty_object (prop packageInfo "dependencies") in
       let devDependencies := or_empty_object (prop packageInfo "devDependencies") in
       r = {| Dependencies.totalDependencies :=
                List.length (Object_keys dependencies);
              Dependencies.totalDevDependencies :=
                List.length (Object_keys devDependencies);
              Dependencies.byCategory :=
                categorizeAll devDependencies
                  (categorizeAll dependencies Dependencies.empty);
              Dependencies.detected := {|
                Dependencies.hasReact := has dependencies "react";
                Dependencies.hasNext := has dependencies "next";
                Dependencies.hasVite :=
                  has dependencies "vite" || has devDependencies "vite";
                Dependencies.hasTailwind :=
                  has dependencies "tailwindcss" || has devDependencies "tailwindcss";
                Dependencies.hasSupabase :=
                  has dependencies "@supabase/supabase-js";
                Dependencies.hasTypeScript :=
                  has devDependencies "typescript" || has dependencies "typescript"
              |} |}.
Proof.
  unfold analyzeDependencies, manifest.
  destruct (packageContent <- readFile rt (js "package.json");;
            JSON_parse rt packageContent) as [packageInfo|msg]; [|discriminate].
  intros H. exists packageInfo. split; [reflexivity|].
  destruct packageInfo; try discriminate;
    (split; [discriminate|]); cbn in H; injection H as <-; reflexivity.
Qed.

Lemma push_categorized (cs : Dependencies.categories) (c : Dependencies.category)
  (p : Dependencies.pkg) :
  categorized (Dependencies.push cs c p) = S (categorized cs).
Proof.
  unfold categorized, all_categories, Dependencies.push.
  destruct c; simpl; rewrite length_app; simpl; lia.
Qed.

Lemma categorizeAll_spec (o : json) (cs : Dependencies.categories) :
  categorized (categorizeAll o cs)
  = categorized cs + List.length (Object_entries o)
  /\ ((forall c p, In p (cs c) ->
         first_match category_rules (Dependencies.name p) = c) ->
      forall c p, In p (categorizeAll o cs c) ->
        first_match category_rules (Dependencies.name p) = c).
Proof.
  unfold categorizeAll. revert cs.
  induction (Object_entries o) as [|[name version] l IH]; intros cs; simpl.
  - split; [lia | auto].
  - destruct (IH (categorizePackage name version cs)) as [H1 H2].
    rewrite categorizePackage_rules in *. split.
    + rewrite H1, push_categorized. lia.
    + intros Hcs. apply H2. intros c p.
      unfold Dependencies.push.
      destruct (Dependencies.category_eqb (first_match category_rules name) c) eqn:E.
      * apply category_eqb_eq in E. rewrite in_app_iff.
        intros [Hp|[<-|[]]]; [apply Hcs; assumption | exact E].
      * apply Hcs.
Qed.

(** X11: in the report of [analyze_dependencies] the ten category arrays
    hold, together, exactly [totalDependencies + totalDevDependencies]
    packages, and each package is in the array that the rule list gives to
    its name. *)
Theorem dependencies_all_categorized (rt : Runtime) (r : Dependencies.report)
  (Hreport : analyzeDependencies rt = Report r) :
  categorized (Dependencies.byCategory r)
  = Dependencies.totalDependencies r + Dependencies.totalDevDependencies r
  /\ forall c p, In p (Dependencies.byCategory r c) ->
       first_match category_rules (Dependencies.name p) = c.
Proof.
  destruct (analyzeDependencies_report rt Hreport) as [packageInfo [_ [_ Hr]]].
  cbv zeta in Hr. rewrite Hr.
  cbn [Dependencies.byCategory Dependencies.totalDependencies
       Dependencies.totalDevDependencies].
  set (deps := or_empty_object (prop packageInfo "dependencies")).
  set (dev := or_empty_object (prop packageInfo "devDependencies")).
  destruct (categorizeAll_spec deps Dependencies.empty) as [H1 H2].
  destruct (categorizeAll_spec dev (categorizeAll deps Dependencies.empty))
    as [H3 H4].
  split.
  - rewrite H3, H1. unfold Object_keys. rewrite !length_map.
    unfold categorized, Dependencies.empty. simpl. lia.
  - apply H4. apply H2. intros c p [].
Qed.

Lemma truthy_or_else (a b : value) :
  truthy (or_else a b) = truthy a || truthy b.
Proof. unfold or_else. destruct (truthy a) eqn:E; [exact E | reflexivity]. Qed.

Lemma has_or_empty (d : value) (k : string) :
  has (or_empty_object d) k = truthy (opt_prop d k).
Proof.
  unfold has, or_empty_object, or_else, opt_prop.
  destruct d as [[| b | x | s | items | fields]|]; try reflexivity.
  - destruct b; reflexivity.
  - cbn [truthy]. destruct (PrimFloat.eqb x x && negb (PrimFloat.eqb x 0));
      reflexivity.
  - cbn [truthy]. destruct (negb (List.length s =? 0)); reflexivity.
Qed.

(** [analyze_project] returns an error object exactly when its walk
    fails. *)
Lemma analyzeProject_error (rt : Runtime) :
  error_of (analyzeProject rt) = walk_error rt source_patterns ignore_build.
Proof.
  unfold analyzeProject, fg.
  destruct (walk_error rt source_patterns ignore_build); reflexivity.
Qed.

Lemma analyzeProject_report (rt : Runtime) (p : Project.report) :
  analyzeProject rt = Report p ->
  let packageInfo := match manifest rt with Ok v => v | Throw _ => JNull end in
  Project.totalFiles p = List.length (source_files rt)
            /\ Project.types p = {|
                 Project.tsx :=
                   count_if (fun f => endsWith f (js ".tsx")) (source_files rt);
                 Project.jsx :=
                   count_if (fun f => endsWith f (js ".jsx")) (source_files rt);
                 Project.ts :=
                   count_if (fun f => endsWith f (js ".ts")) (source_files rt);
                 Project.js_ :=
                   count_if (fun f => endsWith f (js ".js")) (source_files rt) |}
            /\ Project.hasReact p = declares packageInfo "react"
            /\ Project.hasTypeScript p = declares packageInfo "typescript"
            /\ Project.hasVite p = declares packageInfo "vite"
            /\ Project.hasNext p = declares packageInfo "next"
            /\ Project.hasTailwind p = declares packageInfo "tailwindcss"
            /\ Project.hasSupabase p = declares packageInfo "@supabase/supabase-js".
Proof.
  unfold analyzeProject, fg.
  destruct (walk_error rt source_patterns ignore_build); cbn [bind try_catch];
    [discriminate|].
  intros H. injection H as <-. repeat split.
Qed.

(** X12: the framework flags of [analyze_project] and of
    [analyze_dependencies] agree on Vite, Tailwind and TypeScript, which both
    look up in [dependencies] and [devDependencies].  For React, Next and
    Supabase [analyze_dependencies] looks in [dependencies] only, so its flag
    implies the flag of [analyze_project], not the converse. *)
Theorem framework_flags_agree (rt : Runtime) (p : Project.report)
  (d : Dependencies.report)
  (Hp : analyzeProject rt = Report p)
  (Hd : analyzeDependencies rt = Report d) :
  let f := Dependencies.detected d in
  Dependencies.hasVite f = Project.hasVite p
  /\ Dependencies.hasTailwind f = Project.hasTailwind p
  /\ Dependencies.hasTypeScript f = Project.hasTypeScript p
  /\ (Dependencies.hasReact f = true -> Project.hasReact p = true)
  /\ (Dependencies.hasNext f = true -> Project.hasNext p = true)
  /\ (Dependencies.hasSupabase f = true -> Project.hasSupabase p = true).
Proof.
  destruct (analyzeDependencies_report rt Hd) as [packageInfo [Hm [Hnn Hr]]].
  cbv zeta in Hr. rewrite Hr. cbn [Dependencies.detected].
  destruct (@analyzeProject_report rt p Hp)
    as [_ [_ [Hreact [Hts [Hvite [Hnext [Htw Hsb]]]]]]].
  rewrite Hm in *.
  rewrite Hreact, Hts, Hvite, Hnext, Htw, Hsb.
  assert (Hdecl : forall k,
            declares packageInfo k
            = has (or_empty_object (prop packageInfo "dependencies")) k
              || has (or_empty_object (prop packageInfo "devDependencies")) k).
  { intros k. unfold declares. rewrite truthy_or_else, !has_or_empty.
    destruct packageInfo; reflexivity. }
  cbv zeta. cbn [Dependencies.hasVite Dependencies.hasTailwind
                 Dependencies.hasTypeScript Dependencies.hasReact
                 Dependencies.hasNext Dependencies.hasSupabase].
  rewrite !Hdecl. repeat split.
  - apply orb_comm.
  - intros ->. reflexivity.
  - intros ->. reflexivity.
  - intros ->. reflexivity.
Qed.

(** ** What the enumerations return *)

Lemma match_star_unfold (r : list Glob.atom) (s : jsstring) :
  Glob.match_atoms (Glob.Star :: r) s
  = Glob.match_atoms r s
    || match s with
       | _ :: t => Glob.match_atoms (Glob.Star :: r) t
       | [] => false
       end.
Proof. destruct s; reflexivity. Qed.

Lemma match_globstar_unfold (dot : bool) (p : Glob.pattern)
  (segs : list jsstring) :
  Glob.match_segments dot (Glob.GlobStar :: p) segs
  = Glob.match_segments dot p segs
    || match segs with
       | s :: t => (dot || negb (Glob.hidden s))
                   && Glob.match_segments dot (Glob.GlobStar :: p) t
       | [] => false
       end.
Proof. destruct segs; reflexivity. Qed.

Lemma match_star_dot_brace_complete (exts : list string) (pre : jsstring)
  (ext : string) :
  In ext exts ->
  Glob.match_atoms [Glob.Star; Glob.Lit "."; Glob.Brace exts]
    (pre ++ js "." ++ js ext) = true.
Proof.
  intros Hin. induction pre as [|c pre IH].
  - rewrite match_star_unfold. apply orb_true_iff. left.
    cbn [Glob.match_atoms]. apply andb_true_iff. split.
    + apply startsWith_app. exists (js ext). reflexivity.
    + change (skipn (List.length (js ".")) ([] ++ js "." ++ js ext)) with (js ext).
      apply existsb_exists. exists ext. split; [assumption|].
      apply andb_true_iff. split.
      * apply startsWith_app. exists []. symmetry. apply app_nil_r.
      * rewrite skipn_all. reflexivity.
  - rewrite match_star_unfold. apply orb_true_iff. right. exact IH.
Qed.

(** A path matches [**/*.{e1,e2,...}] exactly when none of its segments
    starts with a dot and the last one ends with a dot and one of the
    extensions. *)
Lemma matches_anywhere_iff (exts : list string) (segs : list jsstring) :
  Glob.match_segments false (Glob.anywhere [Glob.Star] exts) segs = true
  <-> exists init pre ext,
        segs = init ++ [pre ++ js "." ++ js ext]
        /\ Forall (fun d => Glob.hidden d = false) (init ++ [pre ++ js "." ++ js ext])
        /\ In ext exts.
Proof.
  unfold Glob.anywhere. cbn [app].
  induction segs as [|s segs IH].
  - split; [discriminate|]. intros [init [pre [ext [H _]]]].
    destruct init; discriminate.
  - rewrite match_globstar_unfold, orb_true_iff. cbn [orb]. split.
    + intros [H|H].
      * cbn [Glob.match_segments] in H. apply andb_true_iff in H.
        destruct H as [Hs Hnil]. destruct segs; [|discriminate].
        unfold Glob.match_segment in Hs. cbn [orb Glob.leading_star andb] in Hs.
        apply andb_true_iff in Hs. destruct Hs as [Hh Hs].
        apply match_star_dot_brace in Hs. destruct Hs as [pre [ext [Hext ->]]].
        exists [], pre, ext. repeat split; [|assumption].
        constructor; [|constructor]. apply negb_true_iff. exact Hh.
      * apply andb_true_iff in H. destruct H as [Hh H].
        apply IH in H. destruct H as [init [pre [ext [-> [Hf Hext]]]]].
        exists (s :: init), pre, ext. repeat split; [|assumption].
        constructor; [apply negb_true_iff; exact Hh | assumption].
    + intros [init [pre [ext [Heq [Hf Hext]]]]].
      destruct init as [|d init]; simpl in Heq; injection Heq as -> ->.
      * left. cbn [Glob.match_segments]. apply andb_true_iff. split; [|reflexivity].
        unfold Glob.match_segment. cbn [orb Glob.leading_star andb].
        inversion Hf as [|? ? Hh _]; subst. rewrite Hh.
        apply match_star_dot_brace_complete. assumption.
      * right. inversion Hf as [|? ? Hh Hf']; subst. rewrite Hh.
        apply IH. exists init, pre, ext. auto.
Qed.

(** A path enumerated with [**/*.{e1,e2,...}] ends with a dot and one of
    the extensions. *)
Lemma enumerated_extension (rt : Runtime) (exts : list string)
  (ignore : list Glob.pattern) (file : jsstring) :
  In file (enumerated rt [Glob.anywhere [Glob.Star] exts] ignore) ->
  exists pre ext, In ext exts /\ file = pre ++ js "." ++ js ext.
Proof.
  rewrite enumerated_In. intros [_ H].
  apply andb_true_iff in H. destruct H as [H _].
  cbn [existsb] in H. rewrite orb_false_r in H. unfold Glob.matches in H.
  apply matches_anywhere_iff in H.
  destruct H as [init [pre [ext [Hsplit [_ Hext]]]]].
  destruct (split_char_last 47%N file []) as [init' [piece [pre' [Hs Hp]]]].
  unfold split in Hsplit. rewrite Hs in Hsplit.
  apply app_inj_tail in Hsplit. destruct Hsplit as [_ ->].
  simpl in Hp. exists (pre' ++ pre), ext. split; [assumption|].
  rewrite Hp, <- app_assoc. reflexivity.
Qed.

Lemma endsWith_cat (pre p q : jsstring) :
  endsWith (pre ++ p) q = startsWith (rev p ++ rev pre) (rev q).
Proof. unfold endsWith. rewrite rev_app_distr. reflexivity. Qed.

(** A source file has exactly one of the four extensions. *)
Lemma source_file_one_extension (rt : Runtime) (file : jsstring) :
  In file (source_files rt) ->
  b2n (endsWith file (js ".tsx")) + b2n (endsWith file (js ".jsx"))
  + b2n (endsWith file (js ".ts")) + b2n (endsWith file (js ".js")) = 1.
Proof.
  intros H. unfold source_files, source_patterns in H.
  apply enumerated_extension in H.
  destruct H as [pre [ext [Hext ->]]].
  destruct Hext as [<-|[<-|[<-|[<-|[]]]]];
    rewrite !endsWith_cat; destruct (rev pre); reflexivity.
Qed.

Lemma count_partition {A} (f1 f2 f3 f4 : A -> bool) (l : list A) :
  (forall x, In x l -> b2n (f1 x) + b2n (f2 x) + b2n (f3 x) + b2n (f4 x) = 1) ->
  List.length l = count_if f1 l + count_if f2 l + count_if f3 l + count_if f4 l.
Proof.
  unfold count_if. induction l as [|x l IH]; intros H; simpl.
  - reflexivity.
  - pose proof (H x (or_introl eq_refl)) as Hx.
    rewrite IH by (intros y Hy; apply H; right; assumption).
    destruct (f1 x), (f2 x), (f3 x), (f4 x); simpl in *; lia.
Qed.

(** X13: [analyze_project] returns an error object exactly when its
    enumeration of the source files fails, whatever the state of the
    manifest.  In a report the four counts of [fileTypes] add up to
    [totalFiles]: every file counted has exactly one of the extensions tsx,
    jsx, ts and js. *)
Theorem project_file_types_partition (rt : Runtime) :
  error_of (analyzeProject rt) = walk_error rt source_patterns ignore_build
  /\ forall p, analyzeProject rt = Report p ->
       Project.totalFiles p
       = Project.tsx (Project.types p) + Project.jsx (Project.types p)
         + Project.ts (Project.types p) + Project.js_ (Project.types p).
Proof.
  split; [apply analyzeProject_error|]. intros p Hp.
  destruct (@analyzeProject_report rt p Hp) as [Ht [Hty _]].
  rewrite Ht, Hty.
  cbn [Project.tsx Project.jsx Project.ts Project.js_].
  apply count_partition. intros x Hx.
  apply (@source_file_one_extension rt x Hx).
Qed.

Lemma filter_and {A} (f g h : A -> bool) (l : list A) :
  (forall x, f x = g x && h x) -> filter f l = filter h (filter g l).
Proof.
  intros H. induction l as [|x l IH]; simpl; [reflexivity|].
  rewrite H. destruct (g x); simpl; [destruct (h x)|]; rewrite IH; reflexivity.
Qed.

Lemma split_last_app (file : jsstring) (init : list jsstring) (piece : jsstring) :
  split file 47%N = init ++ [piece] -> exists pre, file = pre ++ piece.
Proof.
  intros H. destruct (split_char_last 47%N file []) as [init' [p' [pre [Hs Hp]]]].
  unfold split in H. rewrite Hs in H. apply app_inj_tail in H.
  destruct H as [_ ->]. exists pre. exact Hp.
Qed.

Lemma component_pattern (p : jsstring) :
  Glob.matches false (Glob.anywhere [Glob.Star] ["tsx"; "jsx"]%string) p
  = Glob.matches false (Glob.anywhere [Glob.Star] ["tsx"; "jsx"; "ts"; "js"]%string) p
    && (endsWith p (js ".tsx") || endsWith p (js ".jsx")).
Proof.
  unfold Glob.matches.
  destruct (Glob.match_segments false
              (Glob.anywhere [Glob.Star] ["tsx"; "jsx"]%string) (split p 47%N))
    eqn:E2.
  - apply matches_anywhere_iff in E2.
    destruct E2 as [init [pre [ext [Hs [Hf Hext]]]]].
    symmetry. apply andb_true_iff. split.
    + apply matches_anywhere_iff. exists init, pre, ext.
      repeat split; try assumption. simpl in *. tauto.
    + destruct (split_last_app _ _ _ Hs) as [pre' ->].
      rewrite app_assoc, !endsWith_cat.
      destruct Hext as [<-|[<-|[]]]; destruct (rev (pre' ++ pre)); reflexivity.
  - symmetry. apply not_true_is_false. intros H.
    apply andb_true_iff in H. destruct H as [H4 He].
    apply matches_anywhere_iff in H4.
    destruct H4 as [init [pre [ext [Hs [Hf Hext]]]]].
    assert (E : Glob.match_segments false
                  (Glob.anywhere [Glob.Star] ["tsx"; "jsx"]%string)
                  (split p 47%N) = true); [|congruence].
    apply matches_anywhere_iff. exists init, pre, ext.
    repeat split; try assumption.
    destruct (split_last_app _ _ _ Hs) as [pre' ->].
    rewrite app_assoc, !endsWith_cat in He.
    destruct Hext as [<-|[<-|[<-|[<-|[]]]]]; simpl; try tauto;
      destruct (rev (pre' ++ pre)); discriminate.
Qed.

Lemma Permutation_filter_length {A} (f : A -> bool) (l l' : list A) :
  Permutation l l' -> List.length (filter f l) = List.length (filter f l').
Proof.
  induction 1 as [|x l l' _ IH|x y l|l l' l'' _ IH1 _ IH2]; simpl.
  - reflexivity.
  - destruct (f x); simpl; rewrite IH; reflexivity.
  - destruct (f x), (f y); reflexivity.
  - rewrite IH1. exact IH2.
Qed.

(** The two enumerations may come in different orders, but there are as
    many component files as source files that end in ".tsx" or ".jsx". *)
Lemma component_files_of_source_files (rt : Runtime) :
  List.length (component_files rt)
  = List.length
      (filter (fun f => endsWith f (js ".tsx") || endsWith f (js ".jsx"))
         (source_files rt)).
Proof.
  unfold component_files, source_files, enumerated.
  rewrite <- (filter_and
                (fun p =>
                   existsb (fun g => Glob.matches false g p) component_patterns
                   && negb (existsb (fun g => Glob.matches true g p) ignore_build))).
  - rewrite (Permutation_filter_length _
               (walk_perm rt component_patterns ignore_build)).
    rewrite (Permutation_filter_length _
               (walk_perm rt source_patterns ignore_build)).
    reflexivity.
  - intros p. unfold component_patterns, source_patterns.
    cbn [existsb]. rewrite !orb_false_r, component_pattern.
    rewrite <- !andb_assoc. f_equal. apply andb_comm.
Qed.

Lemma count_either {A} (f g : A -> bool) (l : list A) :
  (forall x, In x l -> b2n (f x) + b2n (g x) <= 1) ->
  List.length (filter (fun x => f x || g x) l) = count_if f l + count_if g l.
Proof.
  unfold count_if. induction l as [|x l IH]; intros H; simpl.
  - reflexivity.
  - pose proof (H x (or_introl eq_refl)) as Hx.
    specialize (IH (fun y Hy => H y (or_intror Hy))).
    destruct (f x), (g x); simpl in *; lia.
Qed.

(** X14: the number of component files that [get_components] reports in
    [totalComponents] is the sum of the counts of tsx and jsx files that
    [analyze_project] reports. *)
Theorem components_total_matches_project (rt : Runtime)
  (c : Components.report) (p : Project.report)
  (Hc : getComponents rt = Report c)
  (Hp : analyzeProject rt = Report p) :
  Components.totalComponents c
  = Project.tsx (Project.types p) + Project.jsx (Project.types p)
  /\ Components.totalComponents c <= Project.totalFiles p.
Proof.
  destruct (@analyzeProject_report rt p Hp) as [Ht [Hty _]].
  rewrite (@getComponents_report rt c Hc). cbn [Components.totalComponents].
  rewrite Ht, Hty. cbn [Project.tsx Project.jsx].
  rewrite component_files_of_source_files.
  split; [|apply filter_length_le].
  apply count_either. intros x Hx.
  pose proof (@source_file_one_extension rt x Hx).
  destruct (endsWith x (js ".tsx")), (endsWith x (js ".jsx")); simpl in *; lia.
Qed.

Lemma globstar_all (segs : list jsstring) :
  Glob.match_segments true [Glob.GlobStar] segs = true.
Proof.
  induction segs as [|s segs IH]; [reflexivity|].
  rewrite match_globstar_unfold, IH. apply orb_true_r.
Qed.

Lemma inside_matches (d : string) (a b : list jsstring) :
  Glob.match_segments true (Glob.inside d) (a ++ js d :: b) = true.
Proof.
  unfold Glob.inside. induction a as [|s a IH].
  - rewrite match_globstar_unfold. apply orb_true_iff. left.
    cbn [app Glob.match_segments]. rewrite globstar_all, andb_true_r.
    unfold Glob.match_segment. cbn [orb andb Glob.match_atoms].
    apply andb_true_iff. split.
    + apply startsWith_app. exists []. symmetry. apply app_nil_r.
    + rewrite skipn_all. reflexivity.
  - rewrite match_globstar_unfold. cbn [app orb andb]. rewrite IH.
    apply orb_true_r.
Qed.

(** X15: whatever the patterns, a path that a call of [fg] with the
    [ignore] list of the tools gives is a file of the project, and none of
    its segments is named node_modules, dist or build. *)
Theorem enumeration_skips_ignored (rt : Runtime) (patterns : list Glob.pattern)
  (files : list jsstring) (file d : jsstring)
  (Hfiles : fg rt patterns ignore_build = Ok files)
  (Hfile : In file files)
  (Hd : In d ignored_directories) :
  In file (tree rt) /\ ~ In d (split file 47%N).
Proof.
  apply fg_result in Hfiles. destruct Hfiles as [_ ->].
  apply enumerated_In in Hfile. destruct Hfile as [Hin H].
  split; [assumption|]. intros Hseg.
  apply andb_true_iff in H. destruct H as [_ H].
  apply negb_true_iff in H.
  apply in_split in Hseg. destruct Hseg as [a [b Hs]].
  assert (E : existsb (fun g => Glob.matches true g file) ignore_build = true);
    [|congruence].
  unfold ignore_build, Glob.matches. rewrite Hs. cbn [existsb].
  destruct Hd as [<-|[<-|[<-|[]]]];
    rewrite (inside_matches _ a b); rewrite ?orb_true_r; reflexivity.
Qed.

(** ** The registries and the dispatchers *)

Lemma registered_In (names : list jsstring) (n : jsstring) :
  registered names n = true <-> In n names.
Proof. apply existsb_str_eqb. Qed.

(** X16: the tool handler never throws.  For each of the eight names it
    runs the analysis of that name and returns its text without [isError];
    for every other name it returns an error result: [isError] is set exactly
    for the names outside the list. *)
Theorem tool_dispatch (rt : Runtime) (name : jsstring) :
  (exists res, handleCallTool rt name = Ok res
               /\ isError res = negb (registered tool_names name))
  /\ handleCallTool rt (js "analyze_project")
     = Ok {| tool_content := ProjectText (analyzeProject rt); isError := false |}
  /\ handleCallTool rt (js "get_components")
     = Ok {| tool_content := ComponentsText (getComponents rt); isError := false |}
  /\ handleCallTool rt (js "get_routing_structure")
     = Ok {| tool_content := RoutingText (getRoutingStructure rt);
             isError := false |}
  /\ handleCallTool rt (js "analyze_dependencies")
     = Ok {| tool_content := DependenciesText (analyzeDependencies rt);
             isError := false |}
  /\ handleCallTool rt (js "get_tailwind_usage")
     = Ok {| tool_content := TailwindText (getTailwindUsage rt); isError := false |}
  /\ handleCallTool rt (js "get_hooks_usage")
     = Ok {| tool_content := HooksText (getHooksUsage rt); isError := false |}
  /\ handleCallTool rt (js "analyze_api_calls")
     = Ok {| tool_content := ApiText (analyzeApiCalls rt); isError := false |}
  /\ handleCallTool rt (js "analyze_database_schema")
     = Ok {| tool_content := SchemaText (analyzeDatabaseSchema rt);
             isError := false |}.
Proof.
  split; [|repeat split].
  destruct (registered tool_names name) eqn:E.
  - apply registered_In in E.
    destruct E as [<-|[<-|[<-|[<-|[<-|[<-|[<-|[<-|[]]]]]]]]];
      eexists; split; reflexivity.
  - unfold handleCallTool, callTool.
    rewrite !(@not_registered tool_names name _ E) by (simpl; tauto).
    eexists. split; reflexivity.
Qed.



(** X18: the prompt handler throws exactly for the names outside the three
    listed by [getPromptTemplates]; for a listed name it returns one message
    of role [user] whose text contains the value given for the declared
    argument.  An argument declared as required is not checked: when it is
    missing, or when no arguments are sent at all, the text contains
    [undefined] in its place. *)
Theorem prompt_dispatch (name : jsstring)
  (args : option (list (jsstring * jsstring))) :
  map pt_name getPromptTemplates = prompt_names
  /\ ((exists msg, handleGetPrompt name args = Ok [msg]
                   /\ role msg = js "user" /\ content_type msg = js "text")
      <-> registered prompt_names name = true)
  /\ (forall t a, In t getPromptTemplates -> In a (pt_arguments t) ->
        exists msg, handleGetPrompt (pt_name t) args = Ok [msg]
          /\ infix match assoc (arg_name a)
                           match args with Some l => l | None => [] end with
                   | Some v => v
                   | None => js "undefined"
                   end (text msg)).
Proof.
  split; [reflexivity|]. split.
  - unfold handleGetPrompt, getPrompt.
    destruct (registered prompt_names name) eqn:E.
    + split; [reflexivity|]. intros _. apply registered_In in E.
      destruct E as [<-|[<-|[<-|[]]]]; eexists; repeat split.
    + rewrite !(@not_registered prompt_names name _ E) by (simpl; tauto).
      split; [|discriminate]. intros [c [H _]]. discriminate.
  - intros t a Ht Ha.
    destruct Ht as [<-|[<-|[<-|[]]]]; destruct Ha as [<-|[]];
      (eexists; split; [reflexivity|]); cbn [text].
    + apply infix_app_r, infix_here.
    + apply infix_app_r, infix_here.
    + apply infix_app_r, infix_app_r, infix_here.
Qed.

Lemma split_char_head (sep : char) (s cur : jsstring) :
  hd [] (split_char sep cur s) = rev cur ++ upto sep s.
Proof.
  revert cur. induction s as [|c s IH]; intros cur; cbn [split_char upto].
  - symmetry. apply app_nil_r.
  - destruct (N.eqb c sep).
    + symmetry. apply app_nil_r.
    + rewrite IH. cbn [rev]. rewrite <- app_assoc. reflexivity.
Qed.

Lemma upto_absent (sep : char) (s : jsstring) : ~ In sep s -> upto sep s = s.
Proof.
  induction s as [|c s IH]; intros H; [reflexivity|]. cbn [upto].
  destruct (N.eqb_spec c sep) as [->|_].
  - exfalso. apply H. left. reflexivity.
  - f_equal. apply IH. intros Hin. apply H. right. exact Hin.
Qed.

Lemma upto_free (sep : char) (s : jsstring) : ~ In sep (upto sep s).
Proof.
  induction s as [|c s IH]; cbn [upto]; [tauto|].
  destruct (N.eqb_spec c sep) as [->|Hn]; [tauto|].
  intros [H|H]; [congruence|tauto].
Qed.

(** X19: when its enumeration succeeds, the resource [project://structure]
    is served.  It counts every enumerated file, lists the first hundred,
    and its [directories] are, without repetition, the non-empty first path
    segments of the files: none contains a slash, and a file at the top
    level of the project is listed among the directories under its own
    name. *)
Theorem structure_resource (rt : Runtime)
  (Hwalk : walk_error rt structure_patterns structure_ignore = None) :
  exists s,
    handleReadResource rt (js "project://structure")
    = Ok [{| r_uri := js "project://structure";
             mimeType := js "application/json";
             r_text := StructureText s |}]
    /\ Structure.totalFiles s = List.length (structure_files rt)
    /\ Structure.files s = firstn 100 (structure_files rt)
    /\ List.length (Structure.files s) = Nat.min 100 (Structure.totalFiles s)
    /\ NoDup (Structure.directories s)
    /\ (forall d, In d (Structure.directories s) <->
          d <> [] /\ exists f, In f (structure_files rt) /\ d = upto 47%N f)
    /\ (forall d, In d (Structure.directories s) -> ~ In 47%N d)
    /\ (forall f, In f (structure_files rt) -> f <> [] -> ~ In 47%N f ->
          In f (Structure.directories s)).
Proof.
  eexists. split.
  { unfold handleReadResource, readProjectResource.
    change (replace (js "project://structure") (js "project://") [])
      with (js "structure").
    change (str_eqb (js "structure") (js "structure")) with true.
    cbv iota. rewrite (fg_succeeds _ _ _ Hwalk). reflexivity. }
  cbn [Structure.totalFiles Structure.files Structure.directories].
  fold (structure_files rt).
  assert (Hd : forall d,
    In d (filter (fun d => negb (str_eqb d []))
            (Set_of (map (fun f => hd [] (split f 47%N)) (structure_files rt))))
    <-> d <> [] /\ exists f, In f (structure_files rt) /\ d = upto 47%N f).
  { intros d. rewrite filter_In, Set_of_In, in_map_iff, negb_true_iff, str_eqb_neq.
    split.
    - intros [[f [E Hf]] Hne]. split; [exact Hne|]. exists f. split; [exact Hf|].
      rewrite <- E. unfold split. apply (split_char_head 47%N f []).
    - intros [Hne [f [Hf E]]]. split; [|exact Hne]. exists f. split; [|exact Hf].
      rewrite E. unfold split. apply (split_char_head 47%N f []). }
  split; [reflexivity|]. split; [reflexivity|].
  split; [|split; [|split; [|split]]].
  - unfold slice0. apply length_firstn.
  - apply NoDup_filter, Set_of_NoDup.
  - exact Hd.
  - intros d H. apply Hd in H. destruct H as [_ [f [_ ->]]]. apply upto_free.
  - intros f Hf Hne Hs. apply Hd. split; [exact Hne|]. exists f.
    split; [exact Hf|]. symmetry. apply upto_absent. exact Hs.
Qed.

Lemma find_none_all {A} (p : A -> bool) (l : list A) :
  Forall (fun a => p a = false) l -> find p l = None.
Proof.
  induction 1 as [|a l Ha _ IH]; [reflexivity|]. cbn [find]. rewrite Ha. exact IH.
Qed.

Lemma find_first {A} (p : A -> bool) (pre post : list A) (x : A) :
  Forall (fun a => p a = false) pre -> p x = true ->
  find p (pre ++ x :: post) = Some x.
Proof.
  induction 1 as [|a l Ha _ IH]; intros Hx; cbn [app find].
  - rewrite Hx. reflexivity.
  - rewrite Ha. apply IH. exact Hx.
Qed.

Lemma split_char_nonempty (sep : char) (s cur : jsstring) :
  split_char sep cur s <> [].
Proof.
  revert cur. induction s as [|c s IH]; intros cur; cbn [split_char].
  - discriminate.
  - destruct (N.eqb c sep); [discriminate|apply IH].
Qed.

(** X20: the project path is read from the first command-line argument that
    begins with [--project-path=]: it is what follows the flag, cut at the
    next equals sign if there is one.  When that value is empty, and when no
    argument carries the flag, the working directory is used. *)
Theorem project_path_from_flag (pre post : list jsstring) (rest cwd : jsstring)
  (Hpre : Forall (fun a => startsWith a (js "--project-path=") = false) pre) :
  projectPath (pre ++ (js "--project-path=" ++ rest) :: post) cwd
  = (if nonempty (upto 61%N rest) then upto 61%N rest else cwd)
  /\ projectPath pre cwd = cwd.
Proof.
  unfold projectPath. split.
  - rewrite (@find_first _ _ pre post _ Hpre)
      by (apply startsWith_app; exists rest; reflexivity).
    unfold split.
    change (split_char 61%N [] (js "--project-path=" ++ rest))
      with (js "--project-path" :: split_char 61%N [] rest).
    cbn [nth_error].
    pose proof (split_char_head 61%N rest []) as H. cbn [rev app] in H.
    destruct (split_char 61%N [] rest) as [|v l] eqn:E.
    + exfalso. exact (split_char_nonempty _ _ _ E).
    + cbn [hd] in H. rewrite H. reflexivity.
  - rewrite (@find_none_all _ _ pre Hpre). reflexivity.
Qed.

(** ** Facts of [analyze_database_schema] *)

Lemma analyzeDatabaseSchema_report (rt : Runtime) (r : Schema.report) :
  analyzeDatabaseSchema rt = Report r ->
  r = let a := all_schema rt in
      let s := Schema.a_schema a in
      {| Schema.schemaFiles := schema_files rt;
         Schema.totalFiles := List.length (schema_files rt);
         Schema.found :=
           {| Schema.tables := slice0 20 (Schema.tables s);
              Schema.types := slice0 20 (Schema.types s);
              Schema.functions := slice0 10 (Schema.functions s);
              Schema.policies := slice0 10 (Schema.policies s);
              Schema.relationships := slice0 10 (Schema.relationships s) |};
         Schema.supabaseUsage := slice0 15 (all_usage rt);
         Schema.stats :=
           {| Schema.totalTables := List.length (Schema.tables s);
              Schema.totalTypes := List.length (Schema.types s);
              Schema.totalFunctions := List.length (Schema.functions s);
              Schema.totalPolicies := List.length (Schema.policies s);
              Schema.totalRelationships := List.length (Schema.relationships s);
              Schema.supabaseReferences := List.length (all_usage rt) |};
         Schema.hasSupabase :=
           Nat.ltb 0 (List.length (all_usage rt))
           || Nat.ltb 0 (List.length (Schema.a_supabaseTypes a));
         Schema.hasSQL :=
           existsb (fun f => endsWith f (js ".sql")) (schema_files rt);
         Schema.hasTypeScript :=
           existsb (fun f => endsWith f (js ".ts")) (schema_files rt) |}.
Proof.
  unfold analyzeDatabaseSchema, fg.
  destruct (walk_error rt schema_patterns ignore_build); cbn [bind try_catch];
    [discriminate|].
  rewrite for_of_read. fold (schema_files rt).
  destruct (first_unreadable rt (schema_files rt)); cbn [bind try_catch];
    [discriminate|].
  destruct (walk_error rt source_patterns ignore_build); cbn [bind try_catch];
    [discriminate|].
  rewrite (for_of_read rt (fun u file content => u ++ usage_of_file file content)).
  fold (source_files rt).
  destruct (first_unreadable rt (slice0 30 (source_files rt)));
    cbn [bind try_catch]; [discriminate|].
  intros H. injection H as <-.
  rewrite (fold_app_flat_map
             (fun file => usage_of_file file (content_of rt file))).
  reflexivity.
Qed.

(** What the first loop collects is, list by list, what each schema file
    contributes alone, file after file. *)
Lemma schema_fold (rt : Runtime) (files : list jsstring) (a0 : Schema.acc) :
  let s0 := Schema.a_schema a0 in
  let s := Schema.a_schema
             (fold_left (fun a file => schema_file a file (content_of rt file))
                files a0) in
  Schema.tables s
  = Schema.tables s0 ++ flat_map (fun f => Schema.tables (found_in rt f)) files
  /\ Schema.types s
     = Schema.types s0 ++ flat_map (fun f => Schema.types (found_in rt f)) files
  /\ Schema.functions s
     = Schema.functions s0
       ++ flat_map (fun f => Schema.functions (found_in rt f)) files
  /\ Schema.policies s
     = Schema.policies s0
       ++ flat_map (fun f => Schema.policies (found_in rt f)) files
  /\ Schema.relationships s
     = Schema.relationships s0
       ++ flat_map (fun f => Schema.relationships (found_in rt f)) files.
Proof.
  cbv zeta. revert a0. induction files as [|file files IH]; intros a0.
  - cbn [fold_left flat_map]. rewrite !app_nil_r. repeat split.
  - cbn [fold_left flat_map].
    destruct (IH (schema_file a0 file (content_of rt file)))
      as [H1 [H2 [H3 [H4 H5]]]].
    rewrite H1, H2, H3, H4, H5.
    unfold found_in, schema_file, no_schema.
    cbn [Schema.a_schema Schema.tables Schema.types Schema.functions
         Schema.policies Schema.relationships app].
    rewrite <- !app_assoc. repeat split.
Qed.

(** X21: the report of [analyze_database_schema] cuts each list at its
    limit (twenty tables and types; ten functions, policies and
    relationships; fifteen usages) while each statistic is the length of the
    whole list: what every schema file contributes, file after file, and
    every usage found in the first thirty code files.  [hasSupabase] is set
    whenever a usage was counted, and [hasSQL] exactly when a schema file
    ends in [.sql]. *)
Theorem schema_report_limits (rt : Runtime) (r : Schema.report)
  (Hreport : analyzeDatabaseSchema rt = Report r) :
  let f := Schema.found r in
  let st := Schema.stats r in
  Schema.schemaFiles r = schema_files rt
  /\ Schema.totalFiles r = List.length (Schema.schemaFiles r)
  /\ (Schema.tables f = firstn 20 (found_by rt Schema.tables)
      /\ Schema.totalTables st = List.length (found_by rt Schema.tables))
  /\ (Schema.types f = firstn 20 (found_by rt Schema.types)
      /\ Schema.totalTypes st = List.length (found_by rt Schema.types))
  /\ (Schema.functions f = firstn 10 (found_by rt Schema.functions)
      /\ Schema.totalFunctions st = List.length (found_by rt Schema.functions))
  /\ (Schema.policies f = firstn 10 (found_by rt Schema.policies)
      /\ Schema.totalPolicies st = List.length (found_by rt Schema.policies))
  /\ (Schema.relationships f = firstn 10 (found_by rt Schema.relationships)
      /\ Schema.totalRelationships st
         = List.length (found_by rt Schema.relationships))
  /\ (Schema.supabaseUsage r = firstn 15 (all_usage rt)
      /\ Schema.supabaseReferences st = List.length (all_usage rt))
  /\ List.length (Schema.tables f) = Nat.min 20 (Schema.totalTables st)
  /\ List.length (Schema.types f) = Nat.min 20 (Schema.totalTypes st)
  /\ List.length (Schema.functions f) = Nat.min 10 (Schema.totalFunctions st)
  /\ List.length (Schema.policies f) = Nat.min 10 (Schema.totalPolicies st)
  /\ List.length (Schema.relationships f)
     = Nat.min 10 (Schema.totalRelationships st)
  /\ List.length (Schema.supabaseUsage r)
     = Nat.min 15 (Schema.supabaseReferences st)
  /\ (0 < Schema.supabaseReferences st -> Schema.hasSupabase r = true)
  /\ (Schema.hasSQL r = true <->
      exists file, In file (Schema.schemaFiles r)
                   /\ endsWith file (js ".sql") = true).
Proof.
  apply analyzeDatabaseSchema_report in Hreport. subst r.
  cbv zeta.
  cbn [Schema.found Schema.stats Schema.totalFiles Schema.schemaFiles
       Schema.tables Schema.types Schema.functions Schema.policies
       Schema.relationships Schema.supabaseUsage Schema.totalTables
       Schema.totalTypes Schema.totalFunctions Schema.totalPolicies
       Schema.totalRelationships Schema.supabaseReferences Schema.hasSupabase
       Schema.hasSQL].
  unfold all_schema. fold no_schema.
  destruct (schema_fold rt (schema_files rt) no_schema)
    as [H1 [H2 [H3 [H4 H5]]]].
  cbv zeta in H1, H2, H3, H4, H5.
  rewrite H1, H2, H3, H4, H5. unfold found_by.
  cbn [no_schema Schema.a_schema Schema.tables Schema.types Schema.functions
       Schema.policies Schema.relationships app].
  unfold slice0. rewrite !length_firstn.
  repeat (split; [first [reflexivity | split; reflexivity]|]). split.
  - intros H. apply Nat.ltb_lt in H. rewrite H. reflexivity.
  - apply existsb_exists.
Qed.

Lemma first_group_identifier (ci : bool) (r : re) (text name : jsstring) :
  (forall v cs, matched ci r [] v cs ->
                exists u, group 1 cs = Some u /\ identifier u) ->
  first_group ci r text = Some name -> identifier name.
Proof.
  intros Hcap H. unfold first_group, exec in H.
  destruct (search ci r None text 0) as [x|] eqn:E; [|discriminate].
  apply search_sound in E. destruct E as [_ Hm].
  destruct (Hcap _ _ Hm) as [u [Hg Hu]]. rewrite Hg in H.
  unfold present in H. destruct (nonempty u); [|discriminate].
  injection H as <-. exact Hu.
Qed.

Ltac identifier_capture :=
  let H := fresh in
  intros ? ? H; simpl in H; break_matched;
  eexists; split; [reflexivity|]; split; assumption.

Lemma create_table_capture (v : jsstring) (cs : list (nat * jsstring)) :
  matched true create_table [] v cs ->
  exists u, group 1 cs = Some u /\ identifier u.
Proof. revert v cs. identifier_capture. Qed.

Lemma interface_capture (v : jsstring) (cs : list (nat * jsstring)) :
  matched true (cat [lit "interface"; ws1; Group 1 word1]) [] v cs ->
  exists u, group 1 cs = Some u /\ identifier u.
Proof. revert v cs. identifier_capture. Qed.

Lemma type_capture (v : jsstring) (cs : list (nat * jsstring)) :
  matched true (cat [lit "type"; ws1; Group 1 word1]) [] v cs ->
  exists u, group 1 cs = Some u /\ identifier u.
Proof. revert v cs. identifier_capture. Qed.

Lemma references_capture (v : jsstring) (cs : list (nat * jsstring)) :
  matched true references [] v cs ->
  exists u, group 1 cs = Some u /\ identifier u.
Proof. revert v cs. identifier_capture. Qed.

Lemma quoted_word_capture (v : jsstring) (cs : list (nat * jsstring)) :
  matched false quoted_word [] v cs ->
  exists u, group 1 cs = Some u /\ identifier u.
Proof. revert v cs. identifier_capture. Qed.

Lemma create_function_capture (v : jsstring) (cs : list (nat * jsstring)) :
  matched true create_function [] v cs ->
  exists u, group 1 cs = Some u /\ identifier u.
Proof.
  intros H. simpl in H. break_matched.
  match goal with H : _ \/ _ |- _ => destruct H end; break_matched;
    (eexists; split; [reflexivity|]; split; assumption).
Qed.

Lemma create_policy_capture (v : jsstring) (cs : list (nat * jsstring)) :
  matched true create_policy [] v cs ->
  exists u w, group 1 cs = Some u /\ group 2 cs = Some w
              /\ identifier u /\ identifier w.
Proof.
  intros H. simpl in H. break_matched.
  eexists. eexists. split; [reflexivity|]. split; [reflexivity|].
  split; split; assumption.
Qed.

Lemma collect_In {A} (r : re) (content : jsstring) (f : jsstring -> option A)
  (a : A) :
  In a (collect r content f) ->
  exists x, In x (exec_all true r content) /\ f (whole x) = Some a.
Proof.
  unfold collect. intros H. apply in_flat_map in H.
  destruct H as [x [Hx H]]. exists x. split; [exact Hx|].
  destruct (f (whole x)); [|destruct H].
  destruct H as [->|[]]. reflexivity.
Qed.

Lemma preview_is_preview (text : jsstring) : is_preview (preview text).
Proof.
  unfold is_preview, preview, slice0. split.
  - rewrite length_app, length_firstn.
    change (List.length (js "...")) with 3.
    pose proof (Nat.le_min_l 200 (List.length text)). lia.
  - apply endsWith_app. eexists. reflexivity.
Qed.

Lemma fold_left_invariant {S A} (P : S -> Prop) (f : S -> A -> S)
  (l : list A) (s0 : S) :
  P s0 -> (forall s x, In x l -> P s -> P (f s x)) -> P (fold_left f l s0).
Proof.
  revert s0. induction l as [|x l IH]; intros s0 H0 Hstep; simpl.
  - exact H0.
  - apply IH.
    + apply Hstep; [left; reflexivity | exact H0].
    + intros s y Hy. apply Hstep. right. exact Hy.
Qed.

Lemma schema_file_entries (files : list jsstring) (a : Schema.acc)
  (file content : jsstring) :
  In file files ->
  schema_entries_ok files (Schema.a_schema a) ->
  schema_entries_ok files (Schema.a_schema (schema_file a file content)).
Proof.
  intros Hfile [Ht [Hd [Hf [Hp Hr]]]].
  unfold schema_entries_ok, schema_file.
  cbn [Schema.a_schema Schema.tables Schema.types Schema.functions
       Schema.policies Schema.relationships].
  repeat split; repeat (apply Forall_app; split); try assumption;
    apply Forall_forall; intros e He; apply collect_In in He;
    destruct He as [x [_ He]].
  - destruct (first_group true create_table (whole x)) as [n|] eqn:E;
      [|discriminate].
    injection He as <-. cbn [Schema.t_name Schema.t_file Schema.t_definition].
    split; [|split; [exact Hfile | apply preview_is_preview]].
    exact (@first_group_identifier _ _ _ _ create_table_capture E).
  - destruct (first_group true (cat [lit "interface"; ws1; Group 1 word1])
                (whole x)) as [n|] eqn:E; [|discriminate].
    injection He as <-.
    cbn [Schema.d_name Schema.d_file Schema.d_type Schema.d_definition].
    split; [|split; [exact Hfile | split; [left; reflexivity
                                          | apply preview_is_preview]]].
    exact (@first_group_identifier _ _ _ _ interface_capture E).
  - destruct (first_group true (cat [lit "type"; ws1; Group 1 word1])
                (whole x)) as [n|] eqn:E; [|discriminate].
    injection He as <-.
    cbn [Schema.d_name Schema.d_file Schema.d_type Schema.d_definition].
    split; [|split; [exact Hfile | split; [right; reflexivity
                                          | apply preview_is_preview]]].
    exact (@first_group_identifier _ _ _ _ type_capture E).
  - destruct (first_group true create_function (whole x)) as [n|] eqn:E;
      [|discriminate].
    injection He as <-. cbn [Schema.f_name Schema.f_file].
    split; [|exact Hfile].
    exact (@first_group_identifier _ _ _ _ create_function_capture E).
  - unfold exec in He.
    destruct (search true create_policy None (whole x) 0) as [y|] eqn:E;
      [|discriminate].
    injection He as <-. cbn [Schema.p_name Schema.p_table Schema.p_file].
    apply search_sound in E. destruct E as [_ Hm].
    apply create_policy_capture in Hm.
    destruct Hm as [u [w [H1 [H2 [Hu Hw]]]]].
    unfold capture. rewrite H1, H2. repeat split; try assumption;
      try apply Hu; try apply Hw.
  - destruct (first_group true references (whole x)) as [n|] eqn:E;
      [|discriminate].
    injection He as <-. cbn [Schema.referencedTable Schema.r_file].
    split; [|exact Hfile].
    exact (@first_group_identifier _ _ _ _ references_capture E).
Qed.

Lemma Forall_firstn {A} (P : A -> Prop) (n : nat) (l : list A) :
  Forall P l -> Forall P (firstn n l).
Proof.
  intros H. apply Forall_forall. intros x Hx.
  apply in_firstn in Hx. revert x Hx. apply Forall_forall. exact H.
Qed.

(** X22: every entry of the report of [analyze_database_schema] comes from
    one of the enumerated schema files and names an identifier (one or more
    word characters); a policy names its table as well; a type is an
    [interface] or a [type].  The definition shown for a table or a type is
    at most 203 code units long and always ends with an ellipsis, also when
    nothing was cut. *)
Theorem schema_entries_well_formed (rt : Runtime) (r : Schema.report)
  (Hreport : analyzeDatabaseSchema rt = Report r) :
  schema_entries_ok (Schema.schemaFiles r) (Schema.found r).
Proof.
  apply analyzeDatabaseSchema_report in Hreport. subst r.
  cbv zeta. cbn [Schema.found Schema.schemaFiles].
  assert (H : schema_entries_ok (schema_files rt)
                (Schema.a_schema (all_schema rt))).
  { unfold all_schema.
    apply (fold_left_invariant
             (fun a => schema_entries_ok (schema_files rt) (Schema.a_schema a))).
    - repeat split; constructor.
    - intros a file Hfile Ha. apply schema_file_entries; assumption. }
  destruct H as [Ht [Hd [Hf [Hp Hr]]]].
  unfold schema_entries_ok, slice0.
  cbn [Schema.tables Schema.types Schema.functions Schema.policies
       Schema.relationships].
  repeat split; apply Forall_firstn; assumption.
Qed.

Lemma usage_of_file_shape (file content : jsstring) (u : Schema.reference) :
  In u (usage_of_file file content) ->
  identifier (Schema.ref_table u) /\ Schema.ref_file u = file
  /\ Schema.ref_kind u = js "query"
  /\ includes content (js "supabase") = true.
Proof.
  unfold usage_of_file. intros H.
  destruct (includes content (js "supabase")); [|destruct H].
  apply in_flat_map in H. destruct H as [x [_ H]].
  destruct (first_group false quoted_word (whole x)) as [n|] eqn:E;
    [|destruct H].
  destruct H as [<-|[]]. cbn [Schema.ref_table Schema.ref_file Schema.ref_kind].
  repeat split; try reflexivity;
    apply (@first_group_identifier _ _ _ _ quoted_word_capture E).
Qed.

(** X23: each usage listed by [analyze_database_schema] names a table that
    is an identifier, has the operation [query], and comes from one of the
    first thirty code files, whose text contains [supabase]. *)
Theorem schema_usage_well_formed (rt : Runtime) (r : Schema.report)
  (u : Schema.reference)
  (Hreport : analyzeDatabaseSchema rt = Report r)
  (Hin : In u (Schema.supabaseUsage r)) :
  identifier (Schema.ref_table u)
  /\ Schema.ref_kind u = js "query"
  /\ In (Schema.ref_file u) (firstn 30 (source_files rt))
  /\ includes (content_of rt (Schema.ref_file u)) (js "supabase") = true.
Proof.
  apply analyzeDatabaseSchema_report in Hreport. subst r.
  cbv zeta in Hin. cbn [Schema.supabaseUsage] in Hin.
  apply in_firstn in Hin. unfold all_usage in Hin.
  apply in_flat_map in Hin. destruct Hin as [file [Hfile Hu]].
  apply usage_of_file_shape in Hu. destruct Hu as [Hid [<- [Hk Hc]]].
  repeat split; try assumption; apply Hid.
Qed.

(** ** The properties above on concrete projects *)

Lemma routing_report_limits_witness :
  exists r,
    getRoutingStructure (scenario parse_manifest) = Report r
    /\ Routing.totalRoutes r = 2
    /\ List.length (Routing.routes r) = Nat.min 20 (Routing.totalRoutes r).
Proof.
  eexists. split; [reflexivity|]. split; [vm_compute; reflexivity|].
  apply (@routing_report_limits (scenario parse_manifest) _ eq_refl).
Defined.

Lemma route_facts_well_formed_witness :
  exists r,
    getRoutingStructure (scenario parse_manifest) = Report r
    /\ In route_home (Routing.routes r)
    /\ In (Routing.file route_home) (routing_files (scenario parse_manifest))
    /\ Routing.component route_home = componentName (Routing.file route_home).
Proof.
  eexists. split; [reflexivity|].
  assert (Hin : In route_home
                  (slice0 20 (all_routes (scenario parse_manifest))))
    by (vm_compute; left; reflexivity).
  split; [exact Hin|].
  destruct (@route_facts_well_formed (scenario parse_manifest) _ route_home
              eq_refl Hin) as [H1 [H2 _]].
  split; assumption.
Defined.

Lemma api_calls_well_formed_witness :
  exists r,
    analyzeApiCalls project_with_backend = Report r
    /\ In call_users (Api.calls r)
    /\ call_shape call_users
    /\ In (Api.file call_users) (slice0 50 (source_files project_with_backend)).
Proof.
  eexists. split; [reflexivity|].
  assert (Hin : In call_users (slice0 20 (all_calls project_with_backend)))
    by (vm_compute; left; reflexivity).
  split; [exact Hin|].
  exact (@api_calls_well_formed project_with_backend _ call_users eq_refl Hin).
Defined.

Lemma api_report_counts_witness :
  exists r,
    analyzeApiCalls project_with_backend = Report r
    /\ Api.totalApiCalls r = 4
    /\ sum_of (JsMap.values (Api.apiTypes r)) = Api.totalApiCalls r
    /\ sum_of (JsMap.values (Api.methods r)) = 2.
Proof.
  eexists. split; [reflexivity|]. split; [vm_compute; reflexivity|].
  destruct (@api_report_counts project_with_backend _ eq_refl)
    as [_ [_ [H [H' _]]]].
  split; [exact H|]. rewrite H'. vm_compute. reflexivity.
Defined.

Lemma hooks_report_counts_witness :
  exists r,
    getHooksUsage project_with_classes = Report r
    /\ Hooks.totalHooksUsage r = 4
    /\ list_sum (map snd (Hooks.mostUsedHooks r)) <= Hooks.totalHooksUsage r.
Proof.
  eexists. split; [reflexivity|]. split; [vm_compute; reflexivity|].
  apply (@hooks_report_counts project_with_classes _ eq_refl).
Defined.

Lemma custom_hooks_found_witness :
  exists r,
    getHooksUsage project_with_classes = Report r
    /\ Hooks.customHooksFound r = [js "useToast"]
    /\ NoDup (Hooks.customHooksFound r)
    /\ forall h, In h (Hooks.customHooksFound r) ->
                 isBuiltIn h = false /\ custom_hook_shape h.
Proof.
  eexists. split; [reflexivity|]. split; [vm_compute; reflexivity|].
  apply (@custom_hooks_found project_with_classes _ eq_refl).
Defined.

Lemma most_used_classes_entries_witness :
  exists r,
    getTailwindUsage project_with_classes = Report r
    /\ Tailwind.totalUniqueClasses r = 4
    /\ NoDup (map fst (Tailwind.mostUsedClasses r))
    /\ List.length (Tailwind.mostUsedClasses r)
       = Nat.min 30 (Tailwind.totalUniqueClasses r).
Proof.
  eexists. split; [reflexivity|]. split; [vm_compute; reflexivity|].
  destruct (@most_used_classes_entries project_with_classes _ eq_refl)
    as [H1 [H2 _]].
  split; assumption.
Defined.

Lemma tailwind_file_usage_witness :
  exists r,
    getTailwindUsage project_with_blank_class = Report r
    /\ Tailwind.analyzedFiles r = 1
    /\ Tailwind.totalUniqueClasses r = 0
    /\ Tailwind.files r
       = [{| Tailwind.file := js "src/Blank.tsx";
             Tailwind.uniqueClasses := 1;
             Tailwind.totalClasses := 2;
             Tailwind.topClasses := [[]] |}]
    /\ Tailwind.analyzedFiles r
       = List.length
           (filter (fun file =>
                      has_class_attribute
                        (content_of project_with_blank_class file))
              (slice0 50 (source_files project_with_blank_class))).
Proof.
  eexists. split; [reflexivity|]. split; [vm_compute; reflexivity|].
  split; [vm_compute; reflexivity|]. split; [vm_compute; reflexivity|].
  apply (@tailwind_file_usage project_with_blank_class _ eq_refl).
Defined.

Lemma dependencies_all_categorized_witness :
  exists r,
    analyzeDependencies (scenario parse_manifest) = Report r
    /\ Dependencies.totalDependencies r = 2
    /\ categorized (Dependencies.byCategory r)
       = Dependencies.totalDependencies r + Dependencies.totalDevDependencies r.
Proof.
  eexists. split; [reflexivity|]. split; [vm_compute; reflexivity|].
  apply (@dependencies_all_categorized (scenario parse_manifest) _ eq_refl).
Defined.

Lemma framework_flags_agree_witness :
  exists p d,
    analyzeProject (scenario parse_manifest) = Report p
    /\ analyzeDependencies (scenario parse_manifest) = Report d
    /\ Dependencies.hasReact (Dependencies.detected d) = true
    /\ Project.hasReact p = true.
Proof.
  eexists. eexists. split; [reflexivity|]. split; [reflexivity|].
  split; [vm_compute; reflexivity|].
  destruct (@framework_flags_agree (scenario parse_manifest) _ _ eq_refl eq_refl)
    as [_ [_ [_ [Hr _]]]].
  apply Hr. vm_compute. reflexivity.
Defined.

Lemma components_total_matches_project_witness :
  exists c p,
    getComponents project_with_22_components = Report c
    /\ analyzeProject project_with_22_components = Report p
    /\ Components.totalComponents c = 22
    /\ Components.totalComponents c
       = Project.tsx (Project.types p) + Project.jsx (Project.types p).
Proof.
  eexists. eexists. split; [reflexivity|]. split; [reflexivity|].
  split; [vm_compute; reflexivity|].
  apply (@components_total_matches_project project_with_22_components _ _
           eq_refl eq_refl).
Defined.

Lemma enumeration_skips_ignored_witness :
  fg (project_of [card_tsx]) source_patterns ignore_build
    = Ok [js "src/Card.tsx"]
  /\ In (js "dist") ignored_directories
  /\ In (js "src/Card.tsx") (tree (project_of [card_tsx]))
  /\ ~ In (js "dist") (split (js "src/Card.tsx") 47%N).
Proof.
  assert (Hfiles : fg (project_of [card_tsx]) source_patterns ignore_build
                   = Ok [js "src/Card.tsx"])
    by (vm_compute; reflexivity).
  assert (Hd : In (js "dist") ignored_directories)
    by (right; left; reflexivity).
  split; [exact Hfiles|]. split; [exact Hd|].
  exact (@enumeration_skips_ignored _ _ _ _ _ Hfiles (or_introl eq_refl) Hd).
Defined.

Lemma structure_resource_witness :
  walk_error (project_of [card_tsx]) structure_patterns structure_ignore = None
  /\ exists s,
       handleReadResource (project_of [card_tsx]) (js "project://structure")
       = Ok [{| r_uri := js "project://structure";
                mimeType := js "application/json";
                r_text := StructureText s |}]
       /\ Structure.totalFiles s = 1
       /\ Structure.directories s = [js "src"].
Proof.
  split; [reflexivity|].
  destruct (@structure_resource (project_of [card_tsx]) eq_refl)
    as [s [Hs _]].
  exists s. split; [exact Hs|].
  injection Hs as <-. split; vm_compute; reflexivity.
Defined.

Lemma project_path_from_flag_witness :
  Forall (fun a => startsWith a (js "--project-path=") = false)
    [js "node"; js "server.js"]
  /\ projectPath ([js "node"; js "server.js"]
                  ++ (js "--project-path=" ++ js "/srv/app=1") :: [js "--verbose"])
       (js "/home/dev")
     = js "/srv/app"
  /\ projectPath [js "node"; js "server.js"] (js "/home/dev") = js "/home/dev".
Proof.
  assert (Hpre : Forall (fun a => startsWith a (js "--project-path=") = false)
                   [js "node"; js "server.js"])
    by (repeat constructor).
  split; [exact Hpre|].
  exact (@project_path_from_flag [js "node"; js "server.js"] [js "--verbose"]
           (js "/srv/app=1") (js "/home/dev") Hpre).
Defined.

Lemma schema_report_limits_witness :
  exists r,
    analyzeDatabaseSchema project_with_backend = Report r
    /\ Schema.totalTables (Schema.stats r) = 1
    /\ List.length (Schema.tables (Schema.found r))
       = Nat.min 20 (Schema.totalTables (Schema.stats r)).
Proof.
  eexists. split; [reflexivity|]. split; [vm_compute; reflexivity|].
  apply (@schema_report_limits project_with_backend _ eq_refl).
Defined.

Lemma schema_entries_well_formed_witness :
  exists r,
    analyzeDatabaseSchema project_with_backend = Report r
    /\ map Schema.t_name (Schema.tables (Schema.found r)) = [js "users"]
    /\ schema_entries_ok (Schema.schemaFiles r) (Schema.found r).
Proof.
  eexists. split; [reflexivity|]. split; [vm_compute; reflexivity|].
  apply (@schema_entries_well_formed project_with_backend _ eq_refl).
Defined.

Lemma schema_usage_well_formed_witness :
  exists r,
    analyzeDatabaseSchema project_with_backend = Report r
    /\ In usage_profiles (Schema.supabaseUsage r)
    /\ identifier (Schema.ref_table usage_profiles)
    /\ In (Schema.ref_file usage_profiles)
         (firstn 30 (source_files project_with_backend)).
Proof.
  eexists. split; [reflexivity|].
  assert (Hin : In usage_profiles (slice0 15 (all_usage project_with_backend)))
    by (vm_compute; left; reflexivity).
  split; [exact Hin|].
  destruct (@schema_usage_well_formed project_with_backend _ usage_profiles
              eq_refl Hin) as [H1 [_ [H2 _]]].
  split; assumption.
Defined.
